(** * Zscaler -> vManage prefix-list synchronisation: a shallow embedding

    This development embeds [src/zscaler_to_vmanage.py] and states the
    properties of its reconciliation engine: prefix extraction
    ([fetch_zscaler_prefixes] with its local functions [add_cidr] and
    [walk]), and the delta, guard, chunking, apply loop and exit codes of
    [main].

    Conventions.
    - A Python [str] is a Rocq [string], one [ascii] per code point; the
      model covers the code points up to U+00FF.  Ordering of strings is
      the lexicographic order on code points, which is Python's.
    - A Python [int] is a [Z]; a Python [float] is a primitive binary64
      [float], so the guard's arithmetic rounds as it does in CPython.
    - A [set[str]] is a [gset string]; [sorted] is a merge sort for the
      order on strings (a set has no duplicates and the order is total,
      so the sorted list is unique whatever the algorithm).
    - An exception is an explicit result [Raise e]; [try ... except
      Exception] is a handler on that result.
    - The limits of the interpreter on resources (depth of recursion,
      memory) are not modelled. *)

From Stdlib Require Import ZArith String Ascii List Floats Uint63 Lia.
From stdpp Require Import gmap strings list sorting.

Local Open Scope Z_scope.

(** ** Exceptions and results *)

Inductive exn : Type :=
| AddressValueError
| NetmaskValueError
| ValueError
| TypeError
| OverflowError
| AttributeError
| RuntimeError
| OSError
| HTTPError.

#[global] Instance exn_eq_dec : EqDecision exn.
Proof. solve_decision. Defined.

Inductive res (A : Type) : Type :=
| Ok (a : A)
| Raise (e : exn).
Arguments Ok {A} a.
Arguments Raise {A} e.

#[global] Instance res_bind : MBind res := λ A B k r,
  match r with
  | Ok a => k a
  | Raise e => Raise e
  end.

Fixpoint res_mapM {A B} (f : A → res B) (l : list A) : res (list B) :=
  match l with
  | [] => Ok []
  | a :: l' => b ← f a; bs ← res_mapM f l'; Ok (b :: bs)
  end.

(** ** Python string primitives *)

Module PyStr.

Definition code (c : ascii) : Z := Z.of_N (N_of_ascii c).

(** [str.isspace] on the code points below 256. *)
Definition isspace (c : ascii) : bool :=
  let n := code c in
  ((9 <=? n) && (n <=? 13)) || ((28 <=? n) && (n <=? 32))
  || (n =? 133) || (n =? 160).

Fixpoint lstrip (s : string) : string :=
  match s with
  | EmptyString => EmptyString
  | String c s' => if isspace c then lstrip s' else s
  end.

Definition rstrip (s : string) : string :=
  String.rev (lstrip (String.rev s)).

(** [s.strip()] *)
Definition strip (s : string) : string := rstrip (lstrip s).

(** [c in s] for a one-character [c]. *)
Fixpoint contains (c : ascii) (s : string) : bool :=
  match s with
  | EmptyString => false
  | String d s' => Ascii.eqb d c || contains c s'
  end.

(** [s.split(sep)] for a one-character separator. *)
Fixpoint split (sep : ascii) (s : string) : list string :=
  match s with
  | EmptyString => [EmptyString]
  | String c s' =>
      if Ascii.eqb c sep then EmptyString :: split sep s'
      else match split sep s' with
           | p :: ps => String c p :: ps
           | [] => [String c EmptyString]
           end
  end.

(** [s.partition(sep)]: the text before the first [sep], and the text
    after it when there is one. *)
Fixpoint partition (sep : ascii) (s : string) : string * option string :=
  match s with
  | EmptyString => (EmptyString, None)
  | String c s' =>
      if Ascii.eqb c sep then (EmptyString, Some s')
      else let '(a, b) := partition sep s' in (String c a, b)
  end.

(** [sep.join(l)] *)
Fixpoint join (sep : string) (l : list string) : string :=
  match l with
  | [] => EmptyString
  | [a] => a
  | a :: l' => a +:+ sep +:+ join sep l'
  end.

Definition is_digit (c : ascii) : bool :=
  let n := code c in (48 <=? n) && (n <=? 57).

Fixpoint all_chars (p : ascii → bool) (s : string) : bool :=
  match s with
  | EmptyString => true
  | String c s' => p c && all_chars p s'
  end.

Definition is_empty (s : string) : bool :=
  match s with EmptyString => true | _ => false end.

(** [s.isascii() and s.isdigit()]: non-empty and made of '0'..'9'. *)
Definition isascii_isdigit (s : string) : bool :=
  negb (is_empty s) && all_chars is_digit s.

Definition digit_val (c : ascii) : Z := code c - 48.

Fixpoint int10_go (acc : Z) (s : string) : Z :=
  match s with
  | EmptyString => acc
  | String c s' => int10_go (10 * acc + digit_val c) s'
  end.

(** [int(s, 10)] on a string of ASCII digits. *)
Definition int10 (s : string) : Z := int10_go 0 s.

(** The interpreter's default limit on the number of digits of a decimal
    string that [int] converts; a longer one is a [ValueError]. *)
Definition int_max_str_digits : Z := 4300.

Definition hex_val (c : ascii) : option Z :=
  let n := code c in
  if (48 <=? n) && (n <=? 57) then Some (n - 48)
  else if (65 <=? n) && (n <=? 70) then Some (n - 55)
  else if (97 <=? n) && (n <=? 102) then Some (n - 87)
  else None.

Definition is_hex_digit (c : ascii) : bool :=
  match hex_val c with Some _ => true | None => false end.

Fixpoint int16_go (acc : Z) (s : string) : Z :=
  match s with
  | EmptyString => acc
  | String c s' =>
      int16_go (16 * acc + match hex_val c with Some v => v | None => 0 end) s'
  end.

(** [int(s, 16)] on a non-empty string of hexadecimal digits. *)
Definition int16 (s : string) : Z := int16_go 0 s.

Definition digit_char (d : Z) : ascii :=
  ascii_of_N (Z.to_N (if d <? 10 then 48 + d else 87 + d)).

(** Digits of [n] in base [b], most significant first; [fuel] bounds
    the number of digits. *)
Fixpoint digits_go (b : Z) (fuel : nat) (n : Z) (acc : string) : string :=
  match fuel with
  | O => acc
  | S fuel' =>
      let acc' := String (digit_char (n mod b)) acc in
      if n / b =? 0 then acc' else digits_go b fuel' (n / b) acc'
  end.

Definition digits (b : Z) (n : Z) : string :=
  digits_go b (S (Z.to_nat (Z.log2 n))) n EmptyString.

(** [str(n)] for an [int]. *)
Definition str_of_int (n : Z) : string :=
  if n <? 0 then String "-"%char (digits 10 (- n)) else digits 10 n.

(** ['%x' % n] for a non-negative [int]. *)
Definition hex_of_int (n : Z) : string := digits 16 n.

Fixpoint zeros (k : nat) : string :=
  match k with
  | O => EmptyString
  | S k' => String "0"%char (zeros k')
  end.

(** [f"{n:02d}"] for a non-negative [int]: decimal, zero-padded on the
    left to a width of at least two. *)
Definition fmt_02d (n : Z) : string :=
  let s := str_of_int n in
  zeros (2 - String.length s) +:+ s.

End PyStr.

(** ** The [ipaddress] library: [ip_network(address, strict=False)]

    The model follows CPython 3.11's [ipaddress.py] on string arguments:
    [IPv4Network] is tried first and [IPv6Network] next, each failing
    with [AddressValueError] or [NetmaskValueError]. *)

Module ipaddress.

Inductive ip_version : Type := IPv4 | IPv6.

#[global] Instance ip_version_eq_dec : EqDecision ip_version.
Proof. solve_decision. Defined.

(** An [IPv4Network] or [IPv6Network] object: the attributes the program
    reads.  [scope_id] is the zone of an IPv6 network address. *)
Record network : Type := mk_network {
  version : ip_version;
  network_address : Z;
  scope_id : option string;
  prefixlen : Z
}.

Definition max_prefixlen (v : ip_version) : Z :=
  match v with IPv4 => 32 | IPv6 => 128 end.

Definition ALL_ONES (v : ip_version) : Z := 2 ^ max_prefixlen v - 1.

(** [int.bit_length] *)
Definition bit_length (n : Z) : Z :=
  if n =? 0 then 0 else Z.log2 (Z.abs n) + 1.

Definition count_righthand_zero_bits (number bits : Z) : Z :=
  if number =? 0 then bits
  else Z.min bits (bit_length (Z.land (Z.lnot number) (number - 1))).

Definition ip_int_from_prefix (v : ip_version) (prefixlen : Z) : Z :=
  Z.lxor (ALL_ONES v) (Z.shiftr (ALL_ONES v) prefixlen).

Definition prefix_from_ip_int (v : ip_version) (ip_int : Z) : res Z :=
  let trailing_zeroes := count_righthand_zero_bits ip_int (max_prefixlen v) in
  let prefixlen := max_prefixlen v - trailing_zeroes in
  let leading_ones := Z.shiftr ip_int trailing_zeroes in
  let all_ones := Z.shiftl 1 prefixlen - 1 in
  if negb (leading_ones =? all_ones) then Raise ValueError else Ok prefixlen.

Definition prefix_from_prefix_string (v : ip_version) (prefixlen_str : string)
  : res Z :=
  if negb (PyStr.isascii_isdigit prefixlen_str) then Raise NetmaskValueError
  else if PyStr.int_max_str_digits <? Z.of_nat (String.length prefixlen_str)
  then Raise NetmaskValueError
  else
    let prefixlen := PyStr.int10 prefixlen_str in
    if negb ((0 <=? prefixlen) && (prefixlen <=? max_prefixlen v))
    then Raise NetmaskValueError
    else Ok prefixlen.

(** *** IPv4 *)

Definition parse_octet (octet_str : string) : res Z :=
  if PyStr.is_empty octet_str then Raise ValueError
  else if negb (PyStr.isascii_isdigit octet_str) then Raise ValueError
  else if (3 <? Z.of_nat (String.length octet_str)) then Raise ValueError
  else if negb (String.eqb octet_str "0")
          && match octet_str with
             | String c _ => Ascii.eqb c "0"
             | EmptyString => false
             end
       then Raise ValueError
  else
    let octet_int := PyStr.int10 octet_str in
    if 255 <? octet_int then Raise ValueError else Ok octet_int.

(** [int.from_bytes(bs, 'big')] *)
Definition from_bytes_big (bs : list Z) : Z :=
  fold_left (fun acc b => 256 * acc + b) bs 0.

Definition v4_ip_int_from_string (ip_str : string) : res Z :=
  if PyStr.is_empty ip_str then Raise AddressValueError
  else
    let octets := PyStr.split "." ip_str in
    if negb (Nat.eqb (length octets) 4) then Raise AddressValueError
    else
      match res_mapM parse_octet octets with
      | Ok bs => Ok (from_bytes_big bs)
      | Raise ValueError => Raise AddressValueError
      | Raise e => Raise e
      end.

(** [IPv4Address(address)._ip] for a string. *)
Definition IPv4Address (address : string) : res Z :=
  if PyStr.contains "/" address then Raise AddressValueError
  else v4_ip_int_from_string address.

Definition v4_prefix_from_ip_string (ip_str : string) : res Z :=
  match v4_ip_int_from_string ip_str with
  | Raise AddressValueError => Raise NetmaskValueError
  | Raise e => Raise e
  | Ok ip_int =>
      match prefix_from_ip_int IPv4 ip_int with
      | Ok p => Ok p
      | Raise ValueError =>
          match prefix_from_ip_int IPv4 (Z.lxor ip_int (ALL_ONES IPv4)) with
          | Ok p => Ok p
          | Raise ValueError => Raise NetmaskValueError
          | Raise e => Raise e
          end
      | Raise e => Raise e
      end
  end.

(** [_BaseV4._make_netmask(arg)]: [None] stands for the integer
    [_max_prefixlen] that [_split_addr_prefix] supplies when the address
    has no slash. *)
Definition v4_make_netmask (arg : option string) : res Z :=
  match arg with
  | None => Ok (max_prefixlen IPv4)
  | Some s =>
      match prefix_from_prefix_string IPv4 s with
      | Ok p => Ok p
      | Raise NetmaskValueError => v4_prefix_from_ip_string s
      | Raise e => Raise e
      end
  end.

(** [_split_addr_prefix] on a string. *)
Definition split_addr_prefix (address : string) : res (string * option string) :=
  match PyStr.split "/" address with
  | [addr] => Ok (addr, None)
  | [addr; mask] => Ok (addr, Some mask)
  | _ => Raise AddressValueError
  end.

Definition IPv4Network (address : string) : res network :=
  '(addr, mask) ← split_addr_prefix address;
  ip ← IPv4Address addr;
  p ← v4_make_netmask mask;
  let netmask := ip_int_from_prefix IPv4 p in
  let packed := ip in
  Ok (mk_network IPv4
        (if negb (Z.land packed netmask =? packed)
         then Z.land packed netmask else packed)
        None p).

(** *** IPv6 *)

Definition parse_hextet (hextet_str : string) : res Z :=
  if negb (PyStr.all_chars PyStr.is_hex_digit hextet_str) then Raise ValueError
  else if (4 <? Z.of_nat (String.length hextet_str)) then Raise ValueError
  else if PyStr.is_empty hextet_str then Raise ValueError
  else Ok (PyStr.int16 hextet_str).

(** The loop that looks for the one empty part allowed strictly inside
    [parts]; [i] is the index of the head of [inner]. *)
Fixpoint find_skip_index (inner : list string) (i : Z) (skip_index : option Z)
  : res (option Z) :=
  match inner with
  | [] => Ok skip_index
  | p :: rest =>
      if PyStr.is_empty p then
        match skip_index with
        | Some _ => Raise AddressValueError
        | None => find_skip_index rest (i + 1) (Some i)
        end
      else find_skip_index rest (i + 1) skip_index
  end.

(** [ip_int <<= 16; ip_int |= parse_hextet(part)] over [parts]. *)
Fixpoint parse_hextets (ip_int : Z) (parts : list string) : res Z :=
  match parts with
  | [] => Ok ip_int
  | p :: rest =>
      h ← parse_hextet p;
      parse_hextets (Z.lor (Z.shiftl ip_int 16) h) rest
  end.

Definition HEXTET_COUNT : Z := 8.

Definition v6_ip_int_from_string (ip_str : string) : res Z :=
  if PyStr.is_empty ip_str then Raise AddressValueError
  else
    let parts := PyStr.split ":" ip_str in
    if Z.of_nat (length parts) <? 3 then Raise AddressValueError
    else
      parts ← (let lastp := List.last parts EmptyString in
               if PyStr.contains "." lastp then
                 match IPv4Address lastp with
                 | Ok ipv4_int =>
                     Ok (removelast parts
                         ++ [PyStr.hex_of_int (Z.land (Z.shiftr ipv4_int 16) 65535);
                             PyStr.hex_of_int (Z.land ipv4_int 65535)])
                 | Raise e => Raise e
                 end
               else Ok parts);
      let n := Z.of_nat (length parts) in
      if HEXTET_COUNT + 1 <? n then Raise AddressValueError
      else
        skip_index ← find_skip_index (removelast (tail parts)) 1 None;
        let first_empty := PyStr.is_empty (List.hd EmptyString parts) in
        let last_empty := PyStr.is_empty (List.last parts EmptyString) in
        '(parts_hi, parts_lo, parts_skipped) ←
          match skip_index with
          | Some skip_index =>
              parts_hi ← (if first_empty then
                            if negb (skip_index - 1 =? 0) then Raise AddressValueError
                            else Ok (skip_index - 1)
                          else Ok skip_index);
              parts_lo ← (if last_empty then
                            if negb (n - skip_index - 1 - 1 =? 0)
                            then Raise AddressValueError
                            else Ok (n - skip_index - 1 - 1)
                          else Ok (n - skip_index - 1));
              let parts_skipped := HEXTET_COUNT - (parts_hi + parts_lo) in
              if parts_skipped <? 1 then Raise AddressValueError
              else Ok (parts_hi, parts_lo, parts_skipped)
          | None =>
              if negb (n =? HEXTET_COUNT) then Raise AddressValueError
              else if first_empty then Raise AddressValueError
              else if last_empty then Raise AddressValueError
              else Ok (n, 0, 0)
          end;
        match
          (hi ← parse_hextets 0 (firstn (Z.to_nat parts_hi) parts);
           parse_hextets (Z.shiftl hi (16 * parts_skipped))
             (skipn (Z.to_nat (n - parts_lo)) parts))
        with
        | Ok ip_int => Ok ip_int
        | Raise ValueError => Raise AddressValueError
        | Raise e => Raise e
        end.

Definition split_scope_id (ip_str : string) : res (string * option string) :=
  match PyStr.partition "%" ip_str with
  | (addr, None) => Ok (addr, None)
  | (addr, Some scope_id) =>
      if PyStr.is_empty scope_id || PyStr.contains "%" scope_id
      then Raise AddressValueError
      else Ok (addr, Some scope_id)
  end.

(** [IPv6Address(address)]: its [_ip] and [_scope_id], for a string. *)
Definition IPv6Address (address : string) : res (Z * option string) :=
  if PyStr.contains "/" address then Raise AddressValueError
  else
    '(addr_str, scope) ← split_scope_id address;
    ip ← v6_ip_int_from_string addr_str;
    Ok (ip, scope).

Definition v6_make_netmask (arg : option string) : res Z :=
  match arg with
  | None => Ok (max_prefixlen IPv6)
  | Some s => prefix_from_prefix_string IPv6 s
  end.

Definition IPv6Network (address : string) : res network :=
  '(addr, mask) ← split_addr_prefix address;
  '(ip, scope) ← IPv6Address addr;
  p ← v6_make_netmask mask;
  let netmask := ip_int_from_prefix IPv6 p in
  let packed := ip in
  Ok (if negb (Z.land packed netmask =? packed)
      then mk_network IPv6 (Z.land packed netmask) None p
      else mk_network IPv6 packed scope p).

(** [ip_network(address, strict=False)] *)
Definition ip_network (address : string) : res network :=
  match IPv4Network address with
  | Ok net => Ok net
  | Raise AddressValueError | Raise NetmaskValueError =>
      match IPv6Network address with
      | Ok net => Ok net
      | Raise AddressValueError | Raise NetmaskValueError => Raise ValueError
      | Raise e => Raise e
      end
  | Raise e => Raise e
  end.

(** *** Text of an address *)

Definition v4_string_from_ip_int (ip_int : Z) : string :=
  PyStr.join "."
    (map (fun k => PyStr.str_of_int (Z.land (Z.shiftr ip_int (8 * k)) 255))
       [3; 2; 1; 0]).

(** The scan of [_compress_hextets]: the state is [(best_doublecolon_start,
    best_doublecolon_len, doublecolon_start, doublecolon_len)]. *)
Fixpoint compress_scan (hextets : list string) (index : Z) (st : Z * Z * Z * Z)
  : Z * Z * Z * Z :=
  match hextets with
  | [] => st
  | hextet :: rest =>
      let '(bs, bl, ds, dl) := st in
      compress_scan rest (index + 1)
        (if String.eqb hextet "0" then
           let dl := dl + 1 in
           let ds := if ds =? -1 then index else ds in
           if bl <? dl then (ds, dl, ds, dl) else (bs, bl, ds, dl)
         else (bs, bl, -1, 0))
  end.

Definition compress_hextets (hextets : list string) : list string :=
  let '(best_start, best_len, _, _) := compress_scan hextets 0 (-1, 0, -1, 0) in
  if 1 <? best_len then
    let best_end := best_start + best_len in
    let hextets :=
      if best_end =? Z.of_nat (length hextets)
      then hextets ++ [EmptyString] else hextets in
    let hextets :=
      firstn (Z.to_nat best_start) hextets ++ [EmptyString]
      ++ skipn (Z.to_nat best_end) hextets in
    if best_start =? 0 then EmptyString :: hextets else hextets
  else hextets.

Definition v6_string_from_ip_int (ip_int : Z) : string :=
  PyStr.join ":"
    (compress_hextets
       (map (fun k => PyStr.hex_of_int (Z.land (Z.shiftr ip_int (16 * k)) 65535))
          [7; 6; 5; 4; 3; 2; 1; 0])).

(** [str(net.network_address)] *)
Definition address_str (net : network) : string :=
  match version net with
  | IPv4 => v4_string_from_ip_int (network_address net)
  | IPv6 =>
      let ip_str := v6_string_from_ip_int (network_address net) in
      match scope_id net with
      | Some scope => ip_str +:+ "%" +:+ scope
      | None => ip_str
      end
  end.

(** [net.version] as the integer 4 or 6. *)
Definition version_int (net : network) : Z :=
  match version net with IPv4 => 4 | IPv6 => 6 end.

End ipaddress.

(** ** JSON values as the program sees them

    [r.json()] yields [None], [bool], [int], [float], [str], [list] and
    [dict] values.  A [dict] keeps its insertion order, which is the order
    [obj.values()] iterates in: it is an association list, whose keys are
    distinct in a value that comes from the JSON decoder.  An [int] of
    such a value was read by [int] from its digits, so it has no more
    digits than [PyStr.int_max_str_digits] and [str] prints it. *)

#[local] Set Warnings "-register-all".

Inductive json : Type :=
| JNull
| JBool (b : bool)
| JInt (n : Z)
| JFloat (f : float)
| JStr (s : string)
| JList (l : list json)
| JDict (d : list (string * json)).

Module Py.

(** [key in obj] *)
Fixpoint dict_has (d : list (string * json)) (key : string) : bool :=
  match d with
  | [] => false
  | (k, _) :: rest => String.eqb k key || dict_has rest key
  end.

(** [obj.get(key)], where Python's [None] is [JNull]; also [obj[key]]
    when the key is present. *)
Fixpoint dict_get (d : list (string * json)) (key : string) : json :=
  match d with
  | [] => JNull
  | (k, v) :: rest => if String.eqb k key then v else dict_get rest key
  end.

(** Truth value of an object, as [if x:] and [or] test it. *)
Definition truthy (v : json) : bool :=
  match v with
  | JNull => false
  | JBool b => b
  | JInt n => negb (n =? 0)
  | JFloat f => negb (PrimFloat.eqb f 0)
  | JStr s => negb (PyStr.is_empty s)
  | JList l => match l with [] => false | _ => true end
  | JDict d => match d with [] => false | _ => true end
  end.

(** [a or b] *)
Definition or_ (a b : json) : json := if truthy a then a else b.

(** [x is not None] *)
Definition is_not_None (v : json) : bool :=
  match v with JNull => false | _ => true end.

(** [v == s] for a string [s]: only an equal [str] compares equal. *)
Definition eq_str (v : json) (s : string) : bool :=
  match v with JStr t => String.eqb t s | _ => false end.

(** White space that [int(str)] skips at both ends. *)
Definition int_isspace (c : ascii) : bool :=
  let n := PyStr.code c in
  ((9 <=? n) && (n <=? 13)) || (n =? 32) || (n =? 133) || (n =? 160).

Fixpoint int_lstrip (s : string) : string :=
  match s with
  | EmptyString => EmptyString
  | String c s' => if int_isspace c then int_lstrip s' else s
  end.

(** Digits with single underscores between them: the value and the
    number of digits, or [None] when the text is not of that form. *)
Fixpoint int_body (s : string) (after_digit : bool) (acc : Z) (ndigits : Z)
  : option (Z * Z) :=
  match s with
  | EmptyString => if after_digit then Some (acc, ndigits) else None
  | String c s' =>
      if PyStr.is_digit c
      then int_body s' true (10 * acc + PyStr.digit_val c) (ndigits + 1)
      else if Ascii.eqb c "_" && after_digit then int_body s' false acc ndigits
      else None
  end.

(** [int(s)] for a [str]. *)
Definition int_of_str (s : string) : res Z :=
  let s := String.rev (int_lstrip (String.rev (int_lstrip s))) in
  let '(neg, body) :=
    match s with
    | String "-" s' => (true, s')
    | String "+" s' => (false, s')
    | _ => (false, s)
    end in
  match int_body body false 0 0 with
  | Some (n, ndigits) =>
      if PyStr.int_max_str_digits <? ndigits then Raise ValueError
      else Ok (if neg then - n else n)
  | None => Raise ValueError
  end.

(** [int(f)] for a [float]: truncation towards zero. *)
Definition int_of_float (f : float) : res Z :=
  match Prim2SF f with
  | S754_nan => Raise ValueError
  | S754_infinity _ => Raise OverflowError
  | S754_zero _ => Ok 0
  | S754_finite s m e =>
      let a := Z.shiftl (Z.pos m) e in
      Ok (if s then - a else a)
  end.

(** [int(x)] *)
Definition int (x : json) : res Z :=
  match x with
  | JInt n => Ok n
  | JBool b => Ok (if b then 1 else 0)
  | JFloat f => int_of_float f
  | JStr s => int_of_str s
  | JNull | JList _ | JDict _ => Raise TypeError
  end.

(** [a / b] on two non-negative [int]s below 2^53, which convert to
    [float] exactly: the correctly rounded quotient. *)
Definition truediv (a b : Z) : float :=
  PrimFloat.div (PrimFloat.of_uint63 (Uint63.of_Z a))
                (PrimFloat.of_uint63 (Uint63.of_Z b)).

(** [math.ceil(f)] *)
Definition ceil (f : float) : res Z :=
  match Prim2SF f with
  | S754_nan => Raise ValueError
  | S754_infinity _ => Raise OverflowError
  | S754_zero _ => Ok 0
  | S754_finite s m e =>
      Ok (- Z.shiftl (if s then Z.pos m else Z.neg m) e)
  end.

End Py.

(** [sorted(s)] for a set of strings. *)
Definition sorted (s : gset string) : list string :=
  merge_sort String.le (elements s).

(** ** Prefix extraction: [fetch_zscaler_prefixes]

    [py_repr] is [repr] on floats, lists and dicts: the text [str] gives
    for them.  Nothing below depends on what that text is. *)

Section Extractor.

Variable py_repr : json → string.

(** [str(v)] *)
Definition py_str (v : json) : string :=
  match v with
  | JStr s => s
  | JInt n => PyStr.str_of_int n
  | JBool true => "True"
  | JBool false => "False"
  | JNull => "None"
  | JFloat _ | JList _ | JDict _ => py_repr v
  end.

(** The body of the [try] in [add_cidr]. *)
Definition add_cidr_try (value : string) (mask : json) : res ipaddress.network :=
  if PyStr.contains "/" value then ipaddress.ip_network value
  else if Py.is_not_None mask then
    m ← Py.int mask;
    ipaddress.ip_network (value +:+ "/" +:+ PyStr.str_of_int m)
  else ipaddress.ip_network (value +:+ "/32").

(** [f"{net.network_address}/{net.prefixlen}"] *)
Definition cidr_text (net : ipaddress.network) : string :=
  ipaddress.address_str net +:+ "/"
  +:+ PyStr.str_of_int (ipaddress.prefixlen net).

(** [add_cidr(value, mask)]: the closure's [family] and the set [cidrs]
    it updates are explicit.  Every exception of the model is an
    [Exception], so the handler takes them all. *)
Definition add_cidr (family : string) (value : string) (mask : json)
    (cidrs : gset string) : res (gset string) :=
  let value := PyStr.strip value in
  if PyStr.is_empty value then Ok cidrs
  else
    match add_cidr_try value mask with
    | Raise _ => Ok cidrs
    | Ok net =>
        if String.eqb family "ipv4" && negb (ipaddress.version_int net =? 4)
        then Ok cidrs
        else if String.eqb family "ipv6" && negb (ipaddress.version_int net =? 6)
        then Ok cidrs
        else Ok ({[ cidr_text net ]} ∪ cidrs)
    end.

(** The mask that [walk] hands to [add_cidr] for a dict with a
    ["prefix"] key. *)
Definition mask_of (obj : list (string * json)) : json :=
  Py.or_ (Py.or_ (Py.dict_get obj "masklength") (Py.dict_get obj "maskLength"))
         (Py.dict_get obj "mask").

(** The [if]/[elif] at the head of the dict case of [walk]. *)
Definition walk_dict_head (family : string) (obj : list (string * json))
    (cidrs : gset string) : res (gset string) :=
  if Py.dict_has obj "ipPrefix"
  then add_cidr family (py_str (Py.dict_get obj "ipPrefix")) JNull cidrs
  else if Py.dict_has obj "prefix"
  then add_cidr family (py_str (Py.dict_get obj "prefix")) (mask_of obj) cidrs
  else Ok cidrs.

Fixpoint walk (family : string) (obj : json) (cidrs : gset string)
  : res (gset string) :=
  match obj with
  | JDict d =>
      cidrs ← walk_dict_head family d cidrs;
      (fix walk_values (kvs : list (string * json)) (cidrs : gset string)
         : res (gset string) :=
         match kvs with
         | [] => Ok cidrs
         | (_, v) :: rest => cidrs ← walk family v cidrs; walk_values rest cidrs
         end) d cidrs
  | JList l =>
      (fix walk_items (vs : list json) (cidrs : gset string)
         : res (gset string) :=
         match vs with
         | [] => Ok cidrs
         | v :: rest => cidrs ← walk family v cidrs; walk_items rest cidrs
         end) l cidrs
  | JStr s =>
      if PyStr.contains "/" s then add_cidr family s JNull cidrs else Ok cidrs
  | JNull | JBool _ | JInt _ | JFloat _ => Ok cidrs
  end.

(** [for v in vs: walk(v)] *)
Fixpoint walk_all (family : string) (vs : list json) (cidrs : gset string)
  : res (gset string) :=
  match vs with
  | [] => Ok cidrs
  | v :: rest => cidrs ← walk family v cidrs; walk_all family rest cidrs
  end.

(** [fetch_zscaler_prefixes(url, family)].  [requests_get url] is the
    outcome of [requests.get] followed by [raise_for_status]; on success
    it carries the outcome of [r.json()]. *)
Definition fetch_zscaler_prefixes (requests_get : string → res (res json))
    (url family : string) : res (list string) :=
  if PyStr.is_empty url then Raise RuntimeError
  else
    r ← requests_get url;
    data ← match r with
           | Ok data => Ok data
           | Raise _ => Raise RuntimeError
           end;
    cidrs ← walk family data ∅;
    Ok (sorted cidrs).

End Extractor.

(** ** The run: [main]

    The configuration read from the environment, the outside world, and
    the calls [main] makes to it.  Every answer of the world may depend
    on the calls made so far. *)

Record config : Type := mk_config {
  DPL_NAME : string;
  ZSCALER_JSON_URL : string;
  ZSCALER_FAMILY : string;
  ZSCALER_MAX_CHUNK : Z;
  MAX_REMOVE_PERCENT : float
}.

(** An item of [vm_get_dpl_items]: a dict. *)
Abbreviation dpl_item := (list (string * json)).

Inductive event : Type :=
| EvNotify (title : string) (success : bool)
| EvLogin
| EvGetDplItems
| EvBackup (name : string)
| EvUpdate (list_id : json) (name : string) (cidrs : list string)
| EvCreate (name : string) (cidrs : list string)
| EvWriteCache (lst : list string).

Record world : Type := mk_world {
  requests_get : string → res (res json);
  read_cache : list string;
  vm_login : list event → res unit;
  vm_get_dpl_items : list event → res (list dpl_item);
  backup_dpl_json : list event → string → res unit;
  vm_update_dpl : list event → json → string → list string → res unit;
  vm_create_dpl : list event → string → list string → res json
}.

(** A computation of [main]: it extends the trace of calls and returns
    or raises. *)
Definition M (A : Type) : Type := list event → list event * res A.

#[global] Instance M_ret : MRet M := λ A a tr, (tr, Ok a).

#[global] Instance M_bind : MBind M := λ A B k m tr,
  match m tr with
  | (tr', Ok a) => k a tr'
  | (tr', Raise e) => (tr', Raise e)
  end.

(** A call to the world: it is recorded, and answered from the calls
    made before it. *)
Definition call {A} (ev : event) (answer : list event → res A) : M A :=
  λ tr, (tr ++ [ev], answer tr).

(** [try: ... except Exception as e: ...], the outcome made a value. *)
Definition try_ {A} (m : M A) : M (res A) :=
  λ tr, let '(tr', r) := m tr in (tr', Ok r).

Definition lift {A} (r : res A) : M A := λ tr, (tr, r).

(** [notify_teams]: it handles its own failures. *)
Definition notify_teams (title : string) (success : bool) : M unit :=
  call (EvNotify title success) (λ _, Ok ()).

(** [write_cache]: it dumps [sorted(lst)] and handles its own failures. *)
Definition write_cache (lst : list string) : M unit :=
  call (EvWriteCache (merge_sort String.le lst)) (λ _, Ok ()).

Definition len {A} (l : list A) : Z := Z.of_nat (length l).

(** [sorted(new_set - old_set)] *)
Definition to_add (old_cidrs new_cidrs : list string) : list string :=
  sorted (list_to_set new_cidrs ∖ list_to_set old_cidrs).

(** [sorted(old_set - new_set)] *)
Definition to_remove (old_cidrs new_cidrs : list string) : list string :=
  sorted (list_to_set old_cidrs ∖ list_to_set new_cidrs).

Definition pct_remove (old_cidrs new_cidrs : list string) : float :=
  (Py.truediv (len (to_remove old_cidrs new_cidrs)) (Z.max 1 (len old_cidrs))
   * 100)%float.

(** The guard of [main]: [if old_cidrs:] and, inside it,
    [if pct_remove > MAX_REMOVE_PERCENT:]. *)
Definition guard_blocks (cfg : config) (old_cidrs new_cidrs : list string) : bool :=
  match old_cidrs with
  | [] => false
  | _ => PrimFloat.ltb (MAX_REMOVE_PERCENT cfg) (pct_remove old_cidrs new_cidrs)
  end.

(** [math.ceil(total / max_chunk)] for [max_chunk >= 1], that is
    [Py.ceil (Py.truediv total max_chunk)].  The quotient is a [float];
    for [total] below 2^53 it is the correctly rounded quotient of two
    exact doubles, which no rounding takes across an integer, so its
    ceiling is the ceiling of the exact quotient, computed here on
    integers. *)
Definition ceil_div (total max_chunk : Z) : Z :=
  (total + max_chunk - 1) / max_chunk.

(** [l[start:end]] for [0 <= start]. *)
Definition slice {A} (l : list A) (start end_ : Z) : list A :=
  take (Z.to_nat (end_ - start)) (drop (Z.to_nat start) l).

(** The chunk list built in step 4 of [main]. *)
Definition chunks (cfg : config) (new_cidrs : list string)
  : list (string * list string) :=
  let total := len new_cidrs in
  let max_chunk := Z.max 1 (ZSCALER_MAX_CHUNK cfg) in
  if total <=? max_chunk then [(DPL_NAME cfg, new_cidrs)]
  else
    let num_chunks := ceil_div total max_chunk in
    map (λ i,
           let start := i * max_chunk in
           let end_ := Z.min (start + max_chunk) total in
           (DPL_NAME cfg +:+ "_" +:+ PyStr.fmt_02d (i + 1),
            slice new_cidrs start end_))
        (seqZ 0 num_chunks).

(** [next((i for i in existing_items if i.get("name") == name), None)] *)
Definition find_item (existing_items : list dpl_item) (name : string)
  : option dpl_item :=
  List.find (λ i, Py.eq_str (Py.dict_get i "name") name) existing_items.

(** [if item:] on the result of [find_item]. *)
Definition item_truthy (item : option dpl_item) : bool :=
  match item with
  | Some d => Py.truthy (JDict d)
  | None => false
  end.

(** [item.get("listId") or item.get("id") or item.get("uuid") or ""] *)
Definition list_id_of (item : dpl_item) : json :=
  Py.or_ (Py.or_ (Py.or_ (Py.dict_get item "listId") (Py.dict_get item "id"))
                 (Py.dict_get item "uuid"))
         (JStr "").

(** What the apply loop does with one chunk. *)
Inductive action : Type :=
| Update (item : dpl_item) (list_id : json)
| Create.

Definition plan_chunk (existing_items : list dpl_item) (name : string) : action :=
  match find_item existing_items name with
  | Some item =>
      if item_truthy (Some item) then Update item (list_id_of item) else Create
  | None => Create
  end.

(** Step 5 of [main]: [for name, cidr_slice in chunks: ...]. *)
Fixpoint apply_chunks (w : world) (existing_items : list dpl_item)
    (chunks : list (string * list string))
    (updated_lists : list (string * json * Z))
  : M (list (string * json * Z)) :=
  match chunks with
  | [] => mret updated_lists
  | (name, cidr_slice) :: rest =>
      match plan_chunk existing_items name with
      | Update item list_id =>
          call (EvBackup name) (λ tr, backup_dpl_json w tr name);;
          call (EvUpdate list_id name cidr_slice)
               (λ tr, vm_update_dpl w tr list_id name cidr_slice);;
          apply_chunks w existing_items rest
            (updated_lists ++ [(name, list_id, len cidr_slice)])
      | Create =>
          list_id ← call (EvCreate name cidr_slice)
                         (λ tr, vm_create_dpl w tr name cidr_slice);
          apply_chunks w existing_items rest
            (updated_lists ++ [(name, list_id, len cidr_slice)])
      end
  end.

(** [len(x)] *)
Definition py_len (x : json) : res Z :=
  match x with
  | JStr s => Ok (Z.of_nat (String.length s))
  | JList l => Ok (len l)
  | JDict d => Ok (len d)
  | JNull | JBool _ | JInt _ | JFloat _ => Raise TypeError
  end.

(** The lookup of the base list after step 3: its log line takes
    [len(base_item.get("entries") or [])], then the item is backed up. *)
Definition base_item_step (cfg : config) (w : world)
    (existing_items : list dpl_item) : M unit :=
  match find_item existing_items (DPL_NAME cfg) with
  | Some base_item =>
      if item_truthy (Some base_item) then
        lift (py_len (Py.or_ (Py.dict_get base_item "entries") (JList [])));;
        call (EvBackup (DPL_NAME cfg)) (λ tr, backup_dpl_json w tr (DPL_NAME cfg))
      else mret ()
  | None => mret ()
  end.

(** Step 3 of [main]: [vm_login()] then [vm_get_dpl_items(...)]. *)
Definition connect (w : world) : M (list dpl_item) :=
  call EvLogin (vm_login w);;
  call EvGetDplItems (vm_get_dpl_items w).

(** Steps 4 to 6 of [main]: the base list, the chunks and their
    application, then the cache and the notification. *)
Definition push (cfg : config) (w : world) (existing_items : list dpl_item)
    (new_cidrs : list string) : M Z :=
  base_item_step cfg w existing_items;;
  updated_lists ← apply_chunks w existing_items (chunks cfg new_cidrs) [];
  write_cache new_cidrs;;
  notify_teams "Zscaler Sync: Success" true;;
  mret 0.

Section Main.

Variable py_repr : json → string.

(** [main()], with [args.dry_run] explicit. *)
Definition main (cfg : config) (w : world) (dry_run : bool) : M Z :=
  match fetch_zscaler_prefixes py_repr (requests_get w) (ZSCALER_JSON_URL cfg)
          (ZSCALER_FAMILY cfg) with
  | Raise _ =>
      notify_teams "Zscaler Sync: Error" false;;
      mret 1
  | Ok new_cidrs =>
      let old_cidrs := read_cache w in
      if guard_blocks cfg old_cidrs new_cidrs then
        notify_teams "Zscaler Sync: Blocked" false;;
        mret 2
      else if dry_run then mret 0
      else
        r ← try_ (connect w);
        match r with
        | Raise _ =>
            notify_teams "Zscaler Sync: Error" false;;
            mret 3
        | Ok existing_items => push cfg w existing_items new_cidrs
        end
  end.

(** The status of the process: [sys.exit(main())] exits with the value
    [main] returns; an exception that leaves [main] is not caught, and
    the interpreter then exits with status 1. *)
Definition exit_status (r : res Z) : Z :=
  match r with
  | Ok n => n
  | Raise _ => 1
  end.

(** A run from the empty trace: the calls made and the outcome. *)
Definition run (cfg : config) (w : world) (dry_run : bool)
  : list event * res Z :=
  main cfg w dry_run [].

End Main.

(** ** Vocabulary of the statements *)

(** The calls the apply loop makes for one chunk. *)
Definition chunk_events (existing_items : list dpl_item)
    (name : string) (cidr_slice : list string) : list event :=
  match plan_chunk existing_items name with
  | Update _ list_id => [EvBackup name; EvUpdate list_id name cidr_slice]
  | Create => [EvCreate name cidr_slice]
  end.

(** What the apply loop does for its chunks when no call fails. *)
Fixpoint planned_events (existing_items : list dpl_item)
    (cs : list (string * list string)) : list event :=
  match cs with
  | [] => []
  | (name, cidr_slice) :: rest =>
      chunk_events existing_items name cidr_slice
      ++ planned_events existing_items rest
  end.

(** A call to the remote controller, of any kind. *)
Definition remote_call (ev : event) : Prop :=
  match ev with
  | EvLogin | EvGetDplItems | EvUpdate _ _ _ | EvCreate _ _ => True
  | _ => False
  end.

Definition is_write_cache (ev : event) : Prop :=
  match ev with
  | EvWriteCache _ => True
  | _ => False
  end.

(** The name of chunk [i] (from 0) in multi-chunk mode. *)
Definition chunk_name (cfg : config) (i : Z) : string :=
  DPL_NAME cfg +:+ "_" +:+ PyStr.fmt_02d (i + 1).

(** The family filter of [add_cidr] lets [net] through. *)
Definition family_admits (family : string) (net : ipaddress.network) : bool :=
  negb (String.eqb family "ipv4" && negb (ipaddress.version_int net =? 4))
  && negb (String.eqb family "ipv6" && negb (ipaddress.version_int net =? 6)).

(** [add_cidr(value, mask)] adds the prefix [x]: the stripped value is
    not empty, it parses, with the mask when there is one, and its
    family is asked for. *)
Definition yields (family value : string) (mask : json) (x : string) : Prop :=
  ∃ net,
    PyStr.strip value ≠ ""
    ∧ add_cidr_try (PyStr.strip value) mask = Ok net
    ∧ family_admits family net = true
    ∧ x = cidr_text net.

(** An entry of the feed, [{"ipPrefix": value}]. *)
Definition ip_prefix_entry (value : string) : json :=
  JDict [("ipPrefix", JStr value)].

(** ** Further vocabulary *)

(** The set of prefixes that walking [data] gives, from the empty set. *)
Definition extracted (py_repr : json → string) (family : string) (data : json)
  : gset string :=
  match walk py_repr family data ∅ with
  | Ok cidrs => cidrs
  | Raise _ => ∅
  end.

(** A network as [ip_network] returns them: its prefix length is in the
    range of its family and its host bits are at zero. *)
Definition canonical_network (net : ipaddress.network) : Prop :=
  0 ≤ ipaddress.prefixlen net ≤ ipaddress.max_prefixlen (ipaddress.version net)
  ∧ Z.land (ipaddress.network_address net)
           (ipaddress.ip_int_from_prefix (ipaddress.version net)
              (ipaddress.prefixlen net))
    = ipaddress.network_address net.

Section Calls.

Variable py_repr : json → string.

(** The call to [add_cidr] at the head of the dict case of [walk]: its
    value and its mask. *)
Definition dict_head_calls (obj : list (string * json)) : list (string * json) :=
  if Py.dict_has obj "ipPrefix"
  then [(py_str py_repr (Py.dict_get obj "ipPrefix"), JNull)]
  else if Py.dict_has obj "prefix"
  then [(py_str py_repr (Py.dict_get obj "prefix"), mask_of obj)]
  else [].

(** The calls to [add_cidr] that [walk] makes on a value, in order. *)
Fixpoint add_cidr_calls (obj : json) : list (string * json) :=
  match obj with
  | JDict d =>
      dict_head_calls d
      ++ (fix calls_values (kvs : list (string * json)) : list (string * json) :=
            match kvs with
            | [] => []
            | (_, v) :: rest => add_cidr_calls v ++ calls_values rest
            end) d
  | JList l =>
      (fix calls_items (vs : list json) : list (string * json) :=
         match vs with
         | [] => []
         | v :: rest => add_cidr_calls v ++ calls_items rest
         end) l
  | JStr s => if PyStr.contains "/" s then [(s, JNull)] else []
  | JNull | JBool _ | JInt _ | JFloat _ => []
  end.

(** [walk] on [data] calls [add_cidr] with a value that parses as the
    network [net]. *)
Definition parses (data : json) (net : ipaddress.network) : Prop :=
  ∃ value mask,
    (value, mask) ∈ add_cidr_calls data
    ∧ PyStr.strip value ≠ ""
    ∧ add_cidr_try (PyStr.strip value) mask = Ok net.

End Calls.

(** The body that [vm_update_dpl] and [vm_create_dpl] send for a list:
    [{"name": name, "type": "dataPrefix",
      "entries": [{"ipPrefix": c} for c in cidrs]}]. *)
Definition dpl_payload (name : string) (cidrs : list string) : json :=
  JDict [("name", JStr name);
         ("type", JStr "dataPrefix");
         ("entries", JList (ip_prefix_entry <$> cidrs))].

(** The list that a call writes on the controller, if it writes one. *)
Definition written_list (ev : event) : option string :=
  match ev with
  | EvUpdate _ name _ | EvCreate name _ => Some name
  | _ => None
  end.

Definition is_notify (ev : event) : Prop :=
  match ev with
  | EvNotify _ _ => True
  | _ => False
  end.

(** A call of the apply loop or a backup: what a run does once it has
    logged in and listed. *)
Definition list_call (ev : event) : Prop :=
  match ev with
  | EvBackup _ | EvUpdate _ _ _ | EvCreate _ _ => True
  | _ => False
  end.

(** In [l], an update comes right after the backup call of its list. *)
Definition updates_after_backups (l : list event) : Prop :=
  ∀ before list_id name cidrs after,
    l = before ++ EvUpdate list_id name cidrs :: after →
    ∃ before', before = before' ++ [EvBackup name].

(** ** The [.env] loader: [load_dotenv]

    The file is the list of its lines, as [for line in f] yields them,
    or [None] when there is no such file or it cannot be opened.
    [os.environ] is a finite map from names to values.  Setting a
    variable whose name or value holds a NUL character raises
    [ValueError]; the handler around the loop then ends the loading,
    and what was set before stays set. *)

Definition NUL : ascii := Ascii.zero.

(** [line.startswith("#")] *)
Definition startswith_hash (line : string) : bool :=
  match line with
  | String "#" _ => true
  | _ => false
  end.

(** The [k] and [v] of a line that reaches the test
    [if k and k not in os.environ]. *)
Definition dotenv_assignment (line : string) : option (string * string) :=
  let line := PyStr.strip line in
  if PyStr.is_empty line || startswith_hash line
     || negb (PyStr.contains "=" line)
  then None
  else
    match PyStr.partition "=" line with
    | (k, Some v) => Some (PyStr.strip k, PyStr.strip v)
    | (_, None) => None
    end.

(** [os.environ[k] = v] *)
Definition environ_set (environ : gmap string string) (k v : string)
  : res (gmap string string) :=
  if PyStr.contains NUL k || PyStr.contains NUL v then Raise ValueError
  else Ok (<[k := v]> environ).

(** The loop of [load_dotenv] and its handler: the environment at the
    end. *)
Fixpoint load_lines (lines : list string) (environ : gmap string string)
  : gmap string string :=
  match lines with
  | [] => environ
  | line :: rest =>
      match dotenv_assignment line with
      | Some (k, v) =>
          if negb (PyStr.is_empty k)
             && match environ !! k with None => true | Some _ => false end
          then
            match environ_set environ k v with
            | Ok environ => load_lines rest environ
            | Raise _ => environ
            end
          else load_lines rest environ
      | None => load_lines rest environ
      end
  end.

(** [load_dotenv(path)] *)
Definition load_dotenv (file : option (list string))
    (environ : gmap string string) : gmap string string :=
  match file with
  | None => environ
  | Some lines => load_lines lines environ
  end.

(** ** The configuration read from the environment

    [os.getenv(key, default)], [str.lower] on the code points below
    256, and the two settings of the module that are compared with a
    fixed text. *)

Module Env.

Definition getenv (environ : gmap string string) (key default : string)
  : string :=
  match environ !! key with
  | Some v => v
  | None => default
  end.

Definition lower_char (c : ascii) : ascii :=
  let n := PyStr.code c in
  if ((65 <=? n) && (n <=? 90))
     || ((192 <=? n) && (n <=? 222) && negb (n =? 215))
  then ascii_of_N (Z.to_N (n + 32))
  else c.

(** [s.lower()] *)
Fixpoint lower (s : string) : string :=
  match s with
  | EmptyString => EmptyString
  | String c s' => String (lower_char c) (lower s')
  end.

(** [VERIFY_TLS = os.getenv("VERIFY_TLS", "true").lower() == "true"] *)
Definition VERIFY_TLS (environ : gmap string string) : bool :=
  String.eqb (lower (getenv environ "VERIFY_TLS" "true")) "true".

(** [ZSCALER_FAMILY = os.getenv("ZSCALER_FAMILY", "ipv4").lower()] *)
Definition ZSCALER_FAMILY (environ : gmap string string) : string :=
  lower (getenv environ "ZSCALER_FAMILY" "ipv4").

End Env.

(** [s] is [t] up to the case of its letters, for a [t] in lower case. *)
Fixpoint spells (t s : string) : Prop :=
  match t, s with
  | EmptyString, EmptyString => True
  | String a t', String c s' => Env.lower_char c = a ∧ spells t' s'
  | _, _ => False
  end.

(** ** The answer to a create request: [vm_create_dpl]

    [status] is the outcome of [raise_for_status] on the response and
    [body] that of [r.json()].  A value that is not a dict has no
    [get]: the call raises [AttributeError]. *)



(** ** The text of an IPv6 address *)

(** The hextets of an address, most significant first. *)
Definition hextets (ip_int : Z) : list Z :=
  map (λ k, Z.land (Z.shiftr ip_int (16 * k)) 65535) [7; 6; 5; 4; 3; 2; 1; 0].

(** A hextet text as [_string_from_ip_int] writes them: not empty, made
    of hexadecimal digits. *)
Definition hextet_text_ok (h : string) : Prop :=
  PyStr.is_empty h = false ∧ PyStr.all_chars PyStr.is_hex_digit h = true.

(** The parts of a compressed address: the hextets [A] before the run
    of zeros that is left out and the hextets [B] after it, with the
    empty parts that [_compress_hextets] puts for the run and at an end
    that the run reaches. *)
Definition compressed_parts (A B : list string) : list string :=
  match A with [] => [EmptyString] | _ => [] end
  ++ A ++ [EmptyString] ++ B
  ++ match B with [] => [EmptyString] | _ => [] end.

(** What the scan of [_compress_hextets] knows after [index] hextets of
    [full]: the best run and the current run are runs of "0". *)
Definition scan_inv (full : list string) (index : Z) (st : Z * Z * Z * Z)
  : Prop :=
  let '(bs, bl, ds, dl) := st in
  0 ≤ bl
  ∧ (0 < bl →
     0 ≤ bs ∧ bs + bl ≤ index
     ∧ ∀ j, bs ≤ j < bs + bl → full !! Z.to_nat j = Some "0")
  ∧ 0 ≤ dl
  ∧ (dl = 0 → ds = -1)
  ∧ (0 < dl →
     ds = index - dl ∧ 0 ≤ ds
     ∧ ∀ j, ds ≤ j < index → full !! Z.to_nat j = Some "0").

(** A zone as [IPv6Address] accepts it: not empty, without a percent
    sign, and, the address having no slash, without a slash. *)
Definition scope_ok (scope : option string) : Prop :=
  match scope with
  | None => True
  | Some sc =>
      PyStr.is_empty sc = false
      ∧ PyStr.contains "%" sc = false
      ∧ PyStr.contains "/" sc = false
  end.

(** A character of the text of an IPv6 address: a hexadecimal digit or
    a colon. *)
Definition is_v6_char (c : ascii) : bool :=
  PyStr.is_hex_digit c || Ascii.eqb c ":".

Definition not_space (c : ascii) : bool := negb (PyStr.isspace c).

(** ** Sample configuration, payloads and worlds

    The closed examples below run the program on these.  None of them
    takes the text of a float, a list or a dict, so [repr] is any
    function. *)

Definition sample_repr : json → string := λ _, "<object>".

Definition sample_cfg : config :=
  {| DPL_NAME := "ZSCALER_BYPASS";
     ZSCALER_JSON_URL := "https://config.example/feed/json";
     ZSCALER_FAMILY := "ipv4";
     ZSCALER_MAX_CHUNK := 500;
     MAX_REMOVE_PERCENT := 25 |}.

(** A world where the feed answers [payload], the cache file holds
    [cache], the controller lists [items], and every call succeeds. *)
Definition sample_world (payload : json) (cache : list string)
    (items : list dpl_item) : world :=
  {| requests_get := λ _, Ok (Ok payload);
     read_cache := cache;
     vm_login := λ _, Ok ();
     vm_get_dpl_items := λ _, Ok items;
     backup_dpl_json := λ _ _, Ok ();
     vm_update_dpl := λ _ _ _ _, Ok ();
     vm_create_dpl := λ _ _ _, Ok (JStr "new-id") |}.

(** The same world, where creating a list fails. *)
Definition failing_create_world (payload : json) (cache : list string)
    (items : list dpl_item) : world :=
  {| requests_get := λ _, Ok (Ok payload);
     read_cache := cache;
     vm_login := λ _, Ok ();
     vm_get_dpl_items := λ _, Ok items;
     backup_dpl_json := λ _ _, Ok ();
     vm_update_dpl := λ _ _ _ _, Ok ();
     vm_create_dpl := λ _ _ _, Raise HTTPError |}.

(** A world where the feed cannot be reached. *)
Definition unreachable_feed_world : world :=
  {| requests_get := λ _, Raise HTTPError;
     read_cache := [];
     vm_login := λ _, Ok ();
     vm_get_dpl_items := λ _, Ok [];
     backup_dpl_json := λ _ _, Ok ();
     vm_update_dpl := λ _ _ _ _, Ok ();
     vm_create_dpl := λ _ _ _, Ok (JStr "new-id") |}.

Definition sample_payload : json :=
  JDict [("prefixes",
          JList [JDict [("ipPrefix", JStr "10.0.0.0/8")];
                 JDict [("ipPrefix", JStr "192.0.2.7")]])].

(** A previous snapshot of three prefixes, of which the sample payload
    keeps one. *)
Definition sample_cache : list string :=
  ["10.0.0.0/8"; "172.16.0.0/12"; "198.51.100.0/24"].

(** The list extracted from a payload that the feed has answered. *)
Definition sample_fetch (family : string) (payload : json) : res (list string) :=
  fetch_zscaler_prefixes sample_repr (λ _, Ok (Ok payload))
    "https://config.example/feed/json" family.

(** The configuration of the partition example: base name "X", at most
    500 prefixes a chunk. *)
Definition x_cfg : config :=
  {| DPL_NAME := "X";
     ZSCALER_JSON_URL := "https://config.example/feed/json";
     ZSCALER_FAMILY := "ipv4";
     ZSCALER_MAX_CHUNK := 500;
     MAX_REMOVE_PERCENT := 25 |}.

(** [n] distinct prefixes: 10.0.0.0/32 and the hosts after it. *)
Definition host_prefixes (n : Z) : list string :=
  (λ i, ipaddress.v4_string_from_ip_int (167772160 + i) +:+ "/32")
    <$> seqZ 0 n.

(** Existing lists on the controller, one of them named X_02. *)
Definition x_items : list dpl_item :=
  [ [("name", JStr "OTHER"); ("listId", JStr "id-0")];
    [("name", JStr "X_02"); ("listId", JStr "id-2")];
    [("name", JStr "x_01"); ("listId", JStr "id-9")] ].

(** A world where the controller refuses the login. *)
Definition failing_login_world (payload : json) : world :=
  {| requests_get := λ _, Ok (Ok payload);
     read_cache := [];
     vm_login := λ _, Raise HTTPError;
     vm_get_dpl_items := λ _, Ok [];
     backup_dpl_json := λ _ _, Ok ();
     vm_update_dpl := λ _ _ _ _, Ok ();
     vm_create_dpl := λ _ _ _, Ok (JStr "new-id") |}.

(** The sample configuration with at most two prefixes a chunk. *)
Definition small_chunk_cfg : config :=
  {| DPL_NAME := "ZSCALER_BYPASS";
     ZSCALER_JSON_URL := "https://config.example/feed/json";
     ZSCALER_FAMILY := "ipv4";
     ZSCALER_MAX_CHUNK := 2;
     MAX_REMOVE_PERCENT := 25 |}.

Definition three_prefixes : gset string :=
  {[ "192.0.2.7/32"; "10.0.0.0/8"; "10.1.0.0/16" ]}.


(** A feed of three prefixes, as strings. *)
Definition three_prefix_payload : json :=
  JList [JStr "192.0.2.7/32"; JStr "10.0.0.0/8"; JStr "10.1.0.0/16"].

(** The base list as the controller has it. *)
Definition base_list_items : list dpl_item :=
  [ [("name", JStr "ZSCALER_BYPASS"); ("listId", JStr "id-7");
     ("entries", JList [JDict [("ipPrefix", JStr "10.0.0.0/8")]])] ].
(** * Properties *)

(** ** Sorting a set *)

Lemma sorted_elem_of (s : gset string) (x : string) : x ∈ sorted s ↔ x ∈ s.
Proof.
  unfold sorted. rewrite merge_sort_Permutation. apply elem_of_elements.
Qed.

Lemma sorted_NoDup (s : gset string) : NoDup (sorted s).
Proof.
  unfold sorted. rewrite merge_sort_Permutation. apply NoDup_elements.
Qed.

Lemma sorted_StronglySorted (s : gset string) :
  StronglySorted String.le (sorted s).
Proof. unfold sorted. apply StronglySorted_merge_sort; apply _. Qed.

Lemma sorted_length (s : gset string) : length (sorted s) = size s.
Proof. unfold sorted. by rewrite merge_sort_Permutation. Qed.

(** ** Delta *)

Lemma to_add_elem_of (old_cidrs new_cidrs : list string) (x : string) :
  x ∈ to_add old_cidrs new_cidrs ↔ x ∈ new_cidrs ∧ x ∉ old_cidrs.
Proof.
  unfold to_add.
  by rewrite sorted_elem_of, elem_of_difference, !elem_of_list_to_set.
Qed.

Lemma to_remove_elem_of (old_cidrs new_cidrs : list string) (x : string) :
  x ∈ to_remove old_cidrs new_cidrs ↔ x ∈ old_cidrs ∧ x ∉ new_cidrs.
Proof.
  unfold to_remove.
  by rewrite sorted_elem_of, elem_of_difference, !elem_of_list_to_set.
Qed.

(** C2: [to_add] holds exactly the prefixes of the current list that are
    not in the previous one, [to_remove] exactly those of the previous
    list that are not in the current one, and both are in ascending
    order of their text, without repetition. *)
Theorem C2_delta_correct (old_cidrs new_cidrs : list string) :
  (∀ x, x ∈ to_add old_cidrs new_cidrs ↔ x ∈ new_cidrs ∧ x ∉ old_cidrs)
  ∧ (∀ x, x ∈ to_remove old_cidrs new_cidrs ↔ x ∈ old_cidrs ∧ x ∉ new_cidrs)
  ∧ StronglySorted String.le (to_add old_cidrs new_cidrs)
  ∧ StronglySorted String.le (to_remove old_cidrs new_cidrs)
  ∧ NoDup (to_add old_cidrs new_cidrs)
  ∧ NoDup (to_remove old_cidrs new_cidrs).
Proof.
  split; [intros x; apply to_add_elem_of|].
  split; [intros x; apply to_remove_elem_of|].
  unfold to_add, to_remove.
  auto using sorted_StronglySorted, sorted_NoDup.
Qed.

(** ** The trace of a run *)

Lemma apply_chunks_trace w existing_items cs ups tr tr' r :
  apply_chunks w existing_items cs ups tr = (tr', r) →
  ∃ evs, tr' = tr ++ evs
         ∧ evs `prefix_of` planned_events existing_items cs
         ∧ (∀ ups', r = Ok ups' → evs = planned_events existing_items cs).
Proof.
  revert ups tr. induction cs as [|[name cidr_slice] rest IH]; intros ups tr.
  - simpl. intros [= <- <-]. exists []. rewrite app_nil_r. by repeat split.
  - simpl. unfold chunk_events.
    destruct (plan_chunk existing_items name) as [item list_id|].
    + unfold mbind, M_bind, call.
      destruct (backup_dpl_json w tr name) as [[]|e].
      * destruct (vm_update_dpl w _ list_id name cidr_slice) as [[]|e].
        -- intros H. apply IH in H as (evs & -> & Hpre & Hok).
           exists ([EvBackup name; EvUpdate list_id name cidr_slice] ++ evs).
           split; [by rewrite <- !app_assoc|]. split.
           ++ by apply prefix_app.
           ++ intros ups' Hr. by rewrite (Hok ups' Hr).
        -- intros [= <- <-].
           exists [EvBackup name; EvUpdate list_id name cidr_slice].
           split; [by rewrite <- app_assoc|]. split; [|done].
           by apply prefix_app_r.
      * intros [= <- <-]. exists [EvBackup name]. split; [done|]. split; [|done].
        by exists (EvUpdate list_id name cidr_slice
                     :: planned_events existing_items rest).
    + unfold mbind, M_bind, call.
      destruct (vm_create_dpl w tr name cidr_slice) as [list_id|e].
      * intros H. apply IH in H as (evs & -> & Hpre & Hok).
        exists ([EvCreate name cidr_slice] ++ evs).
        split; [by rewrite <- !app_assoc|]. split.
        -- by apply prefix_app.
        -- intros ups' Hr. by rewrite (Hok ups' Hr).
      * intros [= <- <-]. exists [EvCreate name cidr_slice].
        split; [done|]. split; [|done]. by apply prefix_app_r.
Qed.

Lemma planned_events_no_write_cache existing_items cs ev :
  ev ∈ planned_events existing_items cs → ¬ is_write_cache ev.
Proof.
  induction cs as [|[name cidr_slice] rest IH]; simpl.
  - by intros ?%elem_of_nil.
  - intros [Hev|Hev]%elem_of_app; [|by apply IH].
    unfold chunk_events in Hev. destruct (plan_chunk existing_items name);
      set_unfold; intuition subst; simpl; tauto.
Qed.

Lemma base_item_step_trace cfg w existing_items tr tr' r :
  base_item_step cfg w existing_items tr = (tr', r) →
  tr' = tr ∨ tr' = tr ++ [EvBackup (DPL_NAME cfg)].
Proof.
  unfold base_item_step.
  destruct (find_item existing_items (DPL_NAME cfg)) as [base_item|];
    [|intros [= <- <-]; by left].
  destruct (item_truthy (Some base_item)); [|intros [= <- <-]; by left].
  unfold mbind, M_bind, lift, call.
  destruct (py_len _); intros [= <- <-]; auto.
Qed.

(** The outcome of steps 4 to 6: either every call succeeded, the cache
    was written last but one and 0 is returned, or some call raised, and
    the cache was not written. *)
Lemma push_outcome cfg w existing_items new_cidrs tr tr' r :
  push cfg w existing_items new_cidrs tr = (tr', r) →
  (∃ tr0 ups,
      (tr0 = tr ∨ tr0 = tr ++ [EvBackup (DPL_NAME cfg)])
      ∧ apply_chunks w existing_items (chunks cfg new_cidrs) [] tr0
        = (tr0 ++ planned_events existing_items (chunks cfg new_cidrs), Ok ups)
      ∧ tr' = tr0 ++ planned_events existing_items (chunks cfg new_cidrs)
              ++ [EvWriteCache (merge_sort String.le new_cidrs);
                  EvNotify "Zscaler Sync: Success" true]
      ∧ r = Ok 0)
  ∨ (∃ e evs, r = Raise e ∧ tr' = tr ++ evs
              ∧ ∀ ev, ev ∈ evs → ¬ is_write_cache ev).
Proof.
  unfold push. unfold mbind at 1. unfold M_bind at 1.
  destruct (base_item_step cfg w existing_items tr) as [tr0 [[]|e]] eqn:Hbase.
  - apply base_item_step_trace in Hbase.
    unfold mbind at 1. unfold M_bind at 1.
    destruct (apply_chunks w existing_items (chunks cfg new_cidrs) [] tr0)
      as [tr1 [ups|e]] eqn:Happly.
    + pose proof Happly as Htr.
      apply apply_chunks_trace in Htr as (evs & -> & _ & Hok).
      specialize (Hok ups eq_refl) as ->.
      unfold mbind, M_bind, write_cache, notify_teams, call, mret, M_ret.
      intros [= <- <-]. left. exists tr0, ups.
      split; [done|]. split; [done|]. split; [|done]. by rewrite <- !app_assoc.
    + apply apply_chunks_trace in Happly as (evs & -> & [k Hpre] & _).
      intros [= <- <-]. right.
      destruct Hbase as [->| ->].
      * exists e, evs. split; [done|]. split; [done|]. intros ev Hev.
        apply (planned_events_no_write_cache existing_items (chunks cfg new_cidrs)).
        rewrite Hpre. apply elem_of_app. by left.
      * exists e, (EvBackup (DPL_NAME cfg) :: evs).
        split; [done|]. split; [by rewrite <- app_assoc|].
        intros ev [->|Hev]%elem_of_cons; [simpl; tauto|].
        apply (planned_events_no_write_cache existing_items (chunks cfg new_cidrs)).
        rewrite Hpre. apply elem_of_app. by left.
  - intros [= <- <-]. right.
    apply base_item_step_trace in Hbase as [->| ->].
    + exists e, []. rewrite app_nil_r. split; [done|]. split; [done|].
      intros ev Hev. by apply elem_of_nil in Hev.
    + exists e, [EvBackup (DPL_NAME cfg)]. split; [done|]. split; [done|].
      intros ev Hev. apply list_elem_of_singleton in Hev as ->. simpl. tauto.
Qed.

Lemma connect_trace w tr tr' r :
  connect w tr = (tr', r) →
  tr' = tr ++ [EvLogin] ∨ tr' = tr ++ [EvLogin; EvGetDplItems].
Proof.
  unfold connect, mbind, M_bind, call.
  destruct (vm_login w tr); intros [= <- <-]; [right|left]; [|done].
  by rewrite <- app_assoc.
Qed.

Section RunCases.

Variable py_repr : json → string.

(** The five ways a run can go, following the returns of [main]. *)
Lemma run_cases cfg w dry_run :
  match fetch_zscaler_prefixes py_repr (requests_get w) (ZSCALER_JSON_URL cfg)
          (ZSCALER_FAMILY cfg) with
  | Raise _ => run py_repr cfg w dry_run = ([EvNotify "Zscaler Sync: Error" false], Ok 1)
  | Ok new_cidrs =>
      if guard_blocks cfg (read_cache w) new_cidrs
      then run py_repr cfg w dry_run = ([EvNotify "Zscaler Sync: Blocked" false], Ok 2)
      else if dry_run then run py_repr cfg w dry_run = ([], Ok 0)
      else match connect w [] with
           | (tr, Raise _) =>
               run py_repr cfg w dry_run
               = (tr ++ [EvNotify "Zscaler Sync: Error" false], Ok 3)
           | (tr, Ok existing_items) =>
               run py_repr cfg w dry_run = push cfg w existing_items new_cidrs tr
           end
  end.
Proof.
  unfold run, main.
  destruct (fetch_zscaler_prefixes _ _ _ _) as [new_cidrs|e]; [|done].
  destruct (guard_blocks _ _ _); [done|].
  destruct dry_run; [done|].
  destruct (connect w []) as [tr [existing_items|e]] eqn:Hconnect;
    unfold mbind, M_bind, try_; rewrite Hconnect; reflexivity.
Qed.

End RunCases.

(** ** The guard *)

Lemma list_to_set_empty_inv (l : list string) :
  list_to_set (C := gset string) l = ∅ → l = [].
Proof.
  destruct l as [|x l]; [done|]. intros H.
  assert (x ∈ (∅ : gset string)) as Hx by (rewrite <- H; set_solver).
  by apply elem_of_empty in Hx.
Qed.

Lemma len_to_remove (old_cidrs new_cidrs : list string) :
  len (to_remove old_cidrs new_cidrs)
  = Z.of_nat (size (list_to_set (C := gset string) old_cidrs
                    ∖ list_to_set new_cidrs)).
Proof. unfold len, to_remove. by rewrite sorted_length. Qed.

Lemma push_result cfg w existing_items new_cidrs tr n :
  (push cfg w existing_items new_cidrs tr).2 = Ok n → n = 0.
Proof.
  destruct (push cfg w existing_items new_cidrs tr) as [tr' r] eqn:Hpush.
  apply push_outcome in Hpush as [(? & ? & _ & _ & _ & ->)|(e & ? & -> & _)];
    simpl; congruence.
Qed.

(** A run returns 2 exactly when the feed was read and the guard trips. *)
Lemma run_blocked_iff py_repr cfg w dry_run :
  (run py_repr cfg w dry_run).2 = Ok 2
  ↔ ∃ new_cidrs,
      fetch_zscaler_prefixes py_repr (requests_get w) (ZSCALER_JSON_URL cfg)
        (ZSCALER_FAMILY cfg) = Ok new_cidrs
      ∧ guard_blocks cfg (read_cache w) new_cidrs = true.
Proof.
  pose proof (run_cases py_repr cfg w dry_run) as Hrun.
  destruct (fetch_zscaler_prefixes _ _ _ _) as [new_cidrs|e].
  - destruct (guard_blocks cfg (read_cache w) new_cidrs) eqn:Hguard.
    + rewrite Hrun. split; [|done]. intros _. by exists new_cidrs.
    + split; [|by intros (? & [= <-] & ?); congruence].
      destruct dry_run; [by rewrite Hrun|].
      destruct (connect w []) as [tr [existing_items|e]]; rewrite Hrun;
        [|done].
      intros H%push_result. lia.
  - rewrite Hrun. split; [done|]. by intros (? & ? & _).
Qed.

(** C1: a run that has read the feed, over a previous list without
    repetition.  With nothing previous the guard is skipped and the run
    is not blocked.  Otherwise the ratio the guard computes is the
    number of removed prefixes over the larger of 1 and the number of
    previous ones, times 100, in floating point; the run returns 2
    exactly when that ratio is greater than the configured maximum, and
    it has then made no call but the notification. *)
Theorem C1_guard_contract (py_repr : json → string) (cfg : config) (w : world)
    (dry_run : bool) (new_cidrs : list string) :
  fetch_zscaler_prefixes py_repr (requests_get w) (ZSCALER_JSON_URL cfg)
    (ZSCALER_FAMILY cfg) = Ok new_cidrs →
  NoDup (read_cache w) →
  let previous : gset string := list_to_set (read_cache w) in
  let current : gset string := list_to_set new_cidrs in
  let ratio :=
    (Py.truediv (Z.of_nat (size (previous ∖ current)))
                (Z.max 1 (Z.of_nat (size previous))) * 100)%float in
  (previous = ∅ →
     guard_blocks cfg (read_cache w) new_cidrs = false
     ∧ (run py_repr cfg w dry_run).2 ≠ Ok 2)
  ∧ (previous ≠ ∅ →
       pct_remove (read_cache w) new_cidrs = ratio
       ∧ ((run py_repr cfg w dry_run).2 = Ok 2
          ↔ PrimFloat.ltb (MAX_REMOVE_PERCENT cfg) ratio = true)
       ∧ (PrimFloat.ltb (MAX_REMOVE_PERCENT cfg) ratio = true →
          run py_repr cfg w dry_run
          = ([EvNotify "Zscaler Sync: Blocked" false], Ok 2))).
Proof.
  intros Hfetch Hnodup previous current ratio.
  assert (pct_remove (read_cache w) new_cidrs = ratio) as Hratio.
  { unfold pct_remove, ratio, previous, current.
    rewrite len_to_remove. unfold len. by rewrite size_list_to_set. }
  split.
  - intros Hempty%list_to_set_empty_inv.
    assert (guard_blocks cfg (read_cache w) new_cidrs = false) as Hguard
      by (by rewrite Hempty).
    split; [done|]. rewrite run_blocked_iff. intros (new' & Hfetch' & Hblocks).
    congruence.
  - intros Hne.
    assert (guard_blocks cfg (read_cache w) new_cidrs
            = PrimFloat.ltb (MAX_REMOVE_PERCENT cfg) ratio) as Hguard.
    { unfold guard_blocks. rewrite Hratio.
      destruct (read_cache w); [by destruct Hne|done]. }
    split; [done|]. split.
    + rewrite run_blocked_iff, <- Hguard. split.
      * intros (new' & Hfetch' & Hblocks). congruence.
      * intros Hblocks. by exists new_cidrs.
    + intros Hblocks. pose proof (run_cases py_repr cfg w dry_run) as Hrun.
      by rewrite Hfetch, Hguard, Hblocks in Hrun.
Qed.

(** [C1_guard_contract] at work: the sample payload keeps one of three
    previous prefixes, the ratio is two thirds of 100, above the maximum
    of 25, and the run is blocked. *)
Lemma C1_guard_contract_witness :
  fetch_zscaler_prefixes sample_repr
    (requests_get (sample_world sample_payload sample_cache []))
    (ZSCALER_JSON_URL sample_cfg) (ZSCALER_FAMILY sample_cfg)
  = Ok ["10.0.0.0/8"; "192.0.2.7/32"]
  ∧ NoDup sample_cache
  ∧ run sample_repr sample_cfg (sample_world sample_payload sample_cache [])
      false
    = ([EvNotify "Zscaler Sync: Blocked" false], Ok 2).
Proof.
  assert (fetch_zscaler_prefixes sample_repr
            (requests_get (sample_world sample_payload sample_cache []))
            (ZSCALER_JSON_URL sample_cfg) (ZSCALER_FAMILY sample_cfg)
          = Ok ["10.0.0.0/8"; "192.0.2.7/32"]) as Hfetch
    by (vm_compute; reflexivity).
  assert (NoDup sample_cache) as Hnodup
    by (apply (bool_decide_unpack _); vm_compute; reflexivity).
  split; [exact Hfetch|]. split; [exact Hnodup|].
  apply (C1_guard_contract sample_repr sample_cfg
           (sample_world sample_payload sample_cache []) false
           ["10.0.0.0/8"; "192.0.2.7/32"] Hfetch Hnodup).
  - intros H%list_to_set_empty_inv. discriminate H.
  - vm_compute. reflexivity.
Defined.

(** The ratio is a floating-point number: 7 removals out of 25 give
    28.000000000000004, which is greater than a maximum of 28. *)
Example pct_remove_rounds :
  (Py.truediv 7 (Z.max 1 25) * 100)%float = 0x1.c000000000001p+4%float
  ∧ PrimFloat.ltb 28 (Py.truediv 7 (Z.max 1 25) * 100) = true
  ∧ (Py.truediv 30 (Z.max 1 100) * 100)%float = 30%float
  ∧ PrimFloat.ltb 25 (Py.truediv 30 (Z.max 1 100) * 100) = true.
Proof. by vm_compute. Qed.

(** ** Decimal text *)

Lemma string_app_nil (s : string) : "" +:+ s = s.
Proof. reflexivity. Qed.

Lemma string_app_cons (c : ascii) (s t : string) :
  String c s +:+ t = String c (s +:+ t).
Proof. reflexivity. Qed.

Lemma string_app_assoc (s t u : string) : (s +:+ t) +:+ u = s +:+ (t +:+ u).
Proof.
  induction s as [|c s IH]; [done|]. by rewrite !string_app_cons, IH.
Qed.

Lemma string_app_length (s t : string) :
  String.length (s +:+ t) = (String.length s + String.length t)%nat.
Proof.
  induction s as [|c s IH]; [done|]. rewrite string_app_cons. simpl.
  by rewrite IH.
Qed.

Lemma digits_go_acc b fuel n acc :
  PyStr.digits_go b fuel n acc = PyStr.digits_go b fuel n "" +:+ acc.
Proof.
  revert n acc. induction fuel as [|fuel IH]; intros n acc; simpl; [done|].
  destruct (n / b =? 0); [done|].
  rewrite IH, (IH _ (String _ "")). by rewrite string_app_assoc.
Qed.

Lemma int10_go_app a s t :
  PyStr.int10_go a (s +:+ t) = PyStr.int10_go (PyStr.int10_go a s) t.
Proof.
  revert a. induction s as [|c s IH]; intros a; [done|].
  rewrite string_app_cons. simpl. apply IH.
Qed.

Lemma all_chars_app p s t :
  PyStr.all_chars p (s +:+ t) = PyStr.all_chars p s && PyStr.all_chars p t.
Proof.
  induction s as [|c s IH]; [done|]. rewrite string_app_cons. simpl.
  rewrite IH. by rewrite andb_assoc.
Qed.

Lemma digit_char_decimal d :
  0 ≤ d < 10 →
  PyStr.digit_val (PyStr.digit_char d) = d
  ∧ PyStr.is_digit (PyStr.digit_char d) = true.
Proof.
  intros Hd.
  assert (d = 0 ∨ d = 1 ∨ d = 2 ∨ d = 3 ∨ d = 4 ∨ d = 5 ∨ d = 6 ∨ d = 7
          ∨ d = 8 ∨ d = 9) as Hcases by lia.
  repeat (destruct Hcases as [->|Hcases]; [by vm_compute|]).
  subst d. by vm_compute.
Qed.

(** The decimal digits of [n] read back as [n]. *)
Lemma digits_go_decimal fuel n :
  0 ≤ n < 2 ^ Z.of_nat fuel →
  PyStr.int10_go 0 (PyStr.digits_go 10 fuel n "") = n
  ∧ PyStr.all_chars PyStr.is_digit (PyStr.digits_go 10 fuel n "") = true.
Proof.
  revert n. induction fuel as [|fuel IH]; intros n Hn.
  - simpl in *. split; [lia|done].
  - rewrite Nat2Z.inj_succ, Z.pow_succ_r in Hn by lia.
    simpl. pose proof (Z.div_mod n 10 ltac:(lia)) as Hdiv.
    pose proof (Z.mod_pos_bound n 10 ltac:(lia)) as Hmod.
    destruct (digit_char_decimal (n mod 10) Hmod) as [Hval Hdig].
    destruct (n / 10 =? 0) eqn:Hq.
    + apply Z.eqb_eq in Hq. simpl. rewrite Hval, Hdig. split; [lia|done].
    + apply Z.eqb_neq in Hq. rewrite digits_go_acc.
      assert (0 ≤ n / 10 < 2 ^ Z.of_nat fuel) as Hrange.
      { split; [apply Z.div_pos; lia|].
        apply Z.div_lt_upper_bound; lia. }
      destruct (IH (n / 10) Hrange) as [IHval IHdig].
      rewrite int10_go_app, all_chars_app, IHval, IHdig. simpl.
      rewrite Hval, Hdig. split; [lia|done].
Qed.

Lemma str_of_int_decimal n :
  0 ≤ n →
  PyStr.int10 (PyStr.str_of_int n) = n
  ∧ PyStr.all_chars PyStr.is_digit (PyStr.str_of_int n) = true.
Proof.
  intros Hn. unfold PyStr.str_of_int, PyStr.int10, PyStr.digits.
  destruct (n <? 0) eqn:Hneg; [apply Z.ltb_lt in Hneg; lia|].
  apply digits_go_decimal. split; [done|].
  rewrite Nat2Z.inj_succ, Z2Nat.id by apply Z.log2_nonneg.
  destruct (decide (n = 0)) as [->|Hne]; [done|].
  apply Z.log2_spec. lia.
Qed.

Lemma zeros_decimal k a :
  PyStr.int10_go a (PyStr.zeros k) = a * 10 ^ Z.of_nat k
  ∧ PyStr.all_chars PyStr.is_digit (PyStr.zeros k) = true.
Proof.
  revert a. induction k as [|k IH]; intros a.
  - simpl. split; [lia|done].
  - rewrite Nat2Z.inj_succ, Z.pow_succ_r by lia. simpl.
    destruct (IH (10 * a + PyStr.digit_val "0")) as [-> ->].
    split; [|done]. change (PyStr.digit_val "0") with 0. lia.
Qed.

(** [f"{n:02d}"] has at least two characters, all of them decimal
    digits, and reads back as [n]. *)
Lemma fmt_02d_spec n :
  0 ≤ n →
  (2 ≤ String.length (PyStr.fmt_02d n))%nat
  ∧ PyStr.all_chars PyStr.is_digit (PyStr.fmt_02d n) = true
  ∧ PyStr.int10 (PyStr.fmt_02d n) = n.
Proof.
  intros Hn. unfold PyStr.fmt_02d.
  destruct (str_of_int_decimal n Hn) as [Hval Hdig].
  set (s := PyStr.str_of_int n) in *.
  destruct (zeros_decimal (2 - String.length s) 0) as [Hz Hzd].
  split; [|split].
  - rewrite string_app_length.
    assert (String.length (PyStr.zeros (2 - String.length s))
            = (2 - String.length s)%nat) as ->; [|lia].
    generalize (2 - String.length s)%nat. intros k.
    induction k as [|k IH]; simpl; [done|]. by rewrite IH.
  - by rewrite all_chars_app, Hzd, Hdig.
  - unfold PyStr.int10 in *. rewrite int10_go_app, Hz. simpl. done.
Qed.

(** ** Chunking *)

(** [ceil_div total m] is the ceiling of [total / m]: the one integer
    [n] with [(n - 1) * m < total <= n * m]. *)
Lemma ceil_div_spec total m :
  1 ≤ m → (ceil_div total m - 1) * m < total ≤ ceil_div total m * m.
Proof.
  intros Hm. unfold ceil_div.
  pose proof (Z.div_mod (total + m - 1) m ltac:(lia)) as Hdiv.
  pose proof (Z.mod_pos_bound (total + m - 1) m ltac:(lia)) as Hmod.
  nia.
Qed.

(** The ceiling taken on floats, as the program takes it, at sample
    lengths and chunk sizes. *)
Example ceil_div_as_floats :
  Forall (λ p : Z * Z, Py.ceil (Py.truediv p.1 p.2) = Ok (ceil_div p.1 p.2))
    [(1200, 500); (1000, 500); (1001, 500); (3, 2); (7, 1); (100000, 3);
     (9007199254740991, 2); (9007199254740991, 9007199254740990);
     (4503599627370497, 4503599627370496)].
Proof. repeat constructor. Qed.

Lemma slice_take_drop {A} (l : list A) (start m : Z) :
  0 ≤ start → 0 ≤ m →
  slice l start (Z.min (start + m) (len l))
  = take (Z.to_nat m) (drop (Z.to_nat start) l).
Proof.
  intros Hstart Hm. unfold slice, len.
  destruct (decide (start + m ≤ Z.of_nat (length l))) as [Hle|Hgt].
  - rewrite Z.min_l by done. f_equal. lia.
  - rewrite Z.min_r by lia.
    rewrite !take_ge; [done|rewrite length_drop; lia..].
Qed.

Lemma concat_take_drop {A} (l : list A) (m n : nat) :
  concat (map (λ i, take m (drop (i * m) l)) (seq 0 n)) = take (n * m) l.
Proof.
  induction n as [|n IH]; [done|].
  rewrite seq_S, map_app, concat_app, IH. simpl. rewrite app_nil_r.
  rewrite take_take_drop. f_equal. lia.
Qed.

Lemma chunks_multi cfg (new_cidrs : list string) :
  Z.max 1 (ZSCALER_MAX_CHUNK cfg) < len new_cidrs →
  chunks cfg new_cidrs
  = map (λ i, (chunk_name cfg i,
               take (Z.to_nat (Z.max 1 (ZSCALER_MAX_CHUNK cfg)))
                    (drop (Z.to_nat (i * Z.max 1 (ZSCALER_MAX_CHUNK cfg)))
                          new_cidrs)))
        (seqZ 0 (ceil_div (len new_cidrs) (Z.max 1 (ZSCALER_MAX_CHUNK cfg)))).
Proof.
  intros Hlt. unfold chunks.
  destruct (len new_cidrs <=? Z.max 1 (ZSCALER_MAX_CHUNK cfg)) eqn:Hle;
    [apply Z.leb_le in Hle; lia|].
  apply map_ext_in. intros i Hi%list_elem_of_In%elem_of_seqZ.
  unfold chunk_name. f_equal. apply slice_take_drop; lia.
Qed.

(** C3: the chunks of a set of prefixes, taken in ascending order.  With
    [max_chunk] the configured size, or 1 when that is not positive: a
    list of at most [max_chunk] prefixes gives one chunk, named
    [DPL_NAME], holding it all; a longer one gives [n] chunks, where [n]
    is the ceiling of the length over [max_chunk]; chunk [i] (from 0) is
    named [DPL_NAME], an underscore and [i + 1] in decimal padded with
    zeros to two digits, and holds the [max_chunk] prefixes from
    position [i * max_chunk] on (fewer in the last chunk, never none);
    put end to end, the chunks are the whole list. *)
Theorem C3_partition (cfg : config) (current : gset string) :
  let new_cidrs := sorted current in
  let max_chunk := Z.max 1 (ZSCALER_MAX_CHUNK cfg) in
  let total := len new_cidrs in
  let cs := chunks cfg new_cidrs in
  StronglySorted String.le new_cidrs
  ∧ (ZSCALER_MAX_CHUNK cfg ≤ 0 → max_chunk = 1)
  ∧ (total ≤ max_chunk → cs = [(DPL_NAME cfg, new_cidrs)])
  ∧ (max_chunk < total →
       ∃ n : Z,
         (n - 1) * max_chunk < total ≤ n * max_chunk
         ∧ len cs = n
         ∧ concat (cs.*2) = new_cidrs
         ∧ ∀ i : Z, 0 ≤ i < n →
             ∃ cidr_slice,
               cs !! Z.to_nat i
               = Some (DPL_NAME cfg +:+ "_" +:+ PyStr.fmt_02d (i + 1), cidr_slice)
               ∧ cidr_slice
                 = take (Z.to_nat max_chunk)
                        (drop (Z.to_nat (i * max_chunk)) new_cidrs)
               ∧ 0 < len cidr_slice ≤ max_chunk
               ∧ (2 ≤ String.length (PyStr.fmt_02d (i + 1)))%nat
               ∧ PyStr.all_chars PyStr.is_digit (PyStr.fmt_02d (i + 1)) = true
               ∧ PyStr.int10 (PyStr.fmt_02d (i + 1)) = i + 1).
Proof.
  intros new_cidrs max_chunk total cs.
  split; [apply sorted_StronglySorted|].
  split; [unfold max_chunk; lia|]. split.
  - intros Hle. unfold cs, chunks. fold total max_chunk.
    by apply Z.leb_le in Hle as ->.
  - intros Hlt. exists (ceil_div total max_chunk).
    assert (1 ≤ max_chunk) as Hm by (unfold max_chunk; lia).
    pose proof (ceil_div_spec total max_chunk Hm) as Hn.
    set (n := ceil_div total max_chunk) in *.
    assert (0 ≤ n) as Hn0 by (unfold len in *; nia).
    unfold cs. rewrite chunks_multi by done.
    fold max_chunk total n.
    split; [done|]. split; [|split].
    + unfold len. rewrite length_map, length_seqZ. lia.
    + rewrite <- list_fmap_compose. unfold seqZ.
      rewrite <- list_fmap_compose.
      erewrite (list_fmap_ext _
        (λ i : nat, take (Z.to_nat max_chunk)
                         (drop (i * Z.to_nat max_chunk) new_cidrs))).
      * rewrite (concat_take_drop new_cidrs). apply take_ge.
        unfold total, len in *. nia.
      * intros k i _. simpl. do 2 f_equal. nia.
    + intros i Hi. eexists. split; [|split; [reflexivity|]].
      * rewrite list_lookup_fmap, lookup_seqZ_lt by lia. simpl.
        unfold chunk_name. by rewrite Z2Nat.id, Z.add_0_l by lia.
      * split; [|apply fmt_02d_spec; lia].
        unfold len. rewrite length_take, length_drop.
        unfold total, len in *. nia.
Qed.

(** [C3_partition] at three prefixes and chunks of two: the second chunk
    is the last prefix, under the name with index 02. *)
Lemma C3_partition_witness :
  Z.max 1 (ZSCALER_MAX_CHUNK small_chunk_cfg) < len (sorted three_prefixes)
  ∧ sorted three_prefixes = ["10.0.0.0/8"; "10.1.0.0/16"; "192.0.2.7/32"]
  ∧ chunks small_chunk_cfg (sorted three_prefixes) !! 1%nat
    = Some ("ZSCALER_BYPASS_02", ["192.0.2.7/32"]).
Proof.
  assert (Z.max 1 (ZSCALER_MAX_CHUNK small_chunk_cfg)
          < len (sorted three_prefixes)) as Hmulti
    by (vm_compute; reflexivity).
  assert (sorted three_prefixes
          = ["10.0.0.0/8"; "10.1.0.0/16"; "192.0.2.7/32"]) as Hsorted
    by (vm_compute; reflexivity).
  split; [exact Hmulti|]. split; [exact Hsorted|].
  destruct (C3_partition small_chunk_cfg three_prefixes)
    as (_ & _ & _ & Hchunks).
  destruct (Hchunks Hmulti) as (n & _ & Hlen & _ & Hslices).
  assert (n = 2) as -> by (rewrite <- Hlen; vm_compute; reflexivity).
  destruct (Hslices 1 ltac:(lia)) as (cidr_slice & Hlookup & -> & _).
  rewrite Hsorted in Hlookup. exact Hlookup.
Defined.

(** ** Planning: update or create *)

Lemma eq_str_true (v : json) (s : string) :
  Py.eq_str v s = true ↔ v = JStr s.
Proof.
  destruct v; simpl; try (split; [done|congruence]).
  rewrite String.eqb_eq. split; congruence.
Qed.

(** [find_item] returns the first item whose ["name"] is the string
    [name], when there is one. *)
Lemma find_item_Some existing_items name item :
  find_item existing_items name = Some item
  ↔ ∃ before after,
      existing_items = before ++ item :: after
      ∧ Py.dict_get item "name" = JStr name
      ∧ ∀ i, i ∈ before → Py.dict_get i "name" ≠ JStr name.
Proof.
  unfold find_item. induction existing_items as [|i rest IH]; simpl.
  - split; [done|]. intros (before & after & H & _). by destruct before.
  - destruct (Py.eq_str (Py.dict_get i "name") name) eqn:Heq.
    + apply eq_str_true in Heq. split.
      * intros [= <-]. exists [], rest. split; [done|]. split; [done|].
        by intros ? ?%elem_of_nil.
      * intros (before & after & Hl & Hname & Hbefore).
        destruct before as [|b before]; simplify_eq/=; [done|].
        destruct (Hbefore b); [by left|done].
    + assert (Py.dict_get i "name" ≠ JStr name) as Hne.
      { intros H%eq_str_true. congruence. }
      rewrite IH. split.
      * intros (before & after & -> & Hname & Hbefore).
        exists (i :: before), after. split; [done|]. split; [done|].
        intros j [->|Hj]%elem_of_cons; auto.
      * intros (before & after & Hl & Hname & Hbefore).
        destruct before as [|b before]; simplify_eq/=.
        exists before, after. split; [done|]. split; [done|].
        intros j Hj. apply Hbefore. by right.
Qed.

Lemma find_item_None existing_items name :
  find_item existing_items name = None
  ↔ ∀ i, i ∈ existing_items → Py.dict_get i "name" ≠ JStr name.
Proof.
  unfold find_item. induction existing_items as [|i rest IH]; simpl.
  - split; [|done]. by intros _ ? ?%elem_of_nil.
  - destruct (Py.eq_str (Py.dict_get i "name") name) eqn:Heq.
    + apply eq_str_true in Heq. split; [done|].
      intros H. destruct (H i); [by left|done].
    + rewrite IH. split.
      * intros H j [->|Hj]%elem_of_cons; [|by apply H].
        intros Hj%eq_str_true. congruence.
      * intros H j Hj. apply H. by right.
Qed.

(** An item that carries a name is a non-empty dict: [if item:] holds. *)
Lemma named_item_truthy (item : dpl_item) name :
  Py.dict_get item "name" = JStr name → item_truthy (Some item) = true.
Proof. by destruct item. Qed.

(** C4: the apply loop updates a chunk when an existing item has exactly
    the chunk's name, an equal string, the first such item and the id
    read from it, and creates it when no item has that name; the calls
    of a run follow the order of the chunks, all of them when every call
    succeeds and an initial part of them otherwise. *)
Theorem C4_planner (w : world) (existing_items : list dpl_item)
    (cs : list (string * list string)) :
  (∀ name,
     match plan_chunk existing_items name with
     | Update item list_id =>
         list_id = list_id_of item
         ∧ ∃ before after,
             existing_items = before ++ item :: after
             ∧ Py.dict_get item "name" = JStr name
             ∧ ∀ i, i ∈ before → Py.dict_get i "name" ≠ JStr name
     | Create =>
         ∀ i, i ∈ existing_items → Py.dict_get i "name" ≠ JStr name
     end)
  ∧ planned_events existing_items cs
    = cs ≫= (λ c, match plan_chunk existing_items c.1 with
                  | Update _ list_id =>
                      [EvBackup c.1; EvUpdate list_id c.1 c.2]
                  | Create => [EvCreate c.1 c.2]
                  end)
  ∧ ∀ ups tr,
      ∃ evs, (apply_chunks w existing_items cs ups tr).1 = tr ++ evs
             ∧ evs `prefix_of` planned_events existing_items cs
             ∧ (∀ ups', (apply_chunks w existing_items cs ups tr).2 = Ok ups'
                        → evs = planned_events existing_items cs).
Proof.
  split; [|split].
  - intros name. unfold plan_chunk.
    destruct (find_item existing_items name) as [item|] eqn:Hfind.
    + pose proof Hfind as (before & after & Hl & Hname & Hbefore)%find_item_Some.
      rewrite (named_item_truthy item name Hname).
      split; [done|]. by exists before, after.
    + by apply find_item_None.
  - induction cs as [|[name cidr_slice] rest IH]; [done|].
    simpl. by rewrite IH.
  - intros ups tr.
    destruct (apply_chunks w existing_items cs ups tr) as [tr' r] eqn:Happly.
    by apply apply_chunks_trace in Happly.
Qed.

(** [C4_planner] at three existing lists, one named X_02: the chunk X_02
    is an update of that list, and X_01 is created, the list named x_01
    being another name. *)
Lemma C4_planner_witness :
  plan_chunk x_items "X_02"
  = Update [("name", JStr "X_02"); ("listId", JStr "id-2")] (JStr "id-2")
  ∧ plan_chunk x_items "X_01" = Create
  ∧ Py.dict_get [("name", JStr "x_01"); ("listId", JStr "id-9")] "name"
    ≠ JStr "X_01".
Proof.
  split; [reflexivity|]. split; [reflexivity|].
  destruct (C4_planner (sample_world JNull [] x_items) x_items [])
    as (Hplan & _).
  specialize (Hplan "X_01"). cbv beta iota in Hplan.
  change (plan_chunk x_items "X_01") with Create in Hplan.
  apply Hplan. do 2 apply list_elem_of_further. apply list_elem_of_here.
Defined.

(** ** Exit codes and the frame of a run *)

Lemma connect_no_write_cache w tr tr' r ev :
  connect w tr = (tr', r) → ev ∈ tr' → ev ∈ tr ∨ (remote_call ev ∧ ¬ is_write_cache ev).
Proof.
  intros [->| ->]%connect_trace; set_unfold; intros H;
    intuition subst; simpl; tauto.
Qed.

(** A chunk whose backup, update or create call raises ends [push] with
    that exception: nothing in [main] catches it. *)
Lemma push_apply_failure cfg w existing_items new_cidrs tr tr0 tr1 e :
  base_item_step cfg w existing_items tr = (tr0, Ok ()) →
  apply_chunks w existing_items (chunks cfg new_cidrs) [] tr0 = (tr1, Raise e) →
  push cfg w existing_items new_cidrs tr = (tr1, Raise e).
Proof.
  intros Hbase Happly. unfold push, mbind, M_bind.
  by rewrite Hbase, Happly.
Qed.

(** The list that [fetch_zscaler_prefixes] returns is a sorted set. *)
Lemma fetch_sorted py_repr requests_get url family new_cidrs :
  fetch_zscaler_prefixes py_repr requests_get url family = Ok new_cidrs →
  ∃ cidrs, new_cidrs = sorted cidrs.
Proof.
  unfold fetch_zscaler_prefixes. destruct (PyStr.is_empty url); [done|].
  unfold mbind, res_bind.
  destruct (requests_get url) as [[data|?]|?]; try done.
  destruct (walk py_repr family data ∅) as [cidrs|?]; [|done].
  intros [= <-]. by exists cidrs.
Qed.

Lemma merge_sort_sorted (s : gset string) :
  merge_sort String.le (sorted s) = sorted s.
Proof.
  apply (StronglySorted_unique String.le).
  - apply StronglySorted_merge_sort; apply _.
  - apply sorted_StronglySorted.
  - apply merge_sort_Permutation.
Qed.

(** Closes a goal about the outcome of a run once that outcome is known:
    the premise contradicts it, or the conclusion restates it. *)
Ltac exit_code_absurd :=
  solve
    [ intros; repeat match goal with
                     | H : ∃ _, _ |- _ => destruct H
                     | H : _ ∧ _ |- _ => destruct H
                     | H : _ ∨ _ |- _ => destruct H
                     end;
      congruence ].

Ltac exit_code_case :=
  solve
    [ done
    | intros ? [= <-]; lia
    | exit_code_absurd
    | intros _; repeat eexists; (done || (left; done)) ].

(** C6, as the program has it: [main] returns 1 when the feed cannot be
    fetched, 2 when the guard blocks, 3 when the controller cannot be
    reached or listed, and 0 on success, which a dry run that is not
    blocked also is; it returns nothing else.  A failure of a chunk's
    backup, update or create call is not caught: the exception leaves
    [main], and the process ends with the interpreter's status for an
    uncaught exception, 1. *)
Theorem C6_exit_codes (py_repr : json → string) (cfg : config) (w : world)
    (dry_run : bool) :
  let fetched :=
    fetch_zscaler_prefixes py_repr (requests_get w) (ZSCALER_JSON_URL cfg)
      (ZSCALER_FAMILY cfg) in
  let r := (run py_repr cfg w dry_run).2 in
  (r = Ok 1 ↔ ∃ e, fetched = Raise e)
  ∧ (r = Ok 2 ↔ ∃ new_cidrs,
        fetched = Ok new_cidrs
        ∧ guard_blocks cfg (read_cache w) new_cidrs = true)
  ∧ (r = Ok 3 ↔ ∃ new_cidrs e,
        fetched = Ok new_cidrs
        ∧ guard_blocks cfg (read_cache w) new_cidrs = false
        ∧ dry_run = false
        ∧ (connect w []).2 = Raise e)
  ∧ (r = Ok 0 ↔ ∃ new_cidrs,
        fetched = Ok new_cidrs
        ∧ guard_blocks cfg (read_cache w) new_cidrs = false
        ∧ (dry_run = true
           ∨ ∃ tr existing_items,
               connect w [] = (tr, Ok existing_items)
               ∧ (push cfg w existing_items new_cidrs tr).2 = Ok 0))
  ∧ (∀ e, r = Raise e ↔ ∃ new_cidrs tr existing_items,
        fetched = Ok new_cidrs
        ∧ guard_blocks cfg (read_cache w) new_cidrs = false
        ∧ dry_run = false
        ∧ connect w [] = (tr, Ok existing_items)
        ∧ (push cfg w existing_items new_cidrs tr).2 = Raise e)
  ∧ (∀ n, r = Ok n → n = 0 ∨ n = 1 ∨ n = 2 ∨ n = 3)
  ∧ (∀ e, r = Raise e → exit_status r = 1).
Proof.
  intros fetched r. subst r.
  pose proof (run_cases py_repr cfg w dry_run) as Hrun. fold fetched in Hrun.
  destruct fetched as [new_cidrs|e0].
  - destruct (guard_blocks cfg (read_cache w) new_cidrs) eqn:Hguard.
    { rewrite Hrun. simpl. repeat split; exit_code_case. }
    destruct dry_run.
    { rewrite Hrun. simpl. repeat split; exit_code_case. }
    destruct (connect w []) as [tr [existing_items|e]] eqn:Hconnect.
    + rewrite Hrun.
      destruct (push cfg w existing_items new_cidrs tr) as [tr' r] eqn:Hpush.
      pose proof (push_result cfg w existing_items new_cidrs tr) as Hres.
      rewrite Hpush in Hres. simpl in *.
      repeat split; try exit_code_absurd.
      * intros ->. specialize (Hres 1 eq_refl). lia.
      * intros ->. specialize (Hres 2 eq_refl). lia.
      * intros ->. specialize (Hres 3 eq_refl). lia.
      * intros ->. exists new_cidrs. split; [done|]. split; [done|]. right.
        exists tr, existing_items. by rewrite Hpush.
      * intros (new' & [= <-] & _ & [?|(tr2 & ex2 & [= <- <-] & H)]); [done|].
        by rewrite Hpush in H.
      * intros ->. exists new_cidrs, tr, existing_items. by rewrite Hpush.
      * intros (new' & tr2 & ex2 & [= <-] & _ & _ & [= <- <-] & H).
        by rewrite Hpush in H.
      * intros n ->. specialize (Hres n eq_refl). lia.
      * by intros e ->.
    + rewrite Hrun. simpl. repeat split; exit_code_case.
  - rewrite Hrun. simpl. repeat split; exit_code_case.
Qed.

(** [C6_exit_codes] at a world where the login is refused: the run
    returns 3. *)
Lemma C6_exit_codes_witness :
  (connect (failing_login_world sample_payload) []).2 = Raise HTTPError
  ∧ (run sample_repr sample_cfg (failing_login_world sample_payload) false).2
    = Ok 3.
Proof.
  split; [reflexivity|].
  destruct (C6_exit_codes sample_repr sample_cfg
              (failing_login_world sample_payload) false)
    as (_ & _ & H3 & _).
  apply H3. exists ["10.0.0.0/8"; "192.0.2.7/32"], HTTPError.
  split; [vm_compute; reflexivity|].
  split; [vm_compute; reflexivity|].
  split; reflexivity.
Defined.

(** C6 fails on the program: when the create call of a chunk fails, the
    run ends with the exception, not with a return code of 4, and the
    status of the process is 1, the status of a run that could not fetch
    the feed. *)
Lemma C6_apply_failure_exits_1 :
  run sample_repr sample_cfg (failing_create_world sample_payload [] []) false
  = ([EvLogin; EvGetDplItems;
      EvCreate "ZSCALER_BYPASS" ["10.0.0.0/8"; "192.0.2.7/32"]],
     Raise HTTPError)
  ∧ exit_status
      (run sample_repr sample_cfg
         (failing_create_world sample_payload [] []) false).2 = 1
  ∧ run sample_repr sample_cfg unreachable_feed_world false
    = ([EvNotify "Zscaler Sync: Error" false], Ok 1)
  ∧ exit_status (run sample_repr sample_cfg unreachable_feed_world false).2 = 1.
Proof. by vm_compute. Qed.

(** C8: a dry run makes no call but a notification of failure: it ends
    after the fetch (1), after the guard (2), or right after it with 0,
    having made no call at all.  In any run, the cache is written only
    by a run that is not a dry run, after the apply loop has gone
    through every chunk with every call answered, and what is written is
    the list just fetched; that run returns 0. *)
Theorem C8_dry_run_frame (py_repr : json → string) (cfg : config) (w : world) :
  (run py_repr cfg w true = ([EvNotify "Zscaler Sync: Error" false], Ok 1)
   ∨ run py_repr cfg w true = ([EvNotify "Zscaler Sync: Blocked" false], Ok 2)
   ∨ run py_repr cfg w true = ([], Ok 0))
  ∧ (∀ ev, ev ∈ (run py_repr cfg w true).1 →
       ¬ remote_call ev ∧ ¬ is_write_cache ev)
  ∧ (∀ dry_run lst,
       EvWriteCache lst ∈ (run py_repr cfg w dry_run).1 →
       dry_run = false
       ∧ ∃ existing_items tr0 ups,
           fetch_zscaler_prefixes py_repr (requests_get w)
             (ZSCALER_JSON_URL cfg) (ZSCALER_FAMILY cfg) = Ok lst
           ∧ apply_chunks w existing_items (chunks cfg lst) [] tr0
             = (tr0 ++ planned_events existing_items (chunks cfg lst), Ok ups)
           ∧ run py_repr cfg w dry_run
             = (tr0 ++ planned_events existing_items (chunks cfg lst)
                ++ [EvWriteCache lst; EvNotify "Zscaler Sync: Success" true],
                Ok 0)).
Proof.
  assert (run py_repr cfg w true = ([EvNotify "Zscaler Sync: Error" false], Ok 1)
          ∨ run py_repr cfg w true
            = ([EvNotify "Zscaler Sync: Blocked" false], Ok 2)
          ∨ run py_repr cfg w true = ([], Ok 0)) as Hdry.
  { pose proof (run_cases py_repr cfg w true) as Hrun.
    destruct (fetch_zscaler_prefixes _ _ _ _) as [new_cidrs|e]; [|by left].
    destruct (guard_blocks _ _ _); [by right; left|by right; right]. }
  split; [done|]. split.
  - intros ev. destruct Hdry as [-> | [-> | ->]]; simpl;
      set_unfold; intros H; intuition subst; simpl in *; tauto.
  - intros dry_run lst Hin.
    pose proof (run_cases py_repr cfg w dry_run) as Hrun.
    destruct (fetch_zscaler_prefixes _ _ _ _) as [new_cidrs|e] eqn:Hfetch.
    2: { rewrite Hrun in Hin. by apply list_elem_of_singleton in Hin. }
    destruct (guard_blocks _ _ _).
    { rewrite Hrun in Hin. by apply list_elem_of_singleton in Hin. }
    destruct dry_run.
    { rewrite Hrun in Hin. by apply elem_of_nil in Hin. }
    split; [done|].
    destruct (connect w []) as [tr [existing_items|e]] eqn:Hconnect.
    + assert (∀ ev, ev ∈ tr → ¬ is_write_cache ev) as Htr.
      { intros ev Hev.
        destruct (connect_no_write_cache _ _ _ _ ev Hconnect Hev) as [H|[_ H]];
          [by apply elem_of_nil in H|done]. }
      destruct (push cfg w existing_items new_cidrs tr) as [tr' r] eqn:Hpush.
      rewrite Hrun in Hin |- *. simpl in Hin.
      apply fetch_sorted in Hfetch as [cidrs ->].
      apply push_outcome in Hpush
        as [(tr0 & ups & Htr0 & Happly & -> & ->)|(e & evs & -> & -> & Hevs)].
      * rewrite merge_sort_sorted in Hin |- *.
        assert (lst = sorted cidrs) as ->.
        { apply elem_of_app in Hin as [Hin|Hin].
          { destruct Htr0 as [-> | ->].
            - by apply Htr in Hin.
            - apply elem_of_app in Hin as [Hin|Hin]; [by apply Htr in Hin|].
              by apply list_elem_of_singleton in Hin. }
          apply elem_of_app in Hin as [Hin|Hin].
          { by apply planned_events_no_write_cache in Hin. }
          apply elem_of_cons in Hin as [[= ->]|Hin]; [done|].
          by apply list_elem_of_singleton in Hin. }
        by exists existing_items, tr0, ups.
      * apply elem_of_app in Hin as [Hin|Hin];
          [by apply Htr in Hin|by apply Hevs in Hin].
    + rewrite Hrun in Hin. simpl in Hin.
      apply elem_of_app in Hin as [Hin|Hin].
      * destruct (connect_no_write_cache _ _ _ _ _ Hconnect Hin) as [H|[_ H]];
          [by apply elem_of_nil in H|done].
      * by apply list_elem_of_singleton in Hin.
Qed.

(** [C8_dry_run_frame] at a run that goes through: the cache is written,
    so the run is no dry run and has returned 0 after its one chunk. *)
Lemma C8_dry_run_frame_witness :
  EvWriteCache ["10.0.0.0/8"; "192.0.2.7/32"]
  ∈ (run sample_repr sample_cfg (sample_world sample_payload [] []) false).1
  ∧ ∃ existing_items tr0 ups,
      fetch_zscaler_prefixes sample_repr
        (requests_get (sample_world sample_payload [] []))
        (ZSCALER_JSON_URL sample_cfg) (ZSCALER_FAMILY sample_cfg)
      = Ok ["10.0.0.0/8"; "192.0.2.7/32"]
      ∧ apply_chunks (sample_world sample_payload [] []) existing_items
          (chunks sample_cfg ["10.0.0.0/8"; "192.0.2.7/32"]) [] tr0
        = (tr0 ++ planned_events existing_items
                    (chunks sample_cfg ["10.0.0.0/8"; "192.0.2.7/32"]),
           Ok ups)
      ∧ run sample_repr sample_cfg (sample_world sample_payload [] []) false
        = (tr0 ++ planned_events existing_items
                    (chunks sample_cfg ["10.0.0.0/8"; "192.0.2.7/32"])
           ++ [EvWriteCache ["10.0.0.0/8"; "192.0.2.7/32"];
               EvNotify "Zscaler Sync: Success" true],
           Ok 0).
Proof.
  assert (EvWriteCache ["10.0.0.0/8"; "192.0.2.7/32"]
          ∈ (run sample_repr sample_cfg
               (sample_world sample_payload [] []) false).1) as Hin.
  { assert ((run sample_repr sample_cfg
               (sample_world sample_payload [] []) false).1
            = [EvLogin; EvGetDplItems;
               EvCreate "ZSCALER_BYPASS" ["10.0.0.0/8"; "192.0.2.7/32"];
               EvWriteCache ["10.0.0.0/8"; "192.0.2.7/32"];
               EvNotify "Zscaler Sync: Success" true]) as ->
      by (vm_compute; reflexivity).
    do 3 apply list_elem_of_further. apply list_elem_of_here. }
  split; [exact Hin|].
  destruct (C8_dry_run_frame sample_repr sample_cfg
              (sample_world sample_payload [] [])) as (_ & _ & Hwrite).
  exact (proj2 (Hwrite false _ Hin)).
Defined.

(** ** Extraction *)

Lemma is_empty_true (s : string) : PyStr.is_empty s = true ↔ s = "".
Proof. by destruct s. Qed.

(** What [add_cidr] does to the set: it never raises, and adds the one
    prefix the value yields, if any. *)
Lemma add_cidr_spec family value mask cidrs :
  ∃ cidrs',
    add_cidr family value mask cidrs = Ok cidrs'
    ∧ ∀ x, x ∈ cidrs' ↔ x ∈ cidrs ∨ yields family value mask x.
Proof.
  unfold add_cidr, yields, family_admits.
  destruct (PyStr.is_empty (PyStr.strip value)) eqn:Hempty.
  { exists cidrs. split; [done|]. intros x. split; [by left|].
    intros [?|(net & Hne & _)]; [done|]. by apply is_empty_true in Hempty. }
  assert (PyStr.strip value ≠ "") as Hne.
  { intros H%is_empty_true. congruence. }
  destruct (add_cidr_try (PyStr.strip value) mask) as [net|e].
  2: { exists cidrs. split; [done|]. intros x. split; [by left|].
       by intros [?|(net & _ & ? & _)]. }
  destruct (String.eqb family "ipv4" && negb (ipaddress.version_int net =? 4))
    eqn:H4.
  { exists cidrs. split; [done|]. intros x. split; [by left|].
    intros [?|(net' & _ & [= <-] & Hadm & _)]; [done|].
    by rewrite H4 in Hadm. }
  destruct (String.eqb family "ipv6" && negb (ipaddress.version_int net =? 6))
    eqn:H6.
  { exists cidrs. split; [done|]. intros x. split; [by left|].
    intros [?|(net' & _ & [= <-] & Hadm & _)]; [done|].
    by rewrite H4, H6 in Hadm. }
  exists ({[cidr_text net]} ∪ cidrs). split; [done|]. intros x.
  rewrite elem_of_union, elem_of_singleton. split.
  - intros [->|?]; [right|by left]. exists net. by rewrite H4, H6.
  - intros [?|(net' & _ & [= <-] & _ & ->)]; [by right|by left].
Qed.


Section json_induction.

Variable P : json → Prop.
Hypothesis Hnull : P JNull.
Hypothesis Hbool : ∀ b, P (JBool b).
Hypothesis Hint : ∀ n, P (JInt n).
Hypothesis Hfloat : ∀ f, P (JFloat f).
Hypothesis Hstr : ∀ s, P (JStr s).
Hypothesis Hlist : ∀ l, Forall P l → P (JList l).
Hypothesis Hdict : ∀ d, Forall (λ kv, P kv.2) d → P (JDict d).

(** Induction on a JSON value, with the hypothesis on every element of a
    list and every value of a dict. *)
Fixpoint json_nested_ind (v : json) : P v :=
  match v with
  | JNull => Hnull
  | JBool b => Hbool b
  | JInt n => Hint n
  | JFloat f => Hfloat f
  | JStr s => Hstr s
  | JList l =>
      Hlist l
        ((fix go (l : list json) : Forall P l :=
            match l with
            | [] => List.Forall_nil P
            | x :: l' => List.Forall_cons P x l' (json_nested_ind x) (go l')
            end) l)
  | JDict d =>
      Hdict d
        ((fix go (d : list (string * json)) : Forall (λ kv, P kv.2) d :=
            match d with
            | [] => List.Forall_nil _
            | kv :: d' =>
                List.Forall_cons (λ kv, P kv.2) kv d'
                  (json_nested_ind kv.2) (go d')
            end) d)
  end.

End json_induction.

Section ExtractorFacts.

Variable py_repr : json → string.

Lemma walk_list family l cidrs :
  walk py_repr family (JList l) cidrs = walk_all py_repr family l cidrs.
Proof.
  simpl. revert cidrs. induction l as [|v rest IH]; intros cidrs; [done|].
  simpl. destruct (walk py_repr family v cidrs); simpl; [apply IH|done].
Qed.

Lemma walk_dict family d cidrs :
  walk py_repr family (JDict d) cidrs
  = (cidrs ← walk_dict_head py_repr family d cidrs;
     walk_all py_repr family d.*2 cidrs).
Proof.
  simpl. destruct (walk_dict_head py_repr family d cidrs) as [cidrs'|e];
    simpl; [|done].
  clear cidrs. revert cidrs'.
  induction d as [|[k v] rest IH]; intros cidrs; [done|].
  simpl. destruct (walk py_repr family v cidrs); simpl; [apply IH|done].
Qed.




End ExtractorFacts.

Section MalformedEntries.

Variable py_repr : json → string.



End MalformedEntries.



(** The example of the specification: an entry that is no address, among
    entries that are. *)
Example malformed_entry_among_valid :
  sample_fetch "ipv4"
    (JList [JDict [("ipPrefix", JStr "10.0.0.0/8")];
            JDict [("ipPrefix", JStr "not-an-ip")];
            JDict [("ipPrefix", JStr "192.0.2.7")]])
  = Ok ["10.0.0.0/8"; "192.0.2.7/32"].
Proof. vm_compute. reflexivity. Qed.

(** ** Networks *)

Lemma split_no_sep sep s :
  PyStr.contains sep s = false → PyStr.split sep s = [s].
Proof.
  induction s as [|c s IH]; [done|]. simpl.
  destruct (Ascii.eqb c sep); [done|]. simpl. intros H. by rewrite IH.
Qed.

Lemma split_app_sep sep a b :
  PyStr.contains sep a = false →
  PyStr.split sep (a +:+ String sep b) = a :: PyStr.split sep b.
Proof.
  induction a as [|c a IH].
  - intros _. rewrite string_app_nil. simpl. by rewrite Ascii.eqb_refl.
  - rewrite string_app_cons. simpl.
    destruct (Ascii.eqb c sep); [done|]. simpl. intros H. by rewrite IH.
Qed.

Lemma split_addr_prefix_app addr mask :
  PyStr.contains "/" addr = false → PyStr.contains "/" mask = false →
  ipaddress.split_addr_prefix (addr +:+ "/" +:+ mask) = Ok (addr, Some mask).
Proof.
  intros Haddr Hmask. unfold ipaddress.split_addr_prefix.
  change ("/" +:+ mask) with (String "/" mask).
  by rewrite split_app_sep, split_no_sep.
Qed.

(** The network address of a network has its host bits at zero. *)
Lemma ip_network_host_bits_zero address net :
  ipaddress.ip_network address = Ok net →
  Z.land (ipaddress.network_address net)
         (ipaddress.ip_int_from_prefix (ipaddress.version net)
            (ipaddress.prefixlen net))
  = ipaddress.network_address net.
Proof.
  assert (∀ x m, Z.land (if negb (Z.land x m =? x) then Z.land x m else x) m
                 = (if negb (Z.land x m =? x) then Z.land x m else x)) as Hland.
  { intros x m. destruct (Z.land x m =? x) eqn:Heq; simpl.
    - by apply Z.eqb_eq in Heq.
    - by rewrite <- Z.land_assoc, Z.land_diag. }
  unfold ipaddress.ip_network.
  destruct (ipaddress.IPv4Network address) as [net4|e4] eqn:H4.
  - intros [= <-]. unfold ipaddress.IPv4Network in H4.
    destruct (ipaddress.split_addr_prefix address) as [[addr mask]|]; [|done].
    cbn [mbind res_bind] in H4.
    destruct (ipaddress.IPv4Address addr) as [ip|]; [|done].
    cbn [mbind res_bind] in H4.
    destruct (ipaddress.v4_make_netmask mask) as [p|]; [|done].
    cbn [mbind res_bind] in H4. injection H4 as <-. simpl. apply Hland.
  - assert (ipaddress.IPv6Network address = Ok net →
            Z.land (ipaddress.network_address net)
              (ipaddress.ip_int_from_prefix (ipaddress.version net)
                 (ipaddress.prefixlen net))
            = ipaddress.network_address net) as H6.
    { unfold ipaddress.IPv6Network.
      destruct (ipaddress.split_addr_prefix address) as [[addr mask]|]; [|done].
      cbn [mbind res_bind].
      destruct (ipaddress.IPv6Address addr) as [[ip scope]|]; [|done].
      cbn [mbind res_bind].
      destruct (ipaddress.v6_make_netmask mask) as [p|]; [|done].
      cbn [mbind res_bind]. intros [= <-].
      specialize (Hland ip (ipaddress.ip_int_from_prefix ipaddress.IPv6 p)).
      by destruct (Z.land ip _ =? ip). }
    destruct e4; try done;
      destruct (ipaddress.IPv6Network address) as [net6|e6];
      try done; try (intros [= <-]; by apply H6); by destruct e6.
Qed.

(** C5 on the program: a bare value, with no slash and no mask, is
    parsed with "/32" appended whatever its family, so the network that
    comes out has prefix length 32, also for an IPv6 address, where the
    address of a single host has 128; its host bits are at zero. *)
Theorem C5_bare_address_gets_32 (value : string) (net : ipaddress.network) :
  PyStr.contains "/" value = false →
  add_cidr_try value JNull = Ok net →
  ipaddress.prefixlen net = 32
  ∧ Z.land (ipaddress.network_address net)
           (ipaddress.ip_int_from_prefix (ipaddress.version net) 32)
    = ipaddress.network_address net.
Proof.
  intros Hbare Htry.
  assert (ipaddress.prefixlen net = 32) as Hlen.
  { unfold add_cidr_try in Htry. rewrite Hbare in Htry.
    cbn [Py.is_not_None] in Htry.
    change (value +:+ "/32") with (value +:+ "/" +:+ "32") in Htry.
    unfold ipaddress.ip_network, ipaddress.IPv4Network,
      ipaddress.IPv6Network in Htry.
    rewrite (split_addr_prefix_app value "32" Hbare eq_refl) in Htry.
    cbn [mbind res_bind] in Htry.
    destruct (ipaddress.IPv4Address value) as [ip|e4].
    - cbn [mbind res_bind] in Htry. by injection Htry as <-.
    - cbn [mbind res_bind] in Htry.
      destruct (ipaddress.IPv6Address value) as [[ip scope]|e6].
      + cbn [mbind res_bind] in Htry.
        destruct e4; try done; injection Htry as <-;
          by destruct (negb _).
      + cbn [mbind res_bind] in Htry. by destruct e4, e6. }
  split; [done|]. rewrite <- Hlen.
  apply (ip_network_host_bits_zero (value +:+ "/32")).
  unfold add_cidr_try in Htry. by rewrite Hbare in Htry.
Qed.

(** [C5_bare_address_gets_32] at the bare IPv6 address 2001:db8::1: the
    network is 2001:db8::/32, not the host 2001:db8::1/128. *)
Lemma C5_bare_address_gets_32_witness :
  PyStr.contains "/" "2001:db8::1" = false
  ∧ add_cidr_try "2001:db8::1" JNull
    = Ok (ipaddress.mk_network ipaddress.IPv6
            0x20010db8000000000000000000000000 None 32)
  ∧ ipaddress.prefixlen
      (ipaddress.mk_network ipaddress.IPv6
         0x20010db8000000000000000000000000 None 32) = 32.
Proof.
  assert (add_cidr_try "2001:db8::1" JNull
          = Ok (ipaddress.mk_network ipaddress.IPv6
                  0x20010db8000000000000000000000000 None 32)) as Htry
    by (vm_compute; reflexivity).
  split; [reflexivity|]. split; [exact Htry|].
  exact (proj1 (C5_bare_address_gets_32 "2001:db8::1" _ eq_refl Htry)).
Defined.

(** The run of the extraction on that address, beside a bare IPv4 one. *)
Example bare_ipv6_address_extracted :
  sample_fetch "both"
    (JList [JDict [("ipPrefix", JStr "2001:db8::1")];
            JDict [("ipPrefix", JStr "192.0.2.7")]])
  = Ok ["192.0.2.7/32"; "2001:db8::/32"].
Proof. vm_compute. reflexivity. Qed.

(** ** Mask keys *)

Lemma or_truthy a b : Py.truthy a = true → Py.or_ a b = a.
Proof. unfold Py.or_. by intros ->. Qed.

Lemma or_falsy a b : Py.truthy a = false → Py.or_ a b = b.
Proof. unfold Py.or_. by intros ->. Qed.

(** The mask is read from the keys "masklength", "maskLength" and
    "mask", spelled so, and from no other key. *)
Lemma mask_of_other_key k v d :
  k ≠ "masklength" → k ≠ "maskLength" → k ≠ "mask" →
  mask_of ((k, v) :: d) = mask_of d.
Proof.
  intros H1 H2 H3. unfold mask_of. simpl.
  by rewrite !(proj2 (String.eqb_neq _ _)) by done.
Qed.

Lemma mask_of_cases d :
  (Py.truthy (Py.dict_get d "masklength") = true →
   mask_of d = Py.dict_get d "masklength")
  ∧ (Py.truthy (Py.dict_get d "masklength") = false →
     Py.truthy (Py.dict_get d "maskLength") = true →
     mask_of d = Py.dict_get d "maskLength")
  ∧ (Py.truthy (Py.dict_get d "masklength") = false →
     Py.truthy (Py.dict_get d "maskLength") = false →
     mask_of d = Py.dict_get d "mask").
Proof.
  unfold mask_of. repeat split.
  - intros H. rewrite (or_truthy _ _ H). by apply or_truthy.
  - intros H1 H2. rewrite (or_falsy _ _ H1). by apply or_truthy.
  - intros H1 H2. rewrite (or_falsy _ _ H1). by apply or_falsy.
Qed.

Section MaskKeys.

Variable py_repr : json → string.

(** A value that is false in a test adds nothing when it is walked. *)
Lemma walk_falsy family v cidrs :
  Py.truthy v = false → walk py_repr family v cidrs = Ok cidrs.
Proof. by destruct v as [| | | |[|]|[|]|[|]]. Qed.

(** The node [{"prefix": address, key: v}] for a bare address, when
    walking [v] adds nothing: the head decides. *)
Lemma walk_prefix_node family address key v cidrs :
  PyStr.contains "/" address = false →
  key ≠ "ipPrefix" →
  (∀ cidrs', walk py_repr family v cidrs' = Ok cidrs') →
  walk py_repr family (JDict [("prefix", JStr address); (key, v)]) cidrs
  = add_cidr family address (mask_of [("prefix", JStr address); (key, v)]) cidrs.
Proof.
  intros Hbare Hkey Hv. rewrite walk_dict. unfold walk_dict_head.
  cbn [Py.dict_has Py.dict_get]. 
  rewrite (proj2 (String.eqb_neq key "ipPrefix")) by done.
  change (String.eqb "prefix" "ipPrefix") with false.
  change (String.eqb "prefix" "prefix") with true.
  cbn [orb py_str].
  destruct (add_cidr_spec family address
              (mask_of [("prefix", JStr address); (key, v)]) cidrs)
    as (cidrs' & -> & _).
  cbn [mbind res_bind fmap list_fmap snd walk_all walk].
  rewrite Hbare. cbn [mbind res_bind]. rewrite Hv. done.
Qed.

End MaskKeys.

(** C9 fails on the program: the key "MaskLength" is no mask key, and the
    address beside it comes out as a host, where "maskLength" gives the
    /24 network. *)
Lemma C9_other_case_not_recognized :
  sample_fetch "ipv4"
    (JDict [("prefix", JStr "10.0.0.0"); ("MaskLength", JInt 24)])
  = Ok ["10.0.0.0/32"]
  ∧ sample_fetch "ipv4"
      (JDict [("prefix", JStr "10.0.0.0"); ("maskLength", JInt 24)])
    = Ok ["10.0.0.0/24"].
Proof. split; vm_compute; reflexivity. Qed.

(** C9, as the program has it.  In a dict, an "ipPrefix" key goes first
    and alone: its value is added, with no mask; without it a "prefix"
    key is added with the mask of the dict; with neither the head adds
    nothing; then the values of the dict are walked, and a string with a
    slash is added wherever it is walked.  The mask is the first of
    [get("masklength")], [get("maskLength")] that is true in a test, and
    [get("mask")] otherwise: three spellings, matched exactly.  So, for
    a bare address beside an integer that is not zero: under one of the
    three keys the integer is the mask; under any other key, spelled in
    another case or otherwise, the address is taken without a mask. *)
Theorem C9_mask_aliases (py_repr : json → string) (family : string)
    (cidrs : gset string) :
  (∀ d,
     walk py_repr family (JDict d) cidrs
     = (cidrs ← walk_dict_head py_repr family d cidrs;
        walk_all py_repr family d.*2 cidrs)
     ∧ (Py.dict_has d "ipPrefix" = true →
        walk_dict_head py_repr family d cidrs
        = add_cidr family (py_str py_repr (Py.dict_get d "ipPrefix")) JNull cidrs)
     ∧ (Py.dict_has d "ipPrefix" = false → Py.dict_has d "prefix" = true →
        walk_dict_head py_repr family d cidrs
        = add_cidr family (py_str py_repr (Py.dict_get d "prefix"))
            (mask_of d) cidrs)
     ∧ (Py.dict_has d "ipPrefix" = false → Py.dict_has d "prefix" = false →
        walk_dict_head py_repr family d cidrs = Ok cidrs))
  ∧ (∀ s,
       walk py_repr family (JStr s) cidrs
       = if PyStr.contains "/" s then add_cidr family s JNull cidrs
         else Ok cidrs)
  ∧ (∀ d,
       (Py.truthy (Py.dict_get d "masklength") = true →
        mask_of d = Py.dict_get d "masklength")
       ∧ (Py.truthy (Py.dict_get d "masklength") = false →
          Py.truthy (Py.dict_get d "maskLength") = true →
          mask_of d = Py.dict_get d "maskLength")
       ∧ (Py.truthy (Py.dict_get d "masklength") = false →
          Py.truthy (Py.dict_get d "maskLength") = false →
          mask_of d = Py.dict_get d "mask"))
  ∧ (∀ d k v,
       k ≠ "masklength" → k ≠ "maskLength" → k ≠ "mask" →
       mask_of ((k, v) :: d) = mask_of d)
  ∧ (∀ address key n,
       PyStr.contains "/" address = false → n ≠ 0 →
       (key = "masklength" ∨ key = "maskLength" ∨ key = "mask" →
        walk py_repr family (JDict [("prefix", JStr address); (key, JInt n)]) cidrs
        = add_cidr family address (JInt n) cidrs)
       ∧ (key ≠ "masklength" → key ≠ "maskLength" → key ≠ "mask" →
          key ≠ "ipPrefix" →
          walk py_repr family (JDict [("prefix", JStr address); (key, JInt n)])
            cidrs
          = add_cidr family address JNull cidrs)).
Proof.
  split; [|split; [done|split; [apply mask_of_cases|
    split; [intros d k v; apply mask_of_other_key|]]]].
  - intros d. split; [apply walk_dict|]. unfold walk_dict_head.
    repeat split.
    + by intros ->.
    + by intros -> ->.
    + by intros -> ->.
  - intros address key n Hbare Hn.
    assert (negb (n =? 0) = true) as Htruthy
      by (by apply negb_true_iff, Z.eqb_neq).
    split.
    + intros Hkey. rewrite walk_prefix_node; [|done| |done].
      2: { destruct Hkey as [->|[->| ->]]; done. }
      f_equal. unfold mask_of.
      destruct Hkey as [->|[->| ->]]; unfold Py.or_; simpl;
        rewrite ?Htruthy; simpl; by rewrite ?Htruthy.
    + intros H1 H2 H3 H4. rewrite walk_prefix_node by done.
      f_equal. rewrite mask_of_other_key by done.
      rewrite mask_of_other_key; done.
Qed.

(** [C9_mask_aliases] at the key "MaskLength": the address beside it is
    taken without a mask. *)
Lemma C9_mask_aliases_witness :
  PyStr.contains "/" "10.0.0.0" = false
  ∧ walk sample_repr "ipv4"
      (JDict [("prefix", JStr "10.0.0.0"); ("MaskLength", JInt 24)]) ∅
    = add_cidr "ipv4" "10.0.0.0" JNull ∅
  ∧ walk sample_repr "ipv4"
      (JDict [("prefix", JStr "10.0.0.0"); ("maskLength", JInt 24)]) ∅
    = add_cidr "ipv4" "10.0.0.0" (JInt 24) ∅.
Proof.
  split; [reflexivity|].
  destruct (C9_mask_aliases sample_repr "ipv4" ∅) as (_ & _ & _ & _ & Hnode).
  split.
  - destruct (Hnode "10.0.0.0" "MaskLength" 24 eq_refl ltac:(lia))
      as (_ & Hother).
    apply Hother; discriminate.
  - destruct (Hnode "10.0.0.0" "maskLength" 24 eq_refl ltac:(lia))
      as (Halias & _).
    apply Halias. right. by left.
Defined.

(** ** Bare IPv4 addresses *)

Lemma is_digit_val c : PyStr.is_digit c = true → 0 ≤ PyStr.digit_val c ≤ 9.
Proof. unfold PyStr.is_digit, PyStr.digit_val. lia. Qed.

Lemma int10_go_nonneg s a :
  PyStr.all_chars PyStr.is_digit s = true → 0 ≤ a → 0 ≤ PyStr.int10_go a s.
Proof.
  revert a. induction s as [|c s IH]; intros a; simpl; [done|].
  intros [Hc Hs]%andb_true_iff Ha. apply IH; [done|].
  apply is_digit_val in Hc. lia.
Qed.

Lemma parse_octet_range s n :
  ipaddress.parse_octet s = Ok n → 0 ≤ n ≤ 255.
Proof.
  unfold ipaddress.parse_octet.
  destruct (PyStr.is_empty s); [done|].
  destruct (PyStr.isascii_isdigit s) eqn:Hdig; [|done]. simpl.
  destruct (3 <? _); [done|].
  destruct (negb (String.eqb s "0") && _); [done|].
  destruct (255 <? PyStr.int10 s) eqn:Hle; [done|].
  intros [= <-]. apply Z.ltb_ge in Hle. split; [|done].
  apply andb_true_iff in Hdig as [_ Hdig]. by apply int10_go_nonneg.
Qed.

Lemma v4_ip_int_range s ip :
  ipaddress.v4_ip_int_from_string s = Ok ip → 0 ≤ ip < 2 ^ 32.
Proof.
  unfold ipaddress.v4_ip_int_from_string.
  destruct (PyStr.is_empty s); [done|].
  destruct (PyStr.split "." s) as [|a [|b [|c [|d [|]]]]]; try done.
  simpl.
  destruct (ipaddress.parse_octet a) as [na|[]] eqn:Ha; try done. simpl.
  destruct (ipaddress.parse_octet b) as [nb|[]] eqn:Hb; try done. simpl.
  destruct (ipaddress.parse_octet c) as [nc|[]] eqn:Hc; try done. simpl.
  destruct (ipaddress.parse_octet d) as [nd|[]] eqn:Hd; try done. simpl.
  intros [= <-].
  apply parse_octet_range in Ha, Hb, Hc, Hd.
  unfold ipaddress.from_bytes_big. simpl. lia.
Qed.

Lemma IPv4Address_range s ip :
  ipaddress.IPv4Address s = Ok ip →
  0 ≤ ip < 2 ^ 32 ∧ PyStr.contains "/" s = false ∧ s ≠ "".
Proof.
  unfold ipaddress.IPv4Address.
  destruct (PyStr.contains "/" s); [done|]. intros H.
  split; [by apply v4_ip_int_range in H|]. split; [done|].
  intros ->. by vm_compute in H.
Qed.

(** An IPv4 address followed by a slash and a mask is the IPv4 network
    of that prefix length. *)
Lemma ip_network_v4 addr mask ip p :
  PyStr.contains "/" mask = false →
  ipaddress.IPv4Address addr = Ok ip →
  ipaddress.v4_make_netmask (Some mask) = Ok p →
  ipaddress.ip_network (addr +:+ "/" +:+ mask)
  = Ok (ipaddress.mk_network ipaddress.IPv4
          (Z.land ip (ipaddress.ip_int_from_prefix ipaddress.IPv4 p)) None p).
Proof.
  intros Hmask Haddr Hp.
  destruct (IPv4Address_range addr ip Haddr) as (_ & Hbare & _).
  unfold ipaddress.ip_network, ipaddress.IPv4Network.
  rewrite (split_addr_prefix_app addr mask Hbare Hmask).
  cbn [mbind res_bind]. rewrite Haddr. cbn [mbind res_bind].
  rewrite Hp. cbn [mbind res_bind]. do 2 f_equal.
  destruct (Z.land ip _ =? ip) eqn:Heq; simpl; [|done].
  by apply Z.eqb_eq in Heq.
Qed.

(** [add_cidr] on a bare IPv4 address: without a mask it adds the single
    host, with the mask 0 or [False] it adds the network of length 0,
    and with an empty string, list or dict as mask it adds nothing. *)
Lemma add_cidr_bare_ipv4 family value ip cidrs :
  ipaddress.IPv4Address (PyStr.strip value) = Ok ip →
  family ≠ "ipv6" →
  add_cidr family value JNull cidrs
  = Ok ({[ ipaddress.v4_string_from_ip_int ip +:+ "/32" ]} ∪ cidrs)
  ∧ add_cidr family value (JInt 0) cidrs = Ok ({[ "0.0.0.0/0" ]} ∪ cidrs)
  ∧ add_cidr family value (JBool false) cidrs = Ok ({[ "0.0.0.0/0" ]} ∪ cidrs)
  ∧ add_cidr family value (JStr "") cidrs = Ok cidrs
  ∧ add_cidr family value (JList []) cidrs = Ok cidrs
  ∧ add_cidr family value (JDict []) cidrs = Ok cidrs.
Proof.
  intros Haddr Hfamily.
  destruct (IPv4Address_range _ ip Haddr) as (Hrange & Hbare & Hne).
  assert (PyStr.is_empty (PyStr.strip value) = false) as Hempty.
  { destruct (PyStr.is_empty _) eqn:H; [|done]. by apply is_empty_true in H. }
  assert (String.eqb family "ipv6" = false) as H6 by by apply String.eqb_neq.
  assert (Z.land ip (ipaddress.ip_int_from_prefix ipaddress.IPv4 32) = ip)
    as Hhost.
  { change (ipaddress.ip_int_from_prefix ipaddress.IPv4 32) with (Z.ones 32).
    rewrite Z.land_ones by lia. by apply Z.mod_small. }
  assert (Z.land ip (ipaddress.ip_int_from_prefix ipaddress.IPv4 0) = 0)
    as Hzero.
  { change (ipaddress.ip_int_from_prefix ipaddress.IPv4 0) with 0.
    apply Z.land_0_r. }
  unfold add_cidr, add_cidr_try. rewrite Hempty, Hbare.
  cbn [Py.is_not_None Py.int mbind res_bind].
  change (PyStr.str_of_int 0) with "0".
  change (PyStr.strip value +:+ "/32") with (PyStr.strip value +:+ "/" +:+ "32").
  rewrite (ip_network_v4 _ "32" ip 32 eq_refl Haddr eq_refl), Hhost.
  rewrite (ip_network_v4 _ "0" ip 0 eq_refl Haddr eq_refl), Hzero.
  change (Py.int_of_str "") with (Raise (A := Z) ValueError).
  cbn [mbind res_bind]. unfold ipaddress.version_int. simpl.
  rewrite H6. simpl. by rewrite !andb_false_r.
Qed.

(** C10 fails on the program: under the key "mask" the value 0 is the
    mask, and the address comes out as the network of length 0, where
    under "masklength" it comes out as a host. *)
Lemma C10_zero_under_mask_is_a_mask :
  sample_fetch "ipv4" (JDict [("prefix", JStr "10.0.0.0"); ("mask", JInt 0)])
  = Ok ["0.0.0.0/0"]
  ∧ sample_fetch "ipv4"
      (JDict [("prefix", JStr "10.0.0.0"); ("masklength", JInt 0)])
    = Ok ["10.0.0.0/32"].
Proof. split; vm_compute; reflexivity. Qed.

(** C10, as the program has it: a node [{"prefix": address, key: v}] with
    a bare address and a value [v] that is false in a test.  Under
    "masklength" or "maskLength" the mask is absent, and an IPv4 address
    is added as a single host, with length 32.  Under "mask", the last
    key the program reads, [v] itself is the mask: [None] is an absent
    mask, 0 and [False] give the network of length 0, and an empty
    string, list or dict adds nothing. *)
Theorem C10_falsy_mask (py_repr : json → string) (family address : string)
    (v : json) (cidrs : gset string) :
  PyStr.contains "/" address = false →
  Py.truthy v = false →
  (∀ key, key = "masklength" ∨ key = "maskLength" →
     walk py_repr family (JDict [("prefix", JStr address); (key, v)]) cidrs
     = add_cidr family address JNull cidrs)
  ∧ walk py_repr family (JDict [("prefix", JStr address); ("mask", v)]) cidrs
    = add_cidr family address v cidrs
  ∧ (∀ ip,
       ipaddress.IPv4Address (PyStr.strip address) = Ok ip →
       family ≠ "ipv6" →
       add_cidr family address JNull cidrs
       = Ok ({[ ipaddress.v4_string_from_ip_int ip +:+ "/32" ]} ∪ cidrs)
       ∧ add_cidr family address (JInt 0) cidrs = Ok ({[ "0.0.0.0/0" ]} ∪ cidrs)
       ∧ add_cidr family address (JBool false) cidrs
         = Ok ({[ "0.0.0.0/0" ]} ∪ cidrs)
       ∧ add_cidr family address (JStr "") cidrs = Ok cidrs
       ∧ add_cidr family address (JList []) cidrs = Ok cidrs
       ∧ add_cidr family address (JDict []) cidrs = Ok cidrs).
Proof.
  intros Hbare Hfalsy. split; [|split].
  - intros key Hkey.
    rewrite walk_prefix_node; [|done| |by intros; apply walk_falsy].
    2: { by destruct Hkey as [-> | ->]. }
    f_equal. unfold mask_of, Py.or_.
    destruct Hkey as [-> | ->]; simpl; rewrite ?Hfalsy; simpl;
      by rewrite ?Hfalsy.
  - rewrite walk_prefix_node; [|done|done|by intros; apply walk_falsy].
    f_equal.
  - intros ip. apply add_cidr_bare_ipv4.
Qed.

(** [C10_falsy_mask] at the address 10.0.0.0 and the value 0. *)
Lemma C10_falsy_mask_witness :
  PyStr.contains "/" "10.0.0.0" = false
  ∧ Py.truthy (JInt 0) = false
  ∧ walk sample_repr "ipv4"
      (JDict [("prefix", JStr "10.0.0.0"); ("masklength", JInt 0)]) ∅
    = add_cidr "ipv4" "10.0.0.0" JNull ∅
  ∧ walk sample_repr "ipv4"
      (JDict [("prefix", JStr "10.0.0.0"); ("mask", JInt 0)]) ∅
    = add_cidr "ipv4" "10.0.0.0" (JInt 0) ∅.
Proof.
  split; [reflexivity|]. split; [reflexivity|].
  destruct (C10_falsy_mask sample_repr "ipv4" "10.0.0.0" (JInt 0) ∅
              eq_refl eq_refl) as (Hhost & Hmask & _).
  split; [apply Hhost; by left|exact Hmask].
Defined.

(** ** The examples of the specification *)

Example delta_example :
  to_add ["A"; "B"; "C"] ["B"; "C"; "D"] = ["D"]
  ∧ to_remove ["A"; "B"; "C"] ["B"; "C"; "D"] = ["A"].
Proof. split; vm_compute; reflexivity. Qed.

Example normalization_examples :
  sample_fetch "ipv4"
    (JList [JStr "10.0.0.5/32";
            JDict [("ipPrefix", JStr "10.0.1.5")];
            JDict [("ipPrefix", JStr "10.0.2.0/255.255.255.0")];
            JDict [("prefix", JStr "10.0.3.0"); ("mask", JInt 24)];
            JDict [("ipPrefix", JStr "2001:db8::/48")]])
  = Ok ["10.0.0.5/32"; "10.0.1.5/32"; "10.0.2.0/24"; "10.0.3.0/24"].
Proof. vm_compute. reflexivity. Qed.

Example partition_example :
  (λ c : string * list string, (c.1, len c.2)) <$> chunks x_cfg (host_prefixes 1200)
  = [("X_01", 500); ("X_02", 500); ("X_03", 200)]
  ∧ concat (chunks x_cfg (host_prefixes 1200)).*2 = host_prefixes 1200
  ∧ chunks x_cfg (host_prefixes 10) = [("X", host_prefixes 10)].
Proof. split; [|split]; vm_compute; reflexivity. Qed.

Example planner_example :
  planned_events x_items
    [("X_01", ["10.0.0.0/32"]); ("X_02", ["10.0.0.1/32"]);
     ("X_03", ["10.0.0.2/32"])]
  = [EvCreate "X_01" ["10.0.0.0/32"];
     EvBackup "X_02"; EvUpdate (JStr "id-2") "X_02" ["10.0.0.1/32"];
     EvCreate "X_03" ["10.0.0.2/32"]].
Proof. reflexivity. Qed.

Example successful_run :
  run sample_repr sample_cfg (sample_world sample_payload [] []) false
  = ([EvLogin; EvGetDplItems;
      EvCreate "ZSCALER_BYPASS" ["10.0.0.0/8"; "192.0.2.7/32"];
      EvWriteCache ["10.0.0.0/8"; "192.0.2.7/32"];
      EvNotify "Zscaler Sync: Success" true], Ok 0)
  ∧ run sample_repr sample_cfg (sample_world sample_payload [] []) true
    = ([], Ok 0).
Proof. split; vm_compute; reflexivity. Qed.

(** * Further properties of the program *)

(** ** What extraction adds *)

(** [add_cidr] adds to the set a part that does not depend on the set. *)
Lemma add_cidr_union family value mask :
  ∃ added : gset string,
    (added = ∅ ∨ ∃ x, added = {[x]} ∧ yields family value mask x)
    ∧ ∀ cidrs, add_cidr family value mask cidrs = Ok (added ∪ cidrs).
Proof.
  unfold add_cidr, yields, family_admits.
  destruct (PyStr.is_empty (PyStr.strip value)) eqn:Hempty.
  { exists ∅. split; [by left|]. intros cidrs. by rewrite union_empty_l_L. }
  assert (PyStr.strip value ≠ "") as Hne.
  { intros H%is_empty_true. congruence. }
  destruct (add_cidr_try (PyStr.strip value) mask) as [net|e] eqn:Htry.
  2: { exists ∅. split; [by left|]. intros cidrs. by rewrite union_empty_l_L. }
  destruct (String.eqb family "ipv4" && negb (ipaddress.version_int net =? 4))
    eqn:H4.
  { exists ∅. split; [by left|]. intros cidrs. by rewrite union_empty_l_L. }
  destruct (String.eqb family "ipv6" && negb (ipaddress.version_int net =? 6))
    eqn:H6.
  { exists ∅. split; [by left|]. intros cidrs. by rewrite union_empty_l_L. }
  exists {[cidr_text net]}. split; [|done].
  right. exists (cidr_text net). split; [done|]. exists net.
  by rewrite H4, H6.
Qed.

Section Extracted.

Variable py_repr : json → string.

Lemma walk_dict_head_union family d :
  ∃ added : gset string,
    ∀ cidrs, walk_dict_head py_repr family d cidrs = Ok (added ∪ cidrs).
Proof.
  unfold walk_dict_head.
  destruct (Py.dict_has d "ipPrefix").
  { destruct (add_cidr_union family (py_str py_repr (Py.dict_get d "ipPrefix"))
                JNull) as (added & _ & H). by exists added. }
  destruct (Py.dict_has d "prefix").
  { destruct (add_cidr_union family (py_str py_repr (Py.dict_get d "prefix"))
                (mask_of d)) as (added & _ & H). by exists added. }
  exists ∅. intros cidrs. by rewrite union_empty_l_L.
Qed.

Lemma walk_all_union family l :
  Forall (λ v, ∃ added : gset string,
            ∀ cidrs, walk py_repr family v cidrs = Ok (added ∪ cidrs)) l →
  ∃ added : gset string,
    ∀ cidrs, walk_all py_repr family l cidrs = Ok (added ∪ cidrs).
Proof.
  induction 1 as [|v rest (a1 & Hv) _ (a2 & IH)].
  - exists ∅. intros cidrs. by rewrite union_empty_l_L.
  - exists (a2 ∪ a1). intros cidrs. simpl. rewrite Hv. simpl. rewrite IH.
    by rewrite union_assoc_L.
Qed.

(** Walking a value adds to the set a part that depends on the value
    alone. *)
Lemma walk_union family data :
  ∃ added : gset string,
    ∀ cidrs, walk py_repr family data cidrs = Ok (added ∪ cidrs).
Proof.
  induction data as [| | | |s|l IH|d IH] using json_nested_ind;
    try (exists ∅; intros cidrs; by rewrite union_empty_l_L).
  - destruct (PyStr.contains "/" s) eqn:Hs.
    + destruct (add_cidr_union family s JNull) as (added & _ & H).
      exists added. intros cidrs. simpl. by rewrite Hs.
    + exists ∅. intros cidrs. simpl. by rewrite Hs, union_empty_l_L.
  - destruct (walk_all_union family l IH) as (added & H).
    exists added. intros cidrs. by rewrite walk_list.
  - destruct (walk_dict_head_union family d) as (a1 & H1).
    destruct (walk_all_union family d.*2) as (a2 & H2).
    { by apply Forall_fmap. }
    exists (a2 ∪ a1). intros cidrs. rewrite walk_dict, H1. simpl.
    by rewrite H2, union_assoc_L.
Qed.

Lemma walk_extracted family data cidrs :
  walk py_repr family data cidrs = Ok (extracted py_repr family data ∪ cidrs).
Proof.
  destruct (walk_union family data) as (added & H). unfold extracted.
  by rewrite (H ∅), H, union_empty_r_L.
Qed.

Lemma walk_all_extracted family l cidrs :
  walk_all py_repr family l cidrs
  = Ok (⋃ (extracted py_repr family <$> l) ∪ cidrs).
Proof.
  revert cidrs. induction l as [|v rest IH]; intros cidrs; simpl.
  - by rewrite union_empty_l_L.
  - rewrite walk_extracted. simpl. rewrite IH. f_equal.
    rewrite union_assoc_L. f_equal. apply union_comm_L.
Qed.

Lemma extracted_list family l :
  extracted py_repr family (JList l) = ⋃ (extracted py_repr family <$> l).
Proof.
  unfold extracted at 1. by rewrite walk_list, walk_all_extracted, union_empty_r_L.
Qed.

Lemma extracted_dict family d :
  extracted py_repr family (JDict d)
  = ⋃ (extracted py_repr family <$> d.*2)
    ∪ match walk_dict_head py_repr family d ∅ with
      | Ok head => head
      | Raise _ => ∅
      end.
Proof.
  unfold extracted at 1. rewrite walk_dict.
  destruct (walk_dict_head_union family d) as (head & Hhead).
  rewrite (Hhead ∅). simpl. by rewrite walk_all_extracted.
Qed.

Lemma add_cidr_calls_list l :
  add_cidr_calls py_repr (JList l) = l ≫= add_cidr_calls py_repr.
Proof.
  simpl. induction l as [|v rest IH]; [done|]. by rewrite IH.
Qed.

Lemma add_cidr_calls_dict d :
  add_cidr_calls py_repr (JDict d)
  = dict_head_calls py_repr d ++ (d.*2 ≫= add_cidr_calls py_repr).
Proof.
  simpl. f_equal. induction d as [|[k v] rest IH]; [done|]. by rewrite IH.
Qed.

Lemma add_cidr_extracted family value mask x :
  (∃ added : gset string,
     add_cidr family value mask ∅ = Ok added ∧ x ∈ added)
  ↔ yields family value mask x.
Proof.
  destruct (add_cidr_spec family value mask ∅) as (cidrs' & -> & Hiff).
  split.
  - intros (added & [= <-] & Hx). apply Hiff in Hx as [Hx|Hx]; [|done].
    by apply elem_of_empty in Hx.
  - intros Hy. exists cidrs'. split; [done|]. apply Hiff. by right.
Qed.

(** What is extracted from a value: what the calls to [add_cidr] made on
    it yield. *)
Lemma extracted_calls family data x :
  x ∈ extracted py_repr family data
  ↔ ∃ value mask,
      (value, mask) ∈ add_cidr_calls py_repr data ∧ yields family value mask x.
Proof.
  revert x.
  assert (∀ l,
    Forall (λ v, ∀ x, x ∈ extracted py_repr family v
                     ↔ ∃ value mask, (value, mask) ∈ add_cidr_calls py_repr v
                                     ∧ yields family value mask x) l →
    ∀ x, x ∈ ⋃ (extracted py_repr family <$> l)
         ↔ ∃ value mask, (value, mask) ∈ l ≫= add_cidr_calls py_repr
                         ∧ yields family value mask x) as Hall.
  { induction 1 as [|v rest Hv _ IH]; intros x.
    - simpl. split; [by intros ?%elem_of_empty|].
      by intros (? & ? & ?%elem_of_nil & _).
    - rewrite fmap_cons, union_list_cons, elem_of_union, Hv, IH.
      rewrite bind_cons. setoid_rewrite elem_of_app.
      split.
      + intros [(value & mask & ? & ?)|(value & mask & ? & ?)];
          exists value, mask; auto.
      + intros (value & mask & [?|?] & ?); [left|right]; by exists value, mask. }
  assert (∀ value mask x,
    x ∈ match add_cidr family value mask ∅ with
        | Ok head => head
        | Raise _ => ∅
        end ↔ yields family value mask x) as Hadd.
  { intros value mask x. rewrite <- add_cidr_extracted.
    destruct (add_cidr_spec family value mask ∅) as (cidrs' & -> & _).
    split; [intros ?; by exists cidrs'|]. by intros (? & [= <-] & ?). }
  induction data as [| | | |s|l IH|d IH] using json_nested_ind; intros x;
    try (split; [by intros ?%elem_of_empty
                |by intros (? & ? & ?%elem_of_nil & _)]).
  - unfold extracted. simpl. destruct (PyStr.contains "/" s).
    + rewrite Hadd. split.
      * intros Hy. exists s, JNull. split; [apply list_elem_of_here|done].
      * by intros (value & mask & [= -> ->]%list_elem_of_singleton & Hy).
    + split; [by intros ?%elem_of_empty|by intros (? & ? & ?%elem_of_nil & _)].
  - rewrite extracted_list, add_cidr_calls_list. by apply Hall.
  - rewrite extracted_dict, add_cidr_calls_dict, elem_of_union, Hall.
    2: { by apply Forall_fmap. }
    setoid_rewrite elem_of_app.
    assert (x ∈ match walk_dict_head py_repr family d ∅ with
                | Ok head => head
                | Raise _ => ∅
                end
            ↔ ∃ value mask, (value, mask) ∈ dict_head_calls py_repr d
                            ∧ yields family value mask x) as ->.
    { unfold walk_dict_head, dict_head_calls.
      destruct (Py.dict_has d "ipPrefix").
      { rewrite Hadd. split.
        - intros Hy. eexists _, _. split; [apply list_elem_of_here|done].
        - by intros (value & mask & [= -> ->]%list_elem_of_singleton & Hy). }
      destruct (Py.dict_has d "prefix").
      { rewrite Hadd. split.
        - intros Hy. eexists _, _. split; [apply list_elem_of_here|done].
        - by intros (value & mask & [= -> ->]%list_elem_of_singleton & Hy). }
      split; [by intros ?%elem_of_empty|by intros (? & ? & ?%elem_of_nil & _)]. }
    split.
    + intros [(value & mask & ? & ?)|(value & mask & ? & ?)];
        exists value, mask; auto.
    + intros (value & mask & [?|?] & ?); [right|left]; by exists value, mask.
Qed.

Lemma fetch_extracted requests_get url family data :
  url ≠ "" →
  requests_get url = Ok (Ok data) →
  fetch_zscaler_prefixes py_repr requests_get url family
  = Ok (sorted (extracted py_repr family data)).
Proof.
  intros Hurl Hget. unfold fetch_zscaler_prefixes.
  destruct (PyStr.is_empty url) eqn:Hempty.
  { by apply is_empty_true in Hempty. }
  rewrite Hget. simpl. rewrite walk_extracted. simpl.
  by rewrite union_empty_r_L.
Qed.

Lemma fetch_inv requests_get url family lst :
  fetch_zscaler_prefixes py_repr requests_get url family = Ok lst →
  ∃ data, url ≠ "" ∧ requests_get url = Ok (Ok data)
          ∧ lst = sorted (extracted py_repr family data).
Proof.
  unfold fetch_zscaler_prefixes. intros H.
  destruct (PyStr.is_empty url) eqn:Hempty; [done|].
  destruct (requests_get url) as [[data|e]|e] eqn:Hget; try done.
  exists data. split.
  { intros ->. done. }
  split; [done|]. simpl in H. rewrite walk_extracted in H. simpl in H.
  rewrite union_empty_r_L in H. by injection H as <-.
Qed.

End Extracted.

(** ** What [ip_network] returns *)

Lemma land_if_mask x m :
  (if negb (Z.land x m =? x) then Z.land x m else x) = Z.land x m.
Proof.
  destruct (Z.land x m =? x) eqn:Heq; simpl; [|done].
  by apply Z.eqb_eq in Heq.
Qed.

Lemma IPv4Network_inv address net :
  ipaddress.IPv4Network address = Ok net →
  ∃ addr mask ip p,
    ipaddress.split_addr_prefix address = Ok (addr, mask)
    ∧ ipaddress.IPv4Address addr = Ok ip
    ∧ ipaddress.v4_make_netmask mask = Ok p
    ∧ net = ipaddress.mk_network ipaddress.IPv4
              (Z.land ip (ipaddress.ip_int_from_prefix ipaddress.IPv4 p)) None p.
Proof.
  unfold ipaddress.IPv4Network.
  destruct (ipaddress.split_addr_prefix address) as [[addr mask]|]; [|done].
  cbn [mbind res_bind].
  destruct (ipaddress.IPv4Address addr) as [ip|] eqn:Hip; [|done].
  cbn [mbind res_bind].
  destruct (ipaddress.v4_make_netmask mask) as [p|] eqn:Hp; [|done].
  cbn [mbind res_bind]. intros [= <-]. exists addr, mask, ip, p.
  by rewrite land_if_mask.
Qed.

Lemma IPv6Network_inv address net :
  ipaddress.IPv6Network address = Ok net →
  ∃ addr mask ip scope p,
    ipaddress.split_addr_prefix address = Ok (addr, mask)
    ∧ ipaddress.IPv6Address addr = Ok (ip, scope)
    ∧ ipaddress.v6_make_netmask mask = Ok p
    ∧ ipaddress.version net = ipaddress.IPv6
    ∧ ipaddress.prefixlen net = p
    ∧ ipaddress.network_address net
      = Z.land ip (ipaddress.ip_int_from_prefix ipaddress.IPv6 p).
Proof.
  unfold ipaddress.IPv6Network.
  destruct (ipaddress.split_addr_prefix address) as [[addr mask]|]; [|done].
  cbn [mbind res_bind].
  destruct (ipaddress.IPv6Address addr) as [[ip scope]|] eqn:Hip; [|done].
  cbn [mbind res_bind].
  destruct (ipaddress.v6_make_netmask mask) as [p|] eqn:Hp; [|done].
  cbn [mbind res_bind]. intros [= <-]. exists addr, mask, ip, scope, p.
  destruct (Z.land ip _ =? ip) eqn:Heq; simpl; [|done].
  by apply Z.eqb_eq in Heq.
Qed.

Lemma ip_network_inv address net :
  ipaddress.ip_network address = Ok net →
  ipaddress.IPv4Network address = Ok net
  ∨ ((ipaddress.IPv4Network address = Raise AddressValueError
      ∨ ipaddress.IPv4Network address = Raise NetmaskValueError)
     ∧ ipaddress.IPv6Network address = Ok net).
Proof.
  unfold ipaddress.ip_network.
  destruct (ipaddress.IPv4Network address) as [net4|e4].
  { intros [= <-]. by left. }
  destruct e4; try done;
    (destruct (ipaddress.IPv6Network address) as [net6|e6];
     [intros [= <-]; right; auto|by destruct e6]).
Qed.

Lemma prefix_from_prefix_string_range v s p :
  ipaddress.prefix_from_prefix_string v s = Ok p →
  0 ≤ p ≤ ipaddress.max_prefixlen v.
Proof.
  unfold ipaddress.prefix_from_prefix_string.
  destruct (negb (PyStr.isascii_isdigit s)); [done|].
  destruct (_ <? _); [done|].
  destruct ((0 <=? PyStr.int10 s) && _) eqn:Hr; [|done].
  intros [= <-]. apply andb_true_iff in Hr as [?%Z.leb_le ?%Z.leb_le]. lia.
Qed.

Lemma prefix_from_ip_int_range v ip p :
  ipaddress.prefix_from_ip_int v ip = Ok p →
  0 ≤ p ≤ ipaddress.max_prefixlen v.
Proof.
  unfold ipaddress.prefix_from_ip_int.
  destruct (negb _); [done|]. intros [= <-].
  assert (0 ≤ ipaddress.max_prefixlen v) by (destruct v; simpl; lia).
  unfold ipaddress.count_righthand_zero_bits.
  destruct (ip =? 0); [lia|].
  assert (0 ≤ ipaddress.bit_length (Z.land (Z.lnot ip) (ip - 1))).
  { unfold ipaddress.bit_length. destruct (_ =? 0); [lia|].
    pose proof (Z.log2_nonneg (Z.abs (Z.land (Z.lnot ip) (ip - 1)))). lia. }
  lia.
Qed.

Lemma v4_make_netmask_range arg p :
  ipaddress.v4_make_netmask arg = Ok p → 0 ≤ p ≤ 32.
Proof.
  destruct arg as [s|]; simpl.
  2: { intros [= <-]. simpl. lia. }
  destruct (ipaddress.prefix_from_prefix_string ipaddress.IPv4 s)
    as [p'|e] eqn:Hs.
  { intros [= <-]. by apply prefix_from_prefix_string_range in Hs. }
  destruct e; try done. unfold ipaddress.v4_prefix_from_ip_string.
  destruct (ipaddress.v4_ip_int_from_string s) as [ip|e]; [|by destruct e].
  destruct (ipaddress.prefix_from_ip_int ipaddress.IPv4 ip) as [p1|e] eqn:H1.
  { intros [= <-]. by apply prefix_from_ip_int_range in H1. }
  destruct e; try done.
  destruct (ipaddress.prefix_from_ip_int ipaddress.IPv4 (Z.lxor ip _))
    as [p2|e] eqn:H2.
  { intros [= <-]. by apply prefix_from_ip_int_range in H2. }
  by destruct e.
Qed.

Lemma v6_make_netmask_range arg p :
  ipaddress.v6_make_netmask arg = Ok p → 0 ≤ p ≤ 128.
Proof.
  destruct arg as [s|]; simpl.
  - apply prefix_from_prefix_string_range.
  - intros [= <-]. simpl. lia.
Qed.

Lemma ip_network_canonical address net :
  ipaddress.ip_network address = Ok net → canonical_network net.
Proof.
  intros H. split; [|by apply ip_network_host_bits_zero in H].
  apply ip_network_inv in H as [H|[_ H]].
  - apply IPv4Network_inv in H as (addr & mask & ip & p & _ & _ & Hp & ->).
    simpl. by apply v4_make_netmask_range in Hp.
  - apply IPv6Network_inv in H
      as (addr & mask & ip & scope & p & _ & _ & Hp & -> & -> & _).
    simpl. by apply v6_make_netmask_range in Hp.
Qed.

Lemma add_cidr_try_network value mask net :
  add_cidr_try value mask = Ok net →
  ∃ address, ipaddress.ip_network address = Ok net.
Proof.
  unfold add_cidr_try.
  destruct (PyStr.contains "/" value); [by exists value|].
  destruct (Py.is_not_None mask); [|by eexists].
  destruct (Py.int mask) as [m|]; [|done]. cbn [mbind res_bind]. by eexists.
Qed.

Lemma family_admits_cases family net :
  family_admits family net
  = if String.eqb family "ipv4" then ipaddress.version_int net =? 4
    else if String.eqb family "ipv6" then ipaddress.version_int net =? 6
    else true.
Proof.
  unfold family_admits.
  destruct (String.eqb family "ipv4") eqn:H4.
  - apply String.eqb_eq in H4 as ->. simpl.
    by destruct (ipaddress.version_int net =? 4).
  - destruct (String.eqb family "ipv6"); simpl; [|done].
    by destruct (ipaddress.version_int net =? 6).
Qed.

(** ** The extraction as a whole *)

(** X1: walking a value adds to the set of prefixes a part that depends
    on the value alone; what a list gives is the union of what its
    elements give, so neither the order of the entries of a feed nor
    their repetition changes the list that is fetched. *)
Theorem extraction_is_a_union (py_repr : json → string) (family : string) :
  (∀ data cidrs,
     walk py_repr family data cidrs
     = Ok (extracted py_repr family data ∪ cidrs))
  ∧ (∀ l, extracted py_repr family (JList l)
          = ⋃ (extracted py_repr family <$> l))
  ∧ (∀ l1 l2, (∀ v, v ∈ l1 ↔ v ∈ l2) →
       extracted py_repr family (JList l1)
       = extracted py_repr family (JList l2))
  ∧ (∀ requests_get url data,
       url ≠ "" → requests_get url = Ok (Ok data) →
       fetch_zscaler_prefixes py_repr requests_get url family
       = Ok (sorted (extracted py_repr family data))).
Proof.
  split; [apply walk_extracted|]. split; [apply extracted_list|].
  split; [|intros; by apply fetch_extracted].
  intros l1 l2 Hsame. rewrite !extracted_list. apply set_eq. intros x.
  rewrite !elem_of_union_list. split.
  - intros (X & (v & -> & Hv)%list_elem_of_fmap & Hx).
    exists (extracted py_repr family v). split; [|done].
    apply list_elem_of_fmap. exists v. split; [done|]. by apply Hsame.
  - intros (X & (v & -> & Hv)%list_elem_of_fmap & Hx).
    exists (extracted py_repr family v). split; [|done].
    apply list_elem_of_fmap. exists v. split; [done|]. by apply Hsame.
Qed.

(** X2: every entry of the fetched list is the text of a network that
    [ip_network] returned for some address text: its prefix length is in
    the range of its family, its host bits are at zero, and its family
    is one the filter admits.  The list is in ascending order of its
    texts and has no repetition. *)
Theorem fetched_entries_are_networks (py_repr : json → string)
    (requests_get : string → res (res json)) (url family : string)
    (lst : list string) :
  fetch_zscaler_prefixes py_repr requests_get url family = Ok lst →
  (∀ x, x ∈ lst →
     ∃ net address,
       ipaddress.ip_network address = Ok net
       ∧ x = cidr_text net
       ∧ canonical_network net
       ∧ family_admits family net = true)
  ∧ StronglySorted String.le lst
  ∧ NoDup lst.
Proof.
  intros (data & _ & _ & ->)%fetch_inv. split.
  - intros x Hx%sorted_elem_of.
    apply extracted_calls in Hx as (value & mask & _ & net & _ & Htry & Hadm & ->).
    destruct (add_cidr_try_network _ _ _ Htry) as (address & Hnet).
    exists net, address. split; [done|]. split; [done|].
    split; [by apply ip_network_canonical in Hnet|done].
  - split; [apply sorted_StronglySorted|apply sorted_NoDup].
Qed.

Lemma extraction_is_a_union_witness :
  (∀ v, v ∈ [JStr "10.0.0.0/8"; JStr "192.0.2.0/24"]
        ↔ v ∈ [JStr "192.0.2.0/24"; JStr "10.0.0.0/8"; JStr "192.0.2.0/24"])
  ∧ extracted sample_repr "ipv4"
      (JList [JStr "10.0.0.0/8"; JStr "192.0.2.0/24"])
    = extracted sample_repr "ipv4"
        (JList [JStr "192.0.2.0/24"; JStr "10.0.0.0/8"; JStr "192.0.2.0/24"]).
Proof.
  assert (∀ v, v ∈ [JStr "10.0.0.0/8"; JStr "192.0.2.0/24"]
               ↔ v ∈ [JStr "192.0.2.0/24"; JStr "10.0.0.0/8";
                      JStr "192.0.2.0/24"]) as Hsame.
  { intros v. rewrite !elem_of_cons, elem_of_nil. tauto. }
  split; [exact Hsame|].
  exact (proj1 (proj2 (proj2 (extraction_is_a_union sample_repr "ipv4")))
           _ _ Hsame).
Defined.

Lemma fetched_entries_are_networks_witness :
  sample_fetch "ipv4" (JList [JStr "10.1.2.3/8"]) = Ok ["10.0.0.0/8"]
  ∧ ∃ net address,
      ipaddress.ip_network address = Ok net
      ∧ "10.0.0.0/8" = cidr_text net
      ∧ canonical_network net
      ∧ family_admits "ipv4" net = true.
Proof.
  assert (sample_fetch "ipv4" (JList [JStr "10.1.2.3/8"]) = Ok ["10.0.0.0/8"])
    as Hfetch by (vm_compute; reflexivity).
  split; [exact Hfetch|].
  exact (proj1 (fetched_entries_are_networks sample_repr _ _ "ipv4" _ Hfetch)
           "10.0.0.0/8" (list_elem_of_here _ _)).
Defined.

(** X3: the family filter.  With "ipv4" the entries are those of the
    IPv4 networks that the values of the feed parse to, with "ipv6"
    those of the IPv6 networks; any other family text, "both" or not,
    filters nothing and is never refused; and what "both" gives is what
    "ipv4" and "ipv6" give, put together. *)
Theorem family_filter (py_repr : json → string) (data : json) :
  (∀ x, x ∈ extracted py_repr "ipv4" data
        ↔ ∃ net, parses py_repr data net
                 ∧ ipaddress.version net = ipaddress.IPv4
                 ∧ x = cidr_text net)
  ∧ (∀ x, x ∈ extracted py_repr "ipv6" data
          ↔ ∃ net, parses py_repr data net
                   ∧ ipaddress.version net = ipaddress.IPv6
                   ∧ x = cidr_text net)
  ∧ (∀ family, family ≠ "ipv4" → family ≠ "ipv6" →
       ∀ x, x ∈ extracted py_repr family data
            ↔ ∃ net, parses py_repr data net ∧ x = cidr_text net)
  ∧ extracted py_repr "both" data
    = extracted py_repr "ipv4" data ∪ extracted py_repr "ipv6" data.
Proof.
  assert (∀ family x,
    x ∈ extracted py_repr family data
    ↔ ∃ net, parses py_repr data net ∧ family_admits family net = true
             ∧ x = cidr_text net) as Hchar.
  { intros family x. rewrite extracted_calls. unfold parses, yields. split.
    - intros (value & mask & Hin & net & Hne & Htry & Hadm & ->).
      exists net. split; [by exists value, mask|done].
    - intros (net & (value & mask & Hin & Hne & Htry) & Hadm & ->).
      exists value, mask. split; [done|]. by exists net. }
  assert (∀ net, (ipaddress.version_int net =? 4) = true
                 ↔ ipaddress.version net = ipaddress.IPv4) as H4.
  { intros net. unfold ipaddress.version_int.
    by destruct (ipaddress.version net). }
  assert (∀ net, (ipaddress.version_int net =? 6) = true
                 ↔ ipaddress.version net = ipaddress.IPv6) as H6.
  { intros net. unfold ipaddress.version_int.
    by destruct (ipaddress.version net). }
  assert (∀ family, family ≠ "ipv4" → family ≠ "ipv6" →
            ∀ x, x ∈ extracted py_repr family data
                 ↔ ∃ net, parses py_repr data net ∧ x = cidr_text net) as Hany.
  { intros family Hn4%String.eqb_neq Hn6%String.eqb_neq x. rewrite Hchar.
    setoid_rewrite family_admits_cases. rewrite Hn4, Hn6.
    split; [intros (net & ? & _ & ?)|intros (net & ? & ?)]; exists net; auto. }
  split; [|split; [|split; [done|]]].
  - intros x. rewrite Hchar. setoid_rewrite family_admits_cases. simpl.
    by setoid_rewrite H4.
  - intros x. rewrite Hchar. setoid_rewrite family_admits_cases. simpl.
    by setoid_rewrite H6.
  - apply set_eq. intros x. rewrite elem_of_union, (Hany "both"), !Hchar by done.
    setoid_rewrite family_admits_cases. simpl.
    setoid_rewrite H4. setoid_rewrite H6. split.
    + intros (net & Hp & ->). destruct (ipaddress.version net) eqn:Hv;
        [left|right]; by exists net.
    + intros [(net & ? & _ & ->)|(net & ? & _ & ->)]; by exists net.
Qed.

(** ** Strings *)

Lemma all_chars_impl (p q : ascii → bool) s :
  (∀ c, p c = true → q c = true) →
  PyStr.all_chars p s = true → PyStr.all_chars q s = true.
Proof.
  intros Hpq. induction s as [|c s IH]; [done|]. simpl.
  intros [Hc Hs]%andb_true_iff. by rewrite (Hpq c Hc), IH.
Qed.

Lemma all_chars_contains (p : ascii → bool) c s :
  p c = false → PyStr.all_chars p s = true → PyStr.contains c s = false.
Proof.
  intros Hc. induction s as [|d s IH]; [done|]. simpl.
  intros [Hd Hs]%andb_true_iff. rewrite IH by done.
  destruct (Ascii.eqb d c) eqn:Heq; [|done].
  apply Ascii.eqb_eq in Heq as ->. congruence.
Qed.

Lemma contains_app c s t :
  PyStr.contains c (s +:+ t) = PyStr.contains c s || PyStr.contains c t.
Proof.
  induction s as [|d s IH]; [done|].
  rewrite string_app_cons. simpl. by rewrite IH, orb_assoc.
Qed.

Lemma rev_app_rev_app s t u :
  String.rev_app (String.rev_app s t) u = String.rev_app t (s +:+ u).
Proof.
  revert t u. induction s as [|a s IH]; intros t u; [done|].
  simpl. by rewrite IH.
Qed.

Lemma rev_involutive s : String.rev (String.rev s) = s.
Proof.
  unfold String.rev. rewrite rev_app_rev_app. simpl.
  induction s as [|a s IH]; [done|]. by rewrite string_app_cons, IH.
Qed.

Lemma all_chars_rev_app p s t :
  PyStr.all_chars p (String.rev_app s t)
  = PyStr.all_chars p s && PyStr.all_chars p t.
Proof.
  revert t. induction s as [|a s IH]; intros t; [done|].
  simpl. rewrite IH. simpl. by destruct (p a), (PyStr.all_chars p s).
Qed.

Lemma lstrip_no_space s :
  PyStr.all_chars (λ c, negb (PyStr.isspace c)) s = true → PyStr.lstrip s = s.
Proof.
  destruct s as [|c s]; [done|]. simpl.
  intros [Hc _]%andb_true_iff. by destruct (PyStr.isspace c).
Qed.

(** A text without white space is left as it is by [strip]. *)
Lemma strip_no_space s :
  PyStr.all_chars (λ c, negb (PyStr.isspace c)) s = true → PyStr.strip s = s.
Proof.
  intros Hs. unfold PyStr.strip, PyStr.rstrip.
  rewrite (lstrip_no_space s Hs), lstrip_no_space.
  - apply rev_involutive.
  - unfold String.rev. by rewrite all_chars_rev_app, Hs.
Qed.

Lemma is_digit_no_space c :
  PyStr.is_digit c = true → negb (PyStr.isspace c) = true.
Proof.
  unfold PyStr.is_digit, PyStr.isspace.
  intros [?%Z.leb_le ?%Z.leb_le]%andb_true_iff.
  apply negb_true_iff. repeat (apply orb_false_iff; split);
    try apply andb_false_iff; try (apply Z.eqb_neq; lia);
    try (left; apply Z.leb_gt; lia); try (right; apply Z.leb_gt; lia).
Qed.

Lemma is_empty_app s t :
  PyStr.is_empty s = false → PyStr.is_empty (s +:+ t) = false.
Proof. by destruct s. Qed.

(** ** The text of an IPv4 network, read again *)

Lemma octet_text n :
  0 ≤ n ≤ 255 →
  ipaddress.parse_octet (PyStr.str_of_int n) = Ok n.
Proof.
  intros Hn.
  assert (forallb (λ n, match ipaddress.parse_octet (PyStr.str_of_int n) with
                        | Ok m => m =? n
                        | Raise _ => false
                        end) (seqZ 0 256) = true) as Hall
    by (vm_compute; reflexivity).
  rewrite forallb_forall in Hall. specialize (Hall n).
  destruct (ipaddress.parse_octet (PyStr.str_of_int n)) as [m|e].
  - f_equal. apply Z.eqb_eq, Hall, list_elem_of_In, elem_of_seqZ. lia.
  - discriminate Hall. apply list_elem_of_In, elem_of_seqZ. lia.
Qed.

Lemma prefix_text v p :
  0 ≤ p ≤ ipaddress.max_prefixlen v →
  ipaddress.prefix_from_prefix_string v (PyStr.str_of_int p) = Ok p.
Proof.
  intros Hp.
  assert (forallb (λ p, match ipaddress.prefix_from_prefix_string
                                ipaddress.IPv6 (PyStr.str_of_int p) with
                        | Ok m => m =? p
                        | Raise _ => false
                        end) (seqZ 0 129) = true) as Hall
    by (vm_compute; reflexivity).
  rewrite forallb_forall in Hall. specialize (Hall p).
  assert (ipaddress.max_prefixlen v ≤ 128) by (destruct v; simpl; lia).
  assert (ipaddress.prefix_from_prefix_string ipaddress.IPv6
            (PyStr.str_of_int p) = Ok p) as H6.
  { destruct (ipaddress.prefix_from_prefix_string _ _) as [m|e].
    - f_equal. apply Z.eqb_eq, Hall, list_elem_of_In, elem_of_seqZ. lia.
    - discriminate Hall. apply list_elem_of_In, elem_of_seqZ. lia. }
  revert H6. unfold ipaddress.prefix_from_prefix_string.
  destruct (negb _); [done|]. destruct (_ <? _); [done|].
  destruct ((0 <=? _) && (_ <=? ipaddress.max_prefixlen ipaddress.IPv6));
    [|done].
  intros [= ->]. simpl.
  destruct (0 <=? p) eqn:H0; [|apply Z.leb_gt in H0; lia].
  destruct (p <=? ipaddress.max_prefixlen v) eqn:H1;
    [done|apply Z.leb_gt in H1; lia].
Qed.

Lemma str_of_int_digits n :
  0 ≤ n → PyStr.all_chars PyStr.is_digit (PyStr.str_of_int n) = true.
Proof. intros Hn. by apply str_of_int_decimal. Qed.

Lemma str_of_int_not_empty n : PyStr.is_empty (PyStr.str_of_int n) = false.
Proof.
  unfold PyStr.str_of_int, PyStr.digits. destruct (n <? 0); [done|].
  cbn [PyStr.digits_go]. destruct (_ =? 0); [done|].
  rewrite digits_go_acc. by destruct (PyStr.digits_go _ _ _ _).
Qed.

Lemma ip_octets ip :
  0 ≤ ip < 2 ^ 32 →
  ipaddress.from_bytes_big
    (map (λ k, Z.land (Z.shiftr ip (8 * k)) 255) [3; 2; 1; 0]) = ip.
Proof.
  intros Hip. unfold ipaddress.from_bytes_big. simpl.
  change 255 with (Z.ones 8). rewrite !Z.land_ones, !Z.shiftr_div_pow2 by lia.
  change (2 ^ 24) with 16777216. change (2 ^ 16) with 65536.
  change (2 ^ 8) with 256. change (2 ^ 0) with 1.
  change (2 ^ 32) with 4294967296 in Hip.
  Z.to_euclidean_division_equations. lia.
Qed.

Lemma octet_range ip k : 0 ≤ Z.land (Z.shiftr ip (8 * k)) 255 ≤ 255.
Proof.
  change (Z.land (Z.shiftr ip (8 * k)) 255)
    with (Z.land (Z.shiftr ip (8 * k)) (Z.ones 8)).
  rewrite Z.land_ones by lia. change (2 ^ 8) with 256.
  pose proof (Z.mod_pos_bound (Z.shiftr ip (8 * k)) 256). lia.
Qed.

Lemma dotted_quad_parse a b c d na nb nc nd :
  PyStr.all_chars PyStr.is_digit a = true →
  PyStr.all_chars PyStr.is_digit b = true →
  PyStr.all_chars PyStr.is_digit c = true →
  PyStr.all_chars PyStr.is_digit d = true →
  ipaddress.parse_octet a = Ok na →
  ipaddress.parse_octet b = Ok nb →
  ipaddress.parse_octet c = Ok nc →
  ipaddress.parse_octet d = Ok nd →
  ipaddress.IPv4Address
    (a +:+ String "." (b +:+ String "." (c +:+ String "." d)))
  = Ok (ipaddress.from_bytes_big [na; nb; nc; nd])
  ∧ PyStr.all_chars (λ c, negb (PyStr.isspace c))
      (a +:+ String "." (b +:+ String "." (c +:+ String "." d))) = true.
Proof.
  intros Ha Hb Hc Hd Hna Hnb Hnc Hnd.
  assert (∀ s ch, PyStr.all_chars PyStr.is_digit s = true →
                  PyStr.is_digit ch = false → PyStr.contains ch s = false)
    as Hno.
  { intros s ch Hs Hch. by apply (all_chars_contains PyStr.is_digit). }
  assert (∀ s, PyStr.all_chars PyStr.is_digit s = true →
               PyStr.all_chars (λ c, negb (PyStr.isspace c)) s = true)
    as Hsp.
  { intros s. apply all_chars_impl, is_digit_no_space. }
  split.
  - unfold ipaddress.IPv4Address.
    assert (PyStr.contains "/"
              (a +:+ String "." (b +:+ String "." (c +:+ String "." d)))
            = false) as ->.
    { rewrite contains_app, (Hno a) by done. cbn [PyStr.contains orb Ascii.eqb].
      rewrite contains_app, (Hno b) by done. cbn [PyStr.contains orb Ascii.eqb].
      rewrite contains_app, (Hno c) by done. cbn [PyStr.contains orb Ascii.eqb].
      by rewrite (Hno d). }
    unfold ipaddress.v4_ip_int_from_string.
    rewrite is_empty_app.
    2: { destruct a; [|done]. by vm_compute in Hna. }
    rewrite !split_app_sep, split_no_sep by by apply Hno.
    cbn [length Nat.eqb negb res_mapM].
    rewrite Hna, Hnb, Hnc, Hnd. done.
  - rewrite all_chars_app, (Hsp a) by done. cbn [PyStr.all_chars andb].
    rewrite all_chars_app, (Hsp b) by done. cbn [PyStr.all_chars andb].
    rewrite all_chars_app, (Hsp c) by done. cbn [PyStr.all_chars andb].
    rewrite (Hsp d) by done. done.
Qed.

(** [IPv4Address(str(IPv4Address(ip)))] is [ip] again. *)
Lemma IPv4Address_text ip :
  0 ≤ ip < 2 ^ 32 →
  ipaddress.IPv4Address (ipaddress.v4_string_from_ip_int ip) = Ok ip
  ∧ PyStr.all_chars (λ c, negb (PyStr.isspace c))
      (ipaddress.v4_string_from_ip_int ip) = true.
Proof.
  intros Hip. rewrite <- (ip_octets ip Hip) at 2.
  apply dotted_quad_parse;
    try (apply str_of_int_digits, octet_range);
    apply octet_text, octet_range.
Qed.

Lemma land_mask_range ip m :
  0 ≤ ip < 2 ^ 32 → 0 ≤ Z.land ip m < 2 ^ 32.
Proof.
  intros Hip.
  assert (Z.land ip m = Z.land ip m `mod` 2 ^ 32) as ->.
  { rewrite <- Z.land_ones by lia.
    rewrite <- Z.land_assoc, (Z.land_comm m), Z.land_assoc.
    rewrite (Z.land_ones ip) by lia. by rewrite Z.mod_small. }
  apply Z.mod_pos_bound. lia.
Qed.

(** The IPv4 networks that [ip_network] returns. *)
Lemma ip_network_v4_inv address net :
  ipaddress.ip_network address = Ok net →
  ipaddress.version net = ipaddress.IPv4 →
  ∃ ip p,
    0 ≤ ip < 2 ^ 32 ∧ 0 ≤ p ≤ 32
    ∧ Z.land ip (ipaddress.ip_int_from_prefix ipaddress.IPv4 p) = ip
    ∧ net = ipaddress.mk_network ipaddress.IPv4 ip None p.
Proof.
  intros H Hv. apply ip_network_inv in H as [H|[_ H]].
  - apply IPv4Network_inv in H as (addr & mask & ip & p & _ & Hip & Hp & ->).
    apply IPv4Address_range in Hip as (Hip & _).
    exists (Z.land ip (ipaddress.ip_int_from_prefix ipaddress.IPv4 p)), p.
    split; [by apply land_mask_range|].
    split; [by apply v4_make_netmask_range in Hp|].
    split; [|done]. by rewrite <- Z.land_assoc, Z.land_diag.
  - apply IPv6Network_inv in H as (? & ? & ? & ? & ? & _ & _ & _ & Hv6 & _).
    congruence.
Qed.

(** The text of an IPv4 network is read by [ip_network] as that
    network. *)
Lemma ipv4_network_text ip p :
  0 ≤ ip < 2 ^ 32 → 0 ≤ p ≤ 32 →
  Z.land ip (ipaddress.ip_int_from_prefix ipaddress.IPv4 p) = ip →
  let net := ipaddress.mk_network ipaddress.IPv4 ip None p in
  ipaddress.ip_network (cidr_text net) = Ok net
  ∧ PyStr.strip (cidr_text net) = cidr_text net
  ∧ PyStr.contains "/" (cidr_text net) = true
  ∧ PyStr.is_empty (cidr_text net) = false.
Proof.
  intros Hip Hp Hhost net.
  destruct (IPv4Address_text ip Hip) as [Haddr Hsp].
  assert (cidr_text net
          = ipaddress.v4_string_from_ip_int ip +:+ "/" +:+ PyStr.str_of_int p)
    as Htext by done.
  assert (PyStr.all_chars PyStr.is_digit (PyStr.str_of_int p) = true) as Hdig.
  { apply str_of_int_digits. lia. }
  split; [|split; [|split]].
  - rewrite Htext.
    rewrite (ip_network_v4 _ _ ip p); [by rewrite Hhost| |done|].
    + by apply (all_chars_contains PyStr.is_digit).
    + simpl. by rewrite prefix_text.
  - apply strip_no_space. rewrite Htext, !all_chars_app, Hsp.
    rewrite (all_chars_impl _ _ _ is_digit_no_space Hdig).
    reflexivity.
  - rewrite Htext, !contains_app.
    change (PyStr.contains "/" "/") with true.
    by rewrite orb_true_l, orb_true_r.
  - rewrite Htext. apply is_empty_app.
    destruct (ipaddress.v4_string_from_ip_int ip); [|done].
    by vm_compute in Haddr.
Qed.

(** [add_cidr] on the text of an IPv4 network that [ip_network]
    returned adds that text. *)
Lemma add_cidr_ipv4_text family address net cidrs :
  ipaddress.ip_network address = Ok net →
  ipaddress.version net = ipaddress.IPv4 →
  family ≠ "ipv6" →
  add_cidr family (cidr_text net) JNull cidrs = Ok ({[ cidr_text net ]} ∪ cidrs).
Proof.
  intros Hnet Hv Hfamily.
  destruct (ip_network_v4_inv _ _ Hnet Hv) as (ip & p & Hip & Hp & Hhost & ->).
  destruct (ipv4_network_text ip p Hip Hp Hhost) as (Hparse & Hstrip & Hslash & Hne).
  unfold add_cidr. rewrite Hstrip, Hne. unfold add_cidr_try.
  rewrite Hslash, Hparse.
  apply String.eqb_neq in Hfamily. rewrite Hfamily. simpl.
  by rewrite andb_false_r.
Qed.

Section Reread.

Variable py_repr : json → string.

Lemma extracted_text family x :
  (∀ cidrs, add_cidr family x JNull cidrs = Ok ({[ x ]} ∪ cidrs)) →
  PyStr.contains "/" x = true →
  extracted py_repr family (JStr x) = {[ x ]}
  ∧ extracted py_repr family (ip_prefix_entry x) = {[ x ]}.
Proof.
  intros Hadd Hslash. unfold extracted, ip_prefix_entry. split.
  - simpl. rewrite Hslash, Hadd. by rewrite union_empty_r_L.
  - rewrite walk_dict. unfold walk_dict_head. simpl.
    rewrite Hadd. simpl. rewrite Hslash, Hadd. simpl.
    by rewrite union_empty_r_L, union_idemp_L.
Qed.

Lemma extracted_texts family (f : string → json) lst :
  (∀ x, x ∈ lst → extracted py_repr family (f x) = {[ x ]}) →
  ⋃ (extracted py_repr family <$> (f <$> lst)) = list_to_set lst.
Proof.
  induction lst as [|x lst IH]; intros Hall; [done|].
  simpl. rewrite Hall by apply list_elem_of_here. f_equal.
  apply IH. intros y Hy. by apply Hall, list_elem_of_further.
Qed.

Lemma sorted_list_to_set (s : gset string) : list_to_set (sorted s) = s.
Proof.
  apply set_eq. intros x. by rewrite elem_of_list_to_set, sorted_elem_of.
Qed.

Lemma extracted_dpl_payload family name lst :
  PyStr.contains "/" name = false →
  extracted py_repr family (dpl_payload name lst)
  = extracted py_repr family (JList (ip_prefix_entry <$> lst)).
Proof.
  intros Hname. unfold dpl_payload. rewrite extracted_dict.
  unfold walk_dict_head. simpl.
  unfold extracted at 1 2. simpl. rewrite Hname.
  by rewrite !union_empty_l_L, !union_empty_r_L.
Qed.

End Reread.

(** ** Masks *)

Lemma split_contains sep c s :
  c ≠ sep →
  PyStr.contains c s = true →
  Exists (λ p, PyStr.contains c p = true) (PyStr.split sep s).
Proof.
  intros Hc. induction s as [|d s IH]; [done|]. simpl.
  destruct (Ascii.eqb d sep) eqn:Hd.
  - apply Ascii.eqb_eq in Hd as ->.
    destruct (Ascii.eqb sep c) eqn:Heq.
    { apply Ascii.eqb_eq in Heq. congruence. }
    simpl. intros H. apply Exists_cons_tl. by apply IH.
  - intros [Hdc|Hs]%orb_true_iff.
    + destruct (PyStr.split sep s); apply Exists_cons_hd; simpl;
        by rewrite Hdc.
    + specialize (IH Hs). destruct (PyStr.split sep s) as [|p ps].
      { by apply Exists_nil in IH. }
      apply Exists_cons in IH as [Hp|Hps].
      * apply Exists_cons_hd. simpl. by rewrite Hp, orb_true_r.
      * by apply Exists_cons_tl.
Qed.

Lemma parse_octet_digits s n :
  ipaddress.parse_octet s = Ok n → PyStr.all_chars PyStr.is_digit s = true.
Proof.
  unfold ipaddress.parse_octet.
  destruct (PyStr.is_empty s); [done|].
  destruct (PyStr.isascii_isdigit s) eqn:Hdig; [|done].
  by apply andb_true_iff in Hdig as [_ Hdig].
Qed.

(** A text that parses as an IPv4 address is made of digits and dots. *)
Lemma IPv4Address_chars s ip c :
  ipaddress.IPv4Address s = Ok ip →
  PyStr.is_digit c = false → c ≠ "."%char →
  PyStr.contains c s = false.
Proof.
  unfold ipaddress.IPv4Address, ipaddress.v4_ip_int_from_string.
  destruct (PyStr.contains "/" s); [done|].
  destruct (PyStr.is_empty s); [done|].
  intros H Hc Hdot.
  destruct (PyStr.contains c s) eqn:Hcs; [|done].
  apply (split_contains "." c s Hdot) in Hcs.
  destruct (PyStr.split "." s) as [|o1 [|o2 [|o3 [|o4 [|]]]]]; try done.
  simpl in H.
  destruct (ipaddress.parse_octet o1) as [n1|[]] eqn:H1; try done. simpl in H.
  destruct (ipaddress.parse_octet o2) as [n2|[]] eqn:H2; try done. simpl in H.
  destruct (ipaddress.parse_octet o3) as [n3|[]] eqn:H3; try done. simpl in H.
  destruct (ipaddress.parse_octet o4) as [n4|[]] eqn:H4; try done.
  apply parse_octet_digits in H1, H2, H3, H4.
  rewrite !Exists_cons, Exists_nil in Hcs.
  rewrite !(all_chars_contains PyStr.is_digit c) in Hcs by done.
  by destruct Hcs as [?|[?|[?|[?|?]]]].
Qed.

Lemma partition_no_sep sep s :
  PyStr.contains sep s = false → PyStr.partition sep s = (s, None).
Proof.
  induction s as [|c s IH]; [done|]. simpl.
  destruct (Ascii.eqb c sep); [done|]. simpl. intros Hs. by rewrite IH.
Qed.

(** The text of an integer: no dot, slash, colon or percent sign. *)
Lemma str_of_int_chars n c :
  PyStr.is_digit c = false → c ≠ "-"%char →
  PyStr.contains c (PyStr.str_of_int n) = false.
Proof.
  intros Hc Hminus. unfold PyStr.str_of_int.
  destruct (n <? 0) eqn:Hn.
  - destruct (Ascii.eqb "-" c) eqn:Heq.
    { apply Ascii.eqb_eq in Heq. congruence. }
    cbn [PyStr.contains]. rewrite Heq, orb_false_l. apply Z.ltb_lt in Hn.
    pose proof (str_of_int_digits (- n) ltac:(lia)) as Hdig.
    unfold PyStr.str_of_int in Hdig.
    destruct (- n <? 0) eqn:Hn'; [apply Z.ltb_lt in Hn'; lia|].
    by apply (all_chars_contains PyStr.is_digit).
  - apply Z.ltb_ge in Hn. pose proof (str_of_int_digits n Hn) as Hdig.
    unfold PyStr.str_of_int in Hdig. rewrite (proj2 (Z.ltb_ge n 0) Hn) in Hdig.
    by apply (all_chars_contains PyStr.is_digit).
Qed.





(** ** The shape of a run *)

Lemma connect_ok w tr tr' existing_items :
  connect w tr = (tr', Ok existing_items) →
  tr' = tr ++ [EvLogin; EvGetDplItems]
  ∧ vm_login w tr = Ok ()
  ∧ vm_get_dpl_items w (tr ++ [EvLogin]) = Ok existing_items.
Proof.
  unfold connect, mbind, M_bind, call.
  destruct (vm_login w tr) as [[]|e]; [|done].
  intros [= <- ->]. by rewrite <- app_assoc.
Qed.

Lemma base_item_step_shape cfg w existing_items tr tr' r :
  base_item_step cfg w existing_items tr = (tr', r) →
  (tr' = tr ∧ (r = Ok () → ∀ item list_id,
                 plan_chunk existing_items (DPL_NAME cfg) ≠ Update item list_id))
  ∨ (tr' = tr ∧ ∃ e, r = Raise e)
  ∨ (tr' = tr ++ [EvBackup (DPL_NAME cfg)]
     ∧ r = backup_dpl_json w tr (DPL_NAME cfg)
     ∧ ∃ item, plan_chunk existing_items (DPL_NAME cfg)
               = Update item (list_id_of item)).
Proof.
  unfold base_item_step, plan_chunk.
  destruct (find_item existing_items (DPL_NAME cfg)) as [base_item|].
  2: { intros [= <- <-]. by left. }
  destruct (item_truthy (Some base_item)).
  2: { intros [= <- <-]. by left. }
  unfold mbind, M_bind, lift, call.
  destruct (py_len _) as [n|e]; intros [= <- <-].
  - right. right. split; [done|]. split; [done|]. by exists base_item.
  - right. left. split; [done|]. by exists e.
Qed.

Lemma push_shape cfg w existing_items new_cidrs tr tr' r :
  push cfg w existing_items new_cidrs tr = (tr', r) →
  ∃ base evs,
    tr' = tr ++ base ++ evs
    ∧ (base = [] ∨ base = [EvBackup (DPL_NAME cfg)])
    ∧ ((∃ e, r = Raise e
             ∧ evs `prefix_of` planned_events existing_items
                                 (chunks cfg new_cidrs))
       ∨ (r = Ok 0
          ∧ evs = planned_events existing_items (chunks cfg new_cidrs)
                  ++ [EvWriteCache (merge_sort String.le new_cidrs);
                      EvNotify "Zscaler Sync: Success" true])).
Proof.
  unfold push. unfold mbind at 1. unfold M_bind at 1.
  destruct (base_item_step cfg w existing_items tr) as [tr0 [[]|e]] eqn:Hbase.
  - apply base_item_step_trace in Hbase.
    assert (∃ base, tr0 = tr ++ base
                    ∧ (base = [] ∨ base = [EvBackup (DPL_NAME cfg)]))
      as (base & -> & Hb).
    { destruct Hbase as [->| ->]; [exists []|eexists]; split; eauto.
      by rewrite app_nil_r. }
    unfold mbind at 1. unfold M_bind at 1.
    destruct (apply_chunks w existing_items (chunks cfg new_cidrs) []
                (tr ++ base)) as [tr1 [ups|e]] eqn:Happly.
    + apply apply_chunks_trace in Happly as (evs & -> & _ & Hok).
      specialize (Hok ups eq_refl) as ->.
      unfold mbind, M_bind, write_cache, notify_teams, call, mret, M_ret.
      intros [= <- <-]. eexists base, _. split; [|split; [done|right; done]].
      by rewrite <- !app_assoc.
    + apply apply_chunks_trace in Happly as (evs & -> & Hpre & _).
      intros [= <- <-]. exists base, evs.
      split; [by rewrite <- app_assoc|]. split; [done|]. left. by exists e.
  - intros [= <- <-].
    apply base_item_step_trace in Hbase as [->| ->].
    + exists [], []. rewrite !app_nil_r. split; [done|]. split; [by left|].
      left. exists e. split; [done|]. apply prefix_nil.
    + exists [EvBackup (DPL_NAME cfg)], []. rewrite app_nil_r.
      split; [done|]. split; [by right|].
      left. exists e. split; [done|]. apply prefix_nil.
Qed.

Section RunShape.

Variable py_repr : json → string.

(** The traces of the runs, following the returns of [main]. *)
Lemma run_shape cfg w dry_run :
  run py_repr cfg w dry_run = ([EvNotify "Zscaler Sync: Error" false], Ok 1)
  ∨ run py_repr cfg w dry_run = ([EvNotify "Zscaler Sync: Blocked" false], Ok 2)
  ∨ (dry_run = true ∧ run py_repr cfg w dry_run = ([], Ok 0))
  ∨ (∃ c, (c = [EvLogin] ∨ c = [EvLogin; EvGetDplItems])
          ∧ dry_run = false
          ∧ run py_repr cfg w dry_run
            = (c ++ [EvNotify "Zscaler Sync: Error" false], Ok 3))
  ∨ (∃ new_cidrs existing_items base evs r,
       fetch_zscaler_prefixes py_repr (requests_get w) (ZSCALER_JSON_URL cfg)
         (ZSCALER_FAMILY cfg) = Ok new_cidrs
       ∧ dry_run = false
       ∧ vm_login w [] = Ok ()
       ∧ vm_get_dpl_items w [EvLogin] = Ok existing_items
       ∧ run py_repr cfg w dry_run
         = ([EvLogin; EvGetDplItems] ++ base ++ evs, r)
       ∧ (base = [] ∨ base = [EvBackup (DPL_NAME cfg)])
       ∧ ((∃ e, r = Raise e
                ∧ evs `prefix_of` planned_events existing_items
                                    (chunks cfg new_cidrs))
          ∨ (r = Ok 0
             ∧ evs = planned_events existing_items (chunks cfg new_cidrs)
                     ++ [EvWriteCache (merge_sort String.le new_cidrs);
                         EvNotify "Zscaler Sync: Success" true]))).
Proof.
  pose proof (run_cases py_repr cfg w dry_run) as Hrun.
  destruct (fetch_zscaler_prefixes _ _ _ _) as [new_cidrs|e] eqn:Hfetch;
    [|by left].
  destruct (guard_blocks _ _ _); [right; by left|].
  destruct dry_run; [right; right; by left|].
  destruct (connect w []) as [tr [existing_items|e]] eqn:Hconnect.
  - right. right. right. right.
    apply connect_ok in Hconnect as (-> & Hlogin & Hitems).
    destruct (push cfg w existing_items new_cidrs ([] ++ [EvLogin; EvGetDplItems]))
      as [tr' r] eqn:Hpush.
    rewrite Hrun. pose proof Hpush as Hshape.
    apply push_shape in Hshape as (base & evs & -> & Hbase & Hevs).
    by exists new_cidrs, existing_items, base, evs, r.
  - right. right. right. left. exists tr. split; [|done].
    by apply connect_trace in Hconnect.
Qed.

End RunShape.

Lemma chunk_events_list_call existing_items name cidr_slice ev :
  ev ∈ chunk_events existing_items name cidr_slice → list_call ev.
Proof.
  unfold chunk_events. destruct (plan_chunk existing_items name).
  - intros [->|[->|[]%elem_of_nil]%elem_of_cons]%elem_of_cons; exact I.
  - intros [->|[]%elem_of_nil]%elem_of_cons. exact I.
Qed.

Lemma planned_events_list_call existing_items cs ev :
  ev ∈ planned_events existing_items cs → list_call ev.
Proof.
  induction cs as [|[name cidr_slice] rest IH]; simpl.
  - by intros ?%elem_of_nil.
  - intros [Hev|Hev]%elem_of_app; [|by apply IH].
    by apply chunk_events_list_call in Hev.
Qed.

(** The lists that the apply loop writes are those of its chunks, one
    call each, in order. *)
Lemma planned_events_written existing_items cs :
  omap written_list (planned_events existing_items cs) = cs.*1.
Proof.
  induction cs as [|[name cidr_slice] rest IH]; [done|].
  simpl. rewrite omap_app, IH. unfold chunk_events.
  by destruct (plan_chunk existing_items name).
Qed.

(** ** Updates and their backups *)

Lemma updates_after_backups_nil : updates_after_backups [].
Proof. intros [|??] ???? H; discriminate H. Qed.

Lemma updates_after_backups_prefix l1 l2 :
  l1 `prefix_of` l2 → updates_after_backups l2 → updates_after_backups l1.
Proof.
  intros [k ->] H before list_id name cidrs after ->.
  apply (H before list_id name cidrs (after ++ k)).
  by rewrite <- app_assoc.
Qed.

Lemma updates_after_backups_app l1 l2 :
  updates_after_backups l1 → updates_after_backups l2 →
  updates_after_backups (l1 ++ l2).
Proof.
  intros H1 H2 before list_id name cidrs after Heq.
  apply List.app_eq_app in Heq as [k [[-> Hk]|[-> Hk]]].
  - destruct k as [|ev k].
    + simpl in Hk. symmetry in Hk.
      destruct (H2 [] list_id name cidrs after Hk) as (b' & Hb').
      by destruct b'.
    + injection Hk as <- ->. by apply (H1 before list_id name cidrs k).
  - destruct (H2 k list_id name cidrs after Hk) as (k' & ->).
    exists (l1 ++ k'). by rewrite app_assoc.
Qed.

Lemma updates_after_backups_none l :
  (∀ ev, ev ∈ l → written_list ev = None ∨ ∃ n c, ev = EvCreate n c) →
  updates_after_backups l.
Proof.
  intros Hl before list_id name cidrs after ->.
  destruct (Hl (EvUpdate list_id name cidrs)) as [H|(n & c & H)]; try done.
  apply elem_of_app. right. apply list_elem_of_here.
Qed.

Lemma planned_events_updates existing_items cs :
  updates_after_backups (planned_events existing_items cs).
Proof.
  induction cs as [|[name cidr_slice] rest IH]; [apply updates_after_backups_nil|].
  simpl. apply updates_after_backups_app; [|done].
  unfold chunk_events. destruct (plan_chunk existing_items name) as [item id|].
  - intros before list_id name' cidrs after Heq.
    destruct before as [|b0 [|b1 before]].
    + discriminate Heq.
    + injection Heq as <- <- <- <- <-. by exists [].
    + injection Heq as _ _ Heq. by destruct before.
  - apply updates_after_backups_none.
    intros ev ->%list_elem_of_singleton. right. by eexists _, _.
Qed.

(** ** The names of the chunks *)

Lemma chunk_name_inj cfg i j :
  0 ≤ i → 0 ≤ j → chunk_name cfg i = chunk_name cfg j → i = j.
Proof.
  intros Hi Hj Heq. unfold chunk_name in Heq.
  apply String.app_inj, String.app_inj in Heq.
  destruct (fmt_02d_spec (i + 1) ltac:(lia)) as (_ & _ & Hi').
  destruct (fmt_02d_spec (j + 1) ltac:(lia)) as (_ & _ & Hj').
  rewrite Heq in Hi'. lia.
Qed.

Lemma chunk_name_not_base cfg i : chunk_name cfg i ≠ DPL_NAME cfg.
Proof.
  intros Heq. apply (f_equal String.length) in Heq.
  unfold chunk_name in Heq. rewrite !string_app_length in Heq.
  simpl in Heq. lia.
Qed.

Lemma chunks_names cfg new_cidrs :
  (len new_cidrs ≤ Z.max 1 (ZSCALER_MAX_CHUNK cfg)
   ∧ (chunks cfg new_cidrs).*1 = [DPL_NAME cfg])
  ∨ (Z.max 1 (ZSCALER_MAX_CHUNK cfg) < len new_cidrs
     ∧ (chunks cfg new_cidrs).*1
       = chunk_name cfg
         <$> seqZ 0 (ceil_div (len new_cidrs)
                       (Z.max 1 (ZSCALER_MAX_CHUNK cfg)))).
Proof.
  destruct (Z.le_gt_cases (len new_cidrs) (Z.max 1 (ZSCALER_MAX_CHUNK cfg)))
    as [Hle|Hgt].
  - left. split; [done|]. unfold chunks.
    by rewrite (proj2 (Z.leb_le _ _) Hle).
  - right. split; [done|]. rewrite (chunks_multi cfg new_cidrs Hgt).
    by rewrite <- list_fmap_compose.
Qed.

Lemma chunks_names_NoDup cfg new_cidrs : NoDup (chunks cfg new_cidrs).*1.
Proof.
  destruct (chunks_names cfg new_cidrs) as [[_ ->]|[_ ->]].
  - apply NoDup_singleton.
  - apply NoDup_fmap_2_strong; [|apply NoDup_seqZ].
    intros i j [Hi _]%elem_of_seqZ [Hj _]%elem_of_seqZ.
    by apply chunk_name_inj.
Qed.

Lemma chunks_names_not_base cfg new_cidrs :
  Z.max 1 (ZSCALER_MAX_CHUNK cfg) < len new_cidrs →
  DPL_NAME cfg ∉ (chunks cfg new_cidrs).*1.
Proof.
  intros Hgt. destruct (chunks_names cfg new_cidrs) as [[? _]|[_ ->]]; [lia|].
  intros (i & Heq & _)%list_elem_of_fmap.
  symmetry in Heq. by apply chunk_name_not_base in Heq.
Qed.

(** The lists that a run writes, in order: those of the chunks, up to
    the chunk where a call fails. *)
Lemma run_written (py_repr : json → string) cfg w dry_run new_cidrs :
  fetch_zscaler_prefixes py_repr (requests_get w) (ZSCALER_JSON_URL cfg)
    (ZSCALER_FAMILY cfg) = Ok new_cidrs →
  omap written_list (run py_repr cfg w dry_run).1
    `prefix_of` (chunks cfg new_cidrs).*1
  ∧ ((run py_repr cfg w dry_run).2 = Ok 0 → dry_run = false →
     omap written_list (run py_repr cfg w dry_run).1
     = (chunks cfg new_cidrs).*1).
Proof.
  intros Hfetch.
  destruct (run_shape py_repr cfg w dry_run)
    as [->|[->|[[-> ->]|[(c & Hc & _ & ->)|Hpush]]]].
  - split; [apply prefix_nil|done].
  - split; [apply prefix_nil|done].
  - split; [apply prefix_nil|done].
  - split; [|done].
    destruct Hc as [->| ->]; apply prefix_nil.
  - destruct Hpush as (new' & existing_items & base & evs & r & Hfetch'
                       & _ & _ & _ & -> & Hbase & Hevs).
    rewrite Hfetch in Hfetch'. injection Hfetch' as <-.
    assert (omap written_list base = []) as Hb.
    { by destruct Hbase as [->| ->]. }
    cbn [fst snd]. rewrite !omap_app, Hb. simpl.
    destruct Hevs as [(e & -> & [k Hk])|[-> ->]].
    + split; [|done]. exists (omap written_list k).
      rewrite <- (planned_events_written existing_items).
      by rewrite Hk, omap_app.
    + rewrite omap_app, planned_events_written. simpl.
      rewrite app_nil_r. done.
Qed.

(** X6: the lists a run writes.  The names of the chunks are pairwise
    distinct, and when the prefixes are split into several chunks none
    of them is the base name.  The update and create calls of a run,
    taken in order, are for the chunks in their order, a call each, up
    to the chunk where a call fails: no list is written twice, and
    with several chunks the base list is not written at all. *)
Theorem written_lists_follow_chunks (py_repr : json → string) (cfg : config)
    (w : world) (dry_run : bool) (new_cidrs : list string) :
  fetch_zscaler_prefixes py_repr (requests_get w) (ZSCALER_JSON_URL cfg)
    (ZSCALER_FAMILY cfg) = Ok new_cidrs →
  let names := (chunks cfg new_cidrs).*1 in
  let written := omap written_list (run py_repr cfg w dry_run).1 in
  NoDup names
  ∧ (Z.max 1 (ZSCALER_MAX_CHUNK cfg) < len new_cidrs → DPL_NAME cfg ∉ names)
  ∧ written `prefix_of` names
  ∧ NoDup written
  ∧ ((run py_repr cfg w dry_run).2 = Ok 0 → dry_run = false → written = names)
  ∧ (Z.max 1 (ZSCALER_MAX_CHUNK cfg) < len new_cidrs →
     DPL_NAME cfg ∉ written).
Proof.
  intros Hfetch names written.
  assert (NoDup names) as Hnodup by apply chunks_names_NoDup.
  destruct (run_written py_repr cfg w dry_run new_cidrs Hfetch) as [Hpre Hall].
  fold names written in Hpre, Hall.
  split; [done|]. split; [apply chunks_names_not_base|].
  split; [done|].
  split.
  { destruct Hpre as [k Hk]. rewrite Hk in Hnodup.
    by apply NoDup_app in Hnodup as [? _]. }
  split; [done|].
  intros Hgt Hin. apply (chunks_names_not_base cfg new_cidrs Hgt).
  destruct Hpre as [k Hk]. fold names. rewrite Hk. apply elem_of_app. by left.
Qed.

Lemma written_lists_follow_chunks_witness :
  fetch_zscaler_prefixes sample_repr
    (requests_get (sample_world three_prefix_payload [] []))
    (ZSCALER_JSON_URL small_chunk_cfg) (ZSCALER_FAMILY small_chunk_cfg)
  = Ok ["10.0.0.0/8"; "10.1.0.0/16"; "192.0.2.7/32"]
  ∧ omap written_list
      (run sample_repr small_chunk_cfg
         (sample_world three_prefix_payload [] []) false).1
    = ["ZSCALER_BYPASS_01"; "ZSCALER_BYPASS_02"].
Proof.
  assert (fetch_zscaler_prefixes sample_repr
            (requests_get (sample_world three_prefix_payload [] []))
            (ZSCALER_JSON_URL small_chunk_cfg) (ZSCALER_FAMILY small_chunk_cfg)
          = Ok ["10.0.0.0/8"; "10.1.0.0/16"; "192.0.2.7/32"]) as Hfetch
    by (vm_compute; reflexivity).
  assert ((run sample_repr small_chunk_cfg
             (sample_world three_prefix_payload [] []) false).2 = Ok 0) as Hrun
    by (vm_compute; reflexivity).
  split; [exact Hfetch|].
  exact (proj1 (proj2 (proj2 (proj2 (proj2
           (written_lists_follow_chunks sample_repr small_chunk_cfg
              (sample_world three_prefix_payload [] []) false _ Hfetch)))))
           Hrun eq_refl).
Defined.

(** X7: in any run, an update call comes right after the backup call of
    the same list; and a run that makes a backup, update or create call
    has logged in and listed the existing lists first, both with
    success, and in that order. *)
Theorem update_follows_backup (py_repr : json → string) (cfg : config)
    (w : world) (dry_run : bool) :
  (∀ before list_id name cidrs after,
     (run py_repr cfg w dry_run).1
     = before ++ EvUpdate list_id name cidrs :: after →
     ∃ before', before = before' ++ [EvBackup name])
  ∧ (∀ ev, ev ∈ (run py_repr cfg w dry_run).1 → list_call ev →
       dry_run = false
       ∧ vm_login w [] = Ok ()
       ∧ (∃ existing_items, vm_get_dpl_items w [EvLogin] = Ok existing_items)
       ∧ ∃ rest, (run py_repr cfg w dry_run).1
                 = EvLogin :: EvGetDplItems :: rest).
Proof.
  assert (∀ l, (∀ ev, ev ∈ l → ¬ list_call ev) → updates_after_backups l)
    as Hnone.
  { intros l Hl. apply updates_after_backups_none. intros ev Hev.
    specialize (Hl ev Hev). left. by destruct ev; try done; simpl in Hl. }
  destruct (run_shape py_repr cfg w dry_run)
    as [->|[->|[[-> ->]|[(c & Hc & _ & ->)|Hpush]]]]; cbn [fst snd].
  - split.
    + apply (Hnone [_]). by intros ev ->%list_elem_of_singleton [].
    + by intros ev ->%list_elem_of_singleton [].
  - split.
    + apply (Hnone [_]). by intros ev ->%list_elem_of_singleton [].
    + by intros ev ->%list_elem_of_singleton [].
  - split; [apply updates_after_backups_nil|by intros ev ?%elem_of_nil].
  - assert (∀ ev, ev ∈ c ++ [EvNotify "Zscaler Sync: Error" false] →
              ¬ list_call ev) as Hno.
    { intros ev [Hev| ->%list_elem_of_singleton]%elem_of_app; [|simpl; tauto].
      destruct Hc as [->| ->].
      - apply list_elem_of_singleton in Hev as ->. simpl; tauto.
      - apply elem_of_cons in Hev as [->|Hev]; [simpl; tauto|].
        apply list_elem_of_singleton in Hev as ->. simpl; tauto. }
    split; [by apply (Hnone (c ++ [_]))|].
    intros ev Hev Hcall. by apply Hno in Hev.
  - destruct Hpush as (new_cidrs & existing_items & base & evs & r & Hfetch
                       & -> & Hlogin & Hitems & -> & Hbase & Hevs).
    cbn [fst snd]. split.
    + apply (updates_after_backups_app [EvLogin; EvGetDplItems] (base ++ evs)).
      { apply Hnone. intros ev [->|[->|[]%elem_of_nil]%elem_of_cons]%elem_of_cons;
          simpl; tauto. }
      apply updates_after_backups_app.
      { apply updates_after_backups_none. intros ev Hev. left.
        destruct Hbase as [->| ->]; [by apply elem_of_nil in Hev|].
        apply list_elem_of_singleton in Hev as ->. simpl; tauto. }
      destruct Hevs as [(e & _ & Hpre)|[_ ->]].
      * apply (updates_after_backups_prefix _ _ Hpre), planned_events_updates.
      * apply updates_after_backups_app; [apply planned_events_updates|].
        apply updates_after_backups_none.
        intros ev [->|[->|[]%elem_of_nil]%elem_of_cons]%elem_of_cons; by left.
    + intros ev _ _. split; [done|]. split; [done|].
      split; [by exists existing_items|]. by eexists.
Qed.

Lemma update_follows_backup_witness :
  (run sample_repr sample_cfg
     (sample_world sample_payload [] base_list_items) false).1
  = [EvLogin; EvGetDplItems; EvBackup "ZSCALER_BYPASS";
     EvBackup "ZSCALER_BYPASS"]
    ++ EvUpdate (JStr "id-7") "ZSCALER_BYPASS" ["10.0.0.0/8"; "192.0.2.7/32"]
       :: [EvWriteCache ["10.0.0.0/8"; "192.0.2.7/32"];
           EvNotify "Zscaler Sync: Success" true]
  ∧ ∃ before',
      [EvLogin; EvGetDplItems; EvBackup "ZSCALER_BYPASS";
       EvBackup "ZSCALER_BYPASS"]
      = before' ++ [EvBackup "ZSCALER_BYPASS"].
Proof.
  assert ((run sample_repr sample_cfg
             (sample_world sample_payload [] base_list_items) false).1
          = [EvLogin; EvGetDplItems; EvBackup "ZSCALER_BYPASS";
             EvBackup "ZSCALER_BYPASS"]
            ++ EvUpdate (JStr "id-7") "ZSCALER_BYPASS"
                 ["10.0.0.0/8"; "192.0.2.7/32"]
               :: [EvWriteCache ["10.0.0.0/8"; "192.0.2.7/32"];
                   EvNotify "Zscaler Sync: Success" true]) as Hrun
    by (vm_compute; reflexivity).
  split; [exact Hrun|].
  exact (proj1 (update_follows_backup sample_repr sample_cfg
                  (sample_world sample_payload [] base_list_items) false)
           _ _ _ _ _ Hrun).
Defined.

(** ** Notifications *)

Lemma notify_is_last (X : list event) (last_ev : event) before ev after :
  (∀ ev', ev' ∈ X → ¬ is_notify ev') →
  is_notify ev →
  X ++ [last_ev] = before ++ ev :: after →
  after = [].
Proof.
  intros HX Hev Heq. destruct after as [|z after _] using rev_ind; [done|].
  exfalso. rewrite app_comm_cons, app_assoc in Heq.
  apply app_inj_tail in Heq as [-> _].
  apply (HX ev); [|done]. apply elem_of_app. right. apply list_elem_of_here.
Qed.

Lemma planned_events_no_notify existing_items cs ev :
  ev ∈ planned_events existing_items cs → ¬ is_notify ev.
Proof. intros Hev%planned_events_list_call. destruct ev; simpl in *; tauto. Qed.

(** X8: the notifications of a run.  A run sends at most one
    notification, and as its last call.  A run that returns 1, 2 or 3
    ends with a notification of failure; a run that is not a dry run and
    returns 0 ends with the notification of success; a dry run that
    returns 0 sends none; and a run that ends with an exception, as
    when a call of the apply loop fails, sends none either. *)
Theorem notification_discipline (py_repr : json → string) (cfg : config)
    (w : world) (dry_run : bool) :
  (∀ before ev after,
     (run py_repr cfg w dry_run).1 = before ++ ev :: after →
     is_notify ev → after = [])
  ∧ (∀ n, (run py_repr cfg w dry_run).2 = Ok n → n ≠ 0 →
       ∃ before title,
         (run py_repr cfg w dry_run).1 = before ++ [EvNotify title false])
  ∧ ((run py_repr cfg w dry_run).2 = Ok 0 → dry_run = false →
     ∃ before,
       (run py_repr cfg w dry_run).1
       = before ++ [EvNotify "Zscaler Sync: Success" true])
  ∧ ((run py_repr cfg w dry_run).2 = Ok 0 → dry_run = true →
     (run py_repr cfg w dry_run).1 = [])
  ∧ (∀ e, (run py_repr cfg w dry_run).2 = Raise e →
       ∀ ev, ev ∈ (run py_repr cfg w dry_run).1 → ¬ is_notify ev).
Proof.
  assert (∀ l : list event, (∀ ev, ev ∈ l → ¬ is_notify ev) →
            ∀ before ev after, l = before ++ ev :: after →
                               is_notify ev → after = []) as Hnone.
  { intros l Hl before ev after -> Hev. exfalso. apply (Hl ev); [|done].
    apply elem_of_app. right. apply list_elem_of_here. }
  destruct (run_shape py_repr cfg w dry_run)
    as [->|[->|[[-> ->]|[(c & Hc & -> & ->)|Hpush]]]]; cbn [fst snd].
  - split; [|split; [|split; [done|split; [done|done]]]].
    + intros before ev after Heq Hev.
      apply (notify_is_last [] (EvNotify "Zscaler Sync: Error" false)
               before ev after); [by intros ? ?%elem_of_nil|done|done].
    + intros n _ _. by exists [], "Zscaler Sync: Error".
  - split; [|split; [|split; [done|split; [done|done]]]].
    + intros before ev after Heq Hev.
      apply (notify_is_last [] (EvNotify "Zscaler Sync: Blocked" false)
               before ev after); [by intros ? ?%elem_of_nil|done|done].
    + intros n _ _. by exists [], "Zscaler Sync: Blocked".
  - split; [|split; [by intros n [= <-] ?|split; [done|split; [done|done]]]].
    apply Hnone. by intros ev ?%elem_of_nil.
  - split; [|split; [|split; [done|split; [done|done]]]].
    + intros before ev after Heq Hev.
      apply (notify_is_last c (EvNotify "Zscaler Sync: Error" false)
               before ev after); [|done..].
      intros ev' Hev'. destruct Hc as [->| ->].
      * apply list_elem_of_singleton in Hev' as ->. simpl; tauto.
      * apply elem_of_cons in Hev' as [->|Hev']; [simpl; tauto|].
        apply list_elem_of_singleton in Hev' as ->. simpl; tauto.
    + intros n _ _. by exists c, "Zscaler Sync: Error".
  - destruct Hpush as (new_cidrs & existing_items & base & evs & r & Hfetch
                       & -> & Hlogin & Hitems & -> & Hbase & Hevs).
    cbn [fst snd].
    assert (∀ ev, ev ∈ [EvLogin; EvGetDplItems] ++ base → ¬ is_notify ev)
      as Hhead.
    { intros ev [Hev|Hev]%elem_of_app.
      - apply elem_of_cons in Hev as [->|Hev]; [simpl; tauto|].
        apply list_elem_of_singleton in Hev as ->. simpl; tauto.
      - destruct Hbase as [->| ->]; [by apply elem_of_nil in Hev|].
        apply list_elem_of_singleton in Hev as ->. simpl; tauto. }
    destruct Hevs as [(e & -> & [k Hk])|[-> ->]].
    + assert (∀ ev, ev ∈ [EvLogin; EvGetDplItems] ++ base ++ evs →
                ¬ is_notify ev) as Hno.
      { intros ev Hev. rewrite app_assoc in Hev.
        apply elem_of_app in Hev as [Hev|Hev]; [by apply Hhead|].
        apply (planned_events_no_notify existing_items (chunks cfg new_cidrs)).
        rewrite Hk. apply elem_of_app. by left. }
      split; [by apply Hnone|]. split; [done|]. split; [done|].
      split; [done|]. intros _ _. exact Hno.
    + split; [|split; [|split; [|split; [done|done]]]].
      * intros before ev after Heq Hev.
        apply (notify_is_last
                 ([EvLogin; EvGetDplItems] ++ base
                  ++ planned_events existing_items (chunks cfg new_cidrs)
                  ++ [EvWriteCache (merge_sort String.le new_cidrs)])
                 (EvNotify "Zscaler Sync: Success" true) before ev after);
          [|done|].
        -- intros ev' Hev'. rewrite app_assoc in Hev'.
           apply elem_of_app in Hev' as [Hev'|Hev']; [by apply Hhead|].
           apply elem_of_app in Hev' as [Hev'|Hev'].
           ++ by apply planned_events_no_notify in Hev'.
           ++ apply list_elem_of_singleton in Hev' as ->. simpl; tauto.
        -- rewrite <- Heq. by rewrite <- !app_assoc.
      * by intros n [= <-] ?.
      * intros _ _.
        exists ([EvLogin; EvGetDplItems] ++ base
                ++ planned_events existing_items (chunks cfg new_cidrs)
                ++ [EvWriteCache (merge_sort String.le new_cidrs)]).
        by rewrite <- !app_assoc.
Qed.

(** ** A run where every call succeeds *)

Lemma apply_chunks_success w existing_items cs ups tr :
  (∀ tr name, backup_dpl_json w tr name = Ok ()) →
  (∀ tr list_id name cidrs, vm_update_dpl w tr list_id name cidrs = Ok ()) →
  (∀ tr name cidrs, ∃ list_id, vm_create_dpl w tr name cidrs = Ok list_id) →
  ∃ ups',
    apply_chunks w existing_items cs ups tr
    = (tr ++ planned_events existing_items cs, Ok ups').
Proof.
  intros Hbackup Hupdate Hcreate. revert ups tr.
  induction cs as [|[name cidr_slice] rest IH]; intros ups tr.
  - exists ups. simpl. by rewrite app_nil_r.
  - simpl. unfold chunk_events.
    destruct (plan_chunk existing_items name) as [item list_id|].
    + unfold mbind, M_bind, call. rewrite Hbackup, Hupdate.
      destruct (IH (ups ++ [(name, list_id, len cidr_slice)])
                  ((tr ++ [EvBackup name])
                   ++ [EvUpdate list_id name cidr_slice])) as (ups' & ->).
      exists ups'. by rewrite <- !app_assoc.
    + unfold mbind, M_bind, call.
      destruct (Hcreate tr name cidr_slice) as (list_id & ->).
      destruct (IH (ups ++ [(name, list_id, len cidr_slice)])
                  (tr ++ [EvCreate name cidr_slice])) as (ups' & ->).
      exists ups'. by rewrite <- !app_assoc.
Qed.

Lemma planned_events_fresh cs :
  planned_events [] cs = (λ c, EvCreate c.1 c.2) <$> cs.
Proof.
  induction cs as [|[name cidr_slice] rest IH]; [done|].
  simpl. by rewrite IH.
Qed.

(** X9: a run, not a dry run, that is not blocked and whose calls all
    succeed.  It logs in, lists, calls the backup of the base list when
    that list exists, goes through every chunk, writes the fetched list
    to the cache, notifies the success and returns 0.  On a controller
    that has no list, every chunk is created, in order, and nothing is
    backed up.  When the prefixes fit in one chunk and the base list
    exists, the backup of that list is called twice, and the list is
    then updated under the id read from it. *)
Theorem run_without_failure (py_repr : json → string) (cfg : config)
    (w : world) (new_cidrs : list string) (existing_items : list dpl_item) :
  fetch_zscaler_prefixes py_repr (requests_get w) (ZSCALER_JSON_URL cfg)
    (ZSCALER_FAMILY cfg) = Ok new_cidrs →
  guard_blocks cfg (read_cache w) new_cidrs = false →
  vm_login w [] = Ok () →
  vm_get_dpl_items w [EvLogin] = Ok existing_items →
  (∀ item, find_item existing_items (DPL_NAME cfg) = Some item →
     ∃ n, py_len (Py.or_ (Py.dict_get item "entries") (JList [])) = Ok n) →
  (∀ tr name, backup_dpl_json w tr name = Ok ()) →
  (∀ tr list_id name cidrs, vm_update_dpl w tr list_id name cidrs = Ok ()) →
  (∀ tr name cidrs, ∃ list_id, vm_create_dpl w tr name cidrs = Ok list_id) →
  run py_repr cfg w false
  = ([EvLogin; EvGetDplItems]
     ++ match find_item existing_items (DPL_NAME cfg) with
        | Some _ => [EvBackup (DPL_NAME cfg)]
        | None => []
        end
     ++ planned_events existing_items (chunks cfg new_cidrs)
     ++ [EvWriteCache new_cidrs; EvNotify "Zscaler Sync: Success" true],
     Ok 0)
  ∧ (existing_items = [] →
     run py_repr cfg w false
     = ([EvLogin; EvGetDplItems]
        ++ ((λ c, EvCreate c.1 c.2) <$> chunks cfg new_cidrs)
        ++ [EvWriteCache new_cidrs; EvNotify "Zscaler Sync: Success" true],
        Ok 0))
  ∧ (∀ item,
       len new_cidrs ≤ Z.max 1 (ZSCALER_MAX_CHUNK cfg) →
       find_item existing_items (DPL_NAME cfg) = Some item →
       run py_repr cfg w false
       = ([EvLogin; EvGetDplItems;
           EvBackup (DPL_NAME cfg); EvBackup (DPL_NAME cfg);
           EvUpdate (list_id_of item) (DPL_NAME cfg) new_cidrs;
           EvWriteCache new_cidrs; EvNotify "Zscaler Sync: Success" true],
          Ok 0)).
Proof.
  intros Hfetch Hguard Hlogin Hitems Hlen Hbackup Hupdate Hcreate.
  assert (run py_repr cfg w false
          = ([EvLogin; EvGetDplItems]
             ++ match find_item existing_items (DPL_NAME cfg) with
                | Some _ => [EvBackup (DPL_NAME cfg)]
                | None => []
                end
             ++ planned_events existing_items (chunks cfg new_cidrs)
             ++ [EvWriteCache new_cidrs; EvNotify "Zscaler Sync: Success" true],
             Ok 0)) as Hrun.
  { pose proof (run_cases py_repr cfg w false) as Hcases.
    rewrite Hfetch, Hguard in Hcases.
    assert (connect w [] = ([EvLogin; EvGetDplItems], Ok existing_items))
      as Hconnect.
    { unfold connect, mbind, M_bind, call. rewrite Hlogin. cbn [app].
      by rewrite Hitems. }
    rewrite Hconnect in Hcases. rewrite Hcases.
    destruct (fetch_sorted _ _ _ _ _ Hfetch) as (cidrs & Hsorted).
    unfold push. unfold mbind at 1. unfold M_bind at 1.
    assert (base_item_step cfg w existing_items [EvLogin; EvGetDplItems]
            = ([EvLogin; EvGetDplItems]
               ++ match find_item existing_items (DPL_NAME cfg) with
                  | Some _ => [EvBackup (DPL_NAME cfg)]
                  | None => []
                  end, Ok ())) as ->.
    { unfold base_item_step.
      destruct (find_item existing_items (DPL_NAME cfg)) as [item|] eqn:Hfind;
        [|done].
      destruct (Hlen item eq_refl) as (n & Hn).
      apply find_item_Some in Hfind as (? & ? & _ & Hname & _).
      rewrite (named_item_truthy item _ Hname).
      unfold mbind, M_bind, lift, call. by rewrite Hn, Hbackup. }
    unfold mbind at 1. unfold M_bind at 1.
    destruct (apply_chunks_success w existing_items (chunks cfg new_cidrs) []
                ([EvLogin; EvGetDplItems]
                 ++ match find_item existing_items (DPL_NAME cfg) with
                    | Some _ => [EvBackup (DPL_NAME cfg)]
                    | None => []
                    end) Hbackup Hupdate Hcreate) as (ups & ->).
    unfold mbind, M_bind, write_cache, notify_teams, call, mret, M_ret.
    rewrite Hsorted, merge_sort_sorted. by rewrite <- !app_assoc. }
  split; [done|]. split.
  - intros ->. rewrite Hrun. by rewrite planned_events_fresh.
  - intros item Hsingle Hfind. rewrite Hrun, Hfind.
    unfold chunks. rewrite (proj2 (Z.leb_le _ _) Hsingle).
    simpl. unfold chunk_events, plan_chunk. rewrite Hfind.
    apply find_item_Some in Hfind as (? & ? & _ & Hname & _).
    by rewrite (named_item_truthy item _ Hname).
Qed.

Lemma run_without_failure_witness :
  fetch_zscaler_prefixes sample_repr
    (requests_get (sample_world sample_payload [] base_list_items))
    (ZSCALER_JSON_URL sample_cfg) (ZSCALER_FAMILY sample_cfg)
  = Ok ["10.0.0.0/8"; "192.0.2.7/32"]
  ∧ guard_blocks sample_cfg
      (read_cache (sample_world sample_payload [] base_list_items))
      ["10.0.0.0/8"; "192.0.2.7/32"] = false
  ∧ find_item base_list_items (DPL_NAME sample_cfg)
    = Some [("name", JStr "ZSCALER_BYPASS"); ("listId", JStr "id-7");
            ("entries", JList [JDict [("ipPrefix", JStr "10.0.0.0/8")]])]
  ∧ run sample_repr sample_cfg
      (sample_world sample_payload [] base_list_items) false
    = ([EvLogin; EvGetDplItems;
        EvBackup "ZSCALER_BYPASS"; EvBackup "ZSCALER_BYPASS";
        EvUpdate (JStr "id-7") "ZSCALER_BYPASS" ["10.0.0.0/8"; "192.0.2.7/32"];
        EvWriteCache ["10.0.0.0/8"; "192.0.2.7/32"];
        EvNotify "Zscaler Sync: Success" true],
       Ok 0).
Proof.
  assert (fetch_zscaler_prefixes sample_repr
            (requests_get (sample_world sample_payload [] base_list_items))
            (ZSCALER_JSON_URL sample_cfg) (ZSCALER_FAMILY sample_cfg)
          = Ok ["10.0.0.0/8"; "192.0.2.7/32"]) as Hfetch
    by (vm_compute; reflexivity).
  assert (∀ item, find_item base_list_items (DPL_NAME sample_cfg) = Some item →
            ∃ n, py_len (Py.or_ (Py.dict_get item "entries") (JList [])) = Ok n)
    as Hlen.
  { intros item [= <-]. by eexists. }
  split; [exact Hfetch|]. split; [reflexivity|]. split; [reflexivity|].
  refine (proj2 (proj2
            (run_without_failure sample_repr sample_cfg
               (sample_world sample_payload [] base_list_items)
               ["10.0.0.0/8"; "192.0.2.7/32"] base_list_items
               Hfetch eq_refl eq_refl eq_refl Hlen
               (λ _ _, eq_refl) (λ _ _ _ _, eq_refl)
               (λ _ _ _, ex_intro _ (JStr "new-id") eq_refl)))
            _ _ eq_refl).
  vm_compute. discriminate.
Defined.

(** ** The guard at its edges

    The quotient of the guard is a binary64 division; the lengths
    are below 2^53 and convert exactly. *)

Lemma digits2_pos_iter_xO p n :
  digits2_pos (Pos.iter xO p n) = (digits2_pos p + n)%positive.
Proof.
  induction n as [|n IH] using Pos.peano_ind.
  - simpl. lia.
  - rewrite Pos.iter_succ. simpl. rewrite IH. lia.
Qed.

Lemma digits2_pos_lower p : 2 ^ (Z.pos (digits2_pos p) - 1) ≤ Z.pos p.
Proof.
  induction p as [p IH|p IH|]; simpl digits2_pos.
  - replace (Z.pos (Pos.succ (digits2_pos p)) - 1)
      with (Z.succ (Z.pos (digits2_pos p) - 1)) by lia.
    rewrite Z.pow_succ_r by lia. lia.
  - replace (Z.pos (Pos.succ (digits2_pos p)) - 1)
      with (Z.succ (Z.pos (digits2_pos p) - 1)) by lia.
    rewrite Z.pow_succ_r by lia. lia.
  - simpl. lia.
Qed.

Lemma digits2_pos_small p : Z.pos p < 2 ^ 53 → Z.pos (digits2_pos p) ≤ 53.
Proof.
  intros Hp. pose proof (digits2_pos_lower p) as Hlow.
  destruct (Z.le_gt_cases (Z.pos (digits2_pos p)) 53) as [|Hgt]; [done|].
  assert (2 ^ 53 ≤ 2 ^ (Z.pos (digits2_pos p) - 1)).
  { apply Z.pow_le_mono_r; lia. }
  lia.
Qed.

Lemma binary_round_aux_exact s m e :
  digits2_pos m = 53%positive → -1074 ≤ e ≤ 971 →
  binary_round_aux prec emax s (Z.pos m) e loc_Exact = S754_finite s m e.
Proof.
  intros Hd He. unfold binary_round_aux, shr_fexp. simpl Zdigits2.
  rewrite Hd.
  assert (fexp prec emax (53 + e) - e = 0) as ->.
  { unfold fexp, emin, prec, emax. lia. }
  simpl. rewrite Hd.
  assert (fexp prec emax (53 + e) - e = 0) as ->.
  { unfold fexp, emin, prec, emax. lia. }
  simpl. destruct (e <=? emax - prec) eqn:Hle; [done|].
  apply Z.leb_gt in Hle. unfold emax, prec in Hle. lia.
Qed.

(** The float of a positive integer below 2^53. *)
Lemma of_int_finite k :
  1 ≤ k < 2 ^ 53 →
  ∃ m e, Prim2SF (PrimFloat.of_uint63 (Uint63.of_Z k)) = S754_finite false m e
         ∧ digits2_pos m = 53%positive ∧ -52 ≤ e ≤ 0.
Proof.
  intros Hk. rewrite of_uint63_spec, Uint63.of_Z_spec.
  rewrite Z.mod_small.
  2: { change wB with (2 ^ 63). split; [lia|].
       assert (2 ^ 53 < 2 ^ 63) by (by apply Z.pow_lt_mono_r). lia. }
  destruct k as [|p|p]; try lia.
  unfold binary_normalize, binary_round.
  pose proof (digits2_pos_small p ltac:(lia)) as Hd.
  assert (fexp prec emax (Z.pos (digits2_pos p) + 0)
          = Z.pos (digits2_pos p) - 53) as ->.
  { unfold fexp, emin, prec, emax. lia. }
  unfold shl_align.
  destruct (Z.pos (digits2_pos p) - 53 - 0) as [|d|d] eqn:Hsh; try lia.
  - exists p, 0. rewrite binary_round_aux_exact; [|lia|lia].
    split; [done|]. split; lia.
  - exists (Pos.iter xO p d), (Z.pos (digits2_pos p) - 53).
    assert (digits2_pos (Pos.iter xO p d) = 53%positive) as Hdig.
    { rewrite digits2_pos_iter_xO. lia. }
    rewrite binary_round_aux_exact; [|done|lia].
    split; [done|]. split; [done|lia].
Qed.


Lemma truediv_zero k : 1 ≤ k < 2 ^ 53 → Py.truediv 0 k = 0%float.
Proof.
  intros Hk. apply Prim2SF_inj. unfold Py.truediv. rewrite FloatAxioms.div_spec.
  destruct (of_int_finite k Hk) as (m & e & -> & _).
  reflexivity.
Qed.


Lemma guard_blocks_not_empty cfg old_cidrs new_cidrs :
  old_cidrs ≠ [] →
  guard_blocks cfg old_cidrs new_cidrs
  = PrimFloat.ltb (MAX_REMOVE_PERCENT cfg) (pct_remove old_cidrs new_cidrs).
Proof. intros Hne. unfold guard_blocks. by destruct old_cidrs. Qed.

Lemma len_not_empty {A} (l : list A) : l ≠ [] → Z.max 1 (len l) = len l.
Proof. destruct l; [done|]. intros _. unfold len. simpl. lia. Qed.

(** Nothing is removed: the ratio is 0. *)
Lemma pct_remove_nothing old_cidrs new_cidrs :
  old_cidrs ≠ [] → len old_cidrs < 2 ^ 53 →
  (∀ x, x ∈ old_cidrs → x ∈ new_cidrs) →
  pct_remove old_cidrs new_cidrs = 0%float.
Proof.
  intros Hne Hlen Hkept. pose proof (len_not_empty old_cidrs Hne) as Hmax.
  unfold pct_remove. rewrite len_to_remove, Hmax.
  assert (list_to_set (C := gset string) old_cidrs
          ∖ list_to_set new_cidrs = ∅) as ->.
  { apply set_eq. intros x.
    rewrite elem_of_difference, !elem_of_list_to_set.
    split; [|by intros ?%elem_of_empty].
    intros [Hx Hnx]. destruct Hnx. by apply Hkept. }
  rewrite size_empty. change (Z.of_nat 0) with 0.
  rewrite truediv_zero by lia. reflexivity.
Qed.




(** X11: a run over a feed that has not changed since the cache was
    written.  Nothing is to add and nothing to remove; the run is not
    blocked, unless the configured maximum is negative; a dry run makes
    no call and returns 0; and a run that is not a dry run skips
    nothing: when it returns 0 it has written every chunk again. *)
Theorem unchanged_feed_is_pushed_again (py_repr : json → string)
    (cfg : config) (w : world) (new_cidrs : list string) :
  fetch_zscaler_prefixes py_repr (requests_get w) (ZSCALER_JSON_URL cfg)
    (ZSCALER_FAMILY cfg) = Ok new_cidrs →
  read_cache w = new_cidrs →
  len new_cidrs < 2 ^ 53 →
  PrimFloat.ltb (MAX_REMOVE_PERCENT cfg) 0 = false →
  to_add (read_cache w) new_cidrs = []
  ∧ to_remove (read_cache w) new_cidrs = []
  ∧ guard_blocks cfg (read_cache w) new_cidrs = false
  ∧ run py_repr cfg w true = ([], Ok 0)
  ∧ ((run py_repr cfg w false).2 = Ok 0 →
     omap written_list (run py_repr cfg w false).1 = (chunks cfg new_cidrs).*1).
Proof.
  intros Hfetch Hcache Hlen Hmax. rewrite Hcache.
  assert (∀ l : list string, sorted (list_to_set l ∖ list_to_set l) = [])
    as Hdiff.
  { intros l. by rewrite difference_diag_L. }
  assert (guard_blocks cfg new_cidrs new_cidrs = false) as Hguard.
  { destruct new_cidrs as [|x l] eqn:Hl; [done|]. rewrite <- Hl in *.
    assert (new_cidrs ≠ []) as Hne by (by rewrite Hl).
    rewrite (guard_blocks_not_empty cfg _ _ Hne).
    by rewrite pct_remove_nothing. }
  split; [apply Hdiff|]. split; [apply Hdiff|]. split; [done|]. split.
  - pose proof (run_cases py_repr cfg w true) as Hrun.
    by rewrite Hfetch, Hcache, Hguard in Hrun.
  - intros Hok.
    by apply (proj2 (run_written py_repr cfg w false new_cidrs Hfetch)).
Qed.

Lemma unchanged_feed_is_pushed_again_witness :
  fetch_zscaler_prefixes sample_repr
    (requests_get
       (sample_world sample_payload ["10.0.0.0/8"; "192.0.2.7/32"] []))
    (ZSCALER_JSON_URL sample_cfg) (ZSCALER_FAMILY sample_cfg)
  = Ok ["10.0.0.0/8"; "192.0.2.7/32"]
  ∧ (run sample_repr sample_cfg
       (sample_world sample_payload ["10.0.0.0/8"; "192.0.2.7/32"] [])
       false).2 = Ok 0
  ∧ omap written_list
      (run sample_repr sample_cfg
         (sample_world sample_payload ["10.0.0.0/8"; "192.0.2.7/32"] [])
         false).1
    = ["ZSCALER_BYPASS"].
Proof.
  assert (fetch_zscaler_prefixes sample_repr
            (requests_get
               (sample_world sample_payload ["10.0.0.0/8"; "192.0.2.7/32"] []))
            (ZSCALER_JSON_URL sample_cfg) (ZSCALER_FAMILY sample_cfg)
          = Ok ["10.0.0.0/8"; "192.0.2.7/32"]) as Hfetch
    by (vm_compute; reflexivity).
  assert ((run sample_repr sample_cfg
             (sample_world sample_payload ["10.0.0.0/8"; "192.0.2.7/32"] [])
             false).2 = Ok 0) as Hrun by (vm_compute; reflexivity).
  assert (len ["10.0.0.0/8"; "192.0.2.7/32"] < 2 ^ 53) as Hlen
    by (vm_compute; reflexivity).
  split; [exact Hfetch|]. split; [exact Hrun|].
  exact (proj2 (proj2 (proj2 (proj2
           (unchanged_feed_is_pushed_again sample_repr sample_cfg
              (sample_world sample_payload ["10.0.0.0/8"; "192.0.2.7/32"] [])
              _ Hfetch eq_refl Hlen eq_refl)))) Hrun).
Defined.

(** ** The [.env] loader *)

Lemma load_lines_keeps lines environ : environ ⊆ load_lines lines environ.
Proof.
  revert environ. induction lines as [|line rest IH]; intros environ; [done|].
  simpl. destruct (dotenv_assignment line) as [[k v]|]; [|apply IH].
  destruct (negb (PyStr.is_empty k)); simpl; [|apply IH].
  destruct (environ !! k) eqn:Hk; [apply IH|].
  unfold environ_set. destruct (_ || _); [done|].
  etrans; [|apply IH]. by apply insert_subseteq.
Qed.

Lemma load_lines_idemp lines environ :
  load_lines lines (load_lines lines environ) = load_lines lines environ.
Proof.
  revert environ. induction lines as [|line rest IH]; intros environ; [done|].
  simpl. destruct (dotenv_assignment line) as [[k v]|] eqn:Hline; [|apply IH].
  destruct (negb (PyStr.is_empty k)) eqn:Hne; simpl; [|apply IH].
  destruct (environ !! k) as [v0|] eqn:Hk.
  { pose proof (load_lines_keeps rest environ) as Hsub.
    rewrite (lookup_weaken _ _ _ _ Hk Hsub). apply IH. }
  unfold environ_set. destruct (_ || _) eqn:Hnul.
  { by rewrite Hk. }
  pose proof (load_lines_keeps rest (<[k:=v]> environ)) as Hsub.
  rewrite (lookup_weaken _ _ k v (lookup_insert_eq _ _ _) Hsub). apply IH.
Qed.

Lemma load_lines_origin lines environ k v :
  load_lines lines environ !! k = Some v →
  environ !! k = Some v
  ∨ (environ !! k = None ∧ k ≠ ""
     ∧ ∃ line, line ∈ lines ∧ dotenv_assignment line = Some (k, v)).
Proof.
  revert environ. induction lines as [|line rest IH]; intros environ; [by left|].
  assert (load_lines rest environ !! k = Some v →
          environ !! k = Some v
          ∨ (environ !! k = None ∧ k ≠ ""
             ∧ ∃ line', line' ∈ line :: rest
                        ∧ dotenv_assignment line' = Some (k, v))) as Hrest.
  { intros [H|(Hnone & Hk & line' & Hin & Hline')]%IH; [by left|].
    right. split; [done|]. split; [done|]. exists line'.
    split; [by apply list_elem_of_further|done]. }
  simpl. destruct (dotenv_assignment line) as [[k' v']|] eqn:Hline; [|done].
  destruct (negb (PyStr.is_empty k')) eqn:Hne; simpl; [|done].
  destruct (environ !! k') eqn:Hk'; [done|].
  unfold environ_set. destruct (_ || _); [by left|].
  intros [H|(Hnone & Hk & line' & Hin & Hline')]%IH.
  - destruct (decide (k' = k)) as [->|Hneq].
    + rewrite lookup_insert_eq in H. injection H as ->.
      right. split; [done|]. split.
      { intros ->. done. }
      exists line. split; [apply list_elem_of_here|done].
    + rewrite lookup_insert_ne in H by done. by left.
  - right. destruct (decide (k' = k)) as [->|Hneq].
    { by rewrite lookup_insert_eq in Hnone. }
    rewrite lookup_insert_ne in Hnone by done.
    split; [done|]. split; [done|]. exists line'.
    split; [by apply list_elem_of_further|done].
Qed.

(** The first line that assigns a name sets it, when nothing before it
    has ended the loading. *)
Lemma load_lines_first before line after environ k v :
  dotenv_assignment line = Some (k, v) →
  k ≠ "" →
  environ !! k = None →
  (∀ l v', l ∈ before → dotenv_assignment l ≠ Some (k, v')) →
  (∀ l k' v', l ∈ before ++ [line] → dotenv_assignment l = Some (k', v') →
     PyStr.contains NUL k' = false ∧ PyStr.contains NUL v' = false) →
  load_lines (before ++ line :: after) environ !! k = Some v.
Proof.
  intros Hline Hk. revert environ.
  induction before as [|l before IH]; intros environ Hnone Hfirst Hnul.
  - simpl. rewrite Hline, Hnone.
    assert (PyStr.is_empty k = false) as ->.
    { destruct (PyStr.is_empty k) eqn:H; [|done]. by apply is_empty_true in H. }
    simpl. unfold environ_set.
    destruct (Hnul line k v) as [-> ->]; [apply list_elem_of_here|done|].
    simpl. apply (lookup_weaken (<[k:=v]> environ)).
    + apply lookup_insert_eq.
    + apply load_lines_keeps.
  - assert (∀ environ', environ' !! k = None →
              load_lines (before ++ line :: after) environ' !! k = Some v)
      as Hnext.
    { intros environ' Hnone'. apply IH; [done| |].
      - intros l' v' Hin. apply Hfirst. by apply list_elem_of_further.
      - intros l' k' v' Hin. apply Hnul. by apply list_elem_of_further. }
    simpl. destruct (dotenv_assignment l) as [[k' v']|] eqn:Hl; [|by apply Hnext].
    destruct (negb (PyStr.is_empty k')); simpl; [|by apply Hnext].
    destruct (environ !! k') eqn:Hk'; [by apply Hnext|].
    unfold environ_set.
    destruct (Hnul l k' v') as [-> ->]; [apply list_elem_of_here|done|].
    simpl. apply Hnext. rewrite lookup_insert_ne; [done|].
    intros ->. by apply (Hfirst l v'); [apply list_elem_of_here|].
Qed.

(** X12: the [.env] loader.  It never changes or removes a variable
    that is already set; whatever else is set at the end was assigned
    by a line of the file, under a name that is not empty; loading the
    same file twice gives what loading it once gives; and of several
    lines that assign a name, the first sets it, when the name was not
    set and no line up to there holds a NUL character. *)
Theorem load_dotenv_keeps_environment (file : option (list string))
    (environ : gmap string string) :
  (∀ k v, environ !! k = Some v → load_dotenv file environ !! k = Some v)
  ∧ (∀ k v, load_dotenv file environ !! k = Some v →
       environ !! k = Some v
       ∨ (environ !! k = None ∧ k ≠ ""
          ∧ ∃ lines line, file = Some lines ∧ line ∈ lines
                          ∧ dotenv_assignment line = Some (k, v)))
  ∧ load_dotenv file (load_dotenv file environ) = load_dotenv file environ
  ∧ (∀ before line after k v,
       file = Some (before ++ line :: after) →
       dotenv_assignment line = Some (k, v) →
       k ≠ "" →
       environ !! k = None →
       (∀ l v', l ∈ before → dotenv_assignment l ≠ Some (k, v')) →
       (∀ l k' v', l ∈ before ++ [line] →
          dotenv_assignment l = Some (k', v') →
          PyStr.contains NUL k' = false ∧ PyStr.contains NUL v' = false) →
       load_dotenv file environ !! k = Some v).
Proof.
  split; [|split; [|split]].
  - intros k v Hk. destruct file as [lines|]; [|done]. simpl.
    by apply (lookup_weaken environ), load_lines_keeps.
  - intros k v. destruct file as [lines|]; [|by left]. simpl.
    intros [H|(Hnone & Hk & line & Hin & Hline)]%load_lines_origin; [by left|].
    right. split; [done|]. split; [done|]. by exists lines, line.
  - destruct file as [lines|]; [|done]. apply load_lines_idemp.
  - intros before line after k v -> Hline Hk Hnone Hfirst Hnul. simpl.
    by apply load_lines_first.
Qed.

Lemma load_dotenv_keeps_environment_witness :
  dotenv_assignment "DPL_NAME = ZSCALER_TEST " = Some ("DPL_NAME", "ZSCALER_TEST")
  ∧ load_dotenv
      (Some ["# lists"; "DPL_NAME = ZSCALER_TEST "; "DPL_NAME=OTHER"])
      {[ "HOME" := "/root" ]} !! "DPL_NAME"
    = Some "ZSCALER_TEST".
Proof.
  assert (dotenv_assignment "DPL_NAME = ZSCALER_TEST "
          = Some ("DPL_NAME", "ZSCALER_TEST")) as Hline
    by (vm_compute; reflexivity).
  split; [exact Hline|].
  apply (proj2 (proj2 (proj2
           (load_dotenv_keeps_environment
              (Some ["# lists"; "DPL_NAME = ZSCALER_TEST "; "DPL_NAME=OTHER"])
              {[ "HOME" := "/root" ]})))
           ["# lists"] "DPL_NAME = ZSCALER_TEST " ["DPL_NAME=OTHER"]
           "DPL_NAME" "ZSCALER_TEST" eq_refl Hline).
  - discriminate.
  - apply lookup_singleton_ne. discriminate.
  - intros l v' ->%list_elem_of_singleton. vm_compute. discriminate.
  - intros l k' v' [->|[->|[]%elem_of_nil]%elem_of_cons]%elem_of_cons.
    + vm_compute. discriminate.
    + vm_compute. intros [= <- <-]. done.
Defined.

(** ** Settings compared with a fixed text *)

Lemma code_inj (x y : ascii) : PyStr.code x = PyStr.code y → x = y.
Proof.
  unfold PyStr.code. intros Hxy%N2Z.inj.
  rewrite <- (ascii_N_embedding x), <- (ascii_N_embedding y). by rewrite Hxy.
Qed.

Lemma lower_char_letter (a c : ascii) :
  97 ≤ PyStr.code a ≤ 122 →
  Env.lower_char c = a ↔ c = a ∨ PyStr.code c = PyStr.code a - 32.
Proof.
  intros Ha. unfold Env.lower_char. pose proof code_inj as Hinj.
  assert (0 ≤ PyStr.code c < 256) as Hc.
  { unfold PyStr.code. pose proof (N_ascii_bounded c). lia. }
  assert (∀ n, 0 ≤ n < 256 → PyStr.code (ascii_of_N (Z.to_N n)) = n) as Hcode.
  { intros n Hn. unfold PyStr.code. rewrite N_ascii_embedding; lia. }
  destruct (_ || _) eqn:Hup.
  - split.
    + intros <-. right. rewrite Hcode; [lia|].
      apply orb_true_iff in Hup as [Hup|Hup].
      * apply andb_true_iff in Hup as [?%Z.leb_le ?%Z.leb_le]. lia.
      * apply andb_true_iff in Hup as [Hup _].
        apply andb_true_iff in Hup as [?%Z.leb_le ?%Z.leb_le]. lia.
    + intros [->|Hca].
      * exfalso. apply orb_true_iff in Hup as [Hup|Hup].
        -- apply andb_true_iff in Hup as [?%Z.leb_le ?%Z.leb_le]. lia.
        -- apply andb_true_iff in Hup as [Hup _].
           apply andb_true_iff in Hup as [?%Z.leb_le ?%Z.leb_le]. lia.
      * apply Hinj. rewrite Hcode by lia. lia.
  - split; [by left|]. intros [->|Hca]; [done|]. exfalso.
    apply orb_false_iff in Hup as [Hup _].
    apply andb_false_iff in Hup as [?%Z.leb_gt|?%Z.leb_gt]; lia.
Qed.

Lemma lower_spells t s : Env.lower s = t ↔ spells t s.
Proof.
  revert s. induction t as [|a t IH]; intros [|c s]; simpl;
    try done; try (split; [discriminate|done]).
  rewrite <- IH. split; [by intros [= -> ->]|by intros [-> ->]].
Qed.

(** X13: two settings.  TLS verification is on when VERIFY_TLS is not
    set, or is set to the word true in any case of its four letters,
    with nothing before or after; any other value, such as 1 or yes,
    turns it off.  The family is the value of ZSCALER_FAMILY in lower
    case, "ipv4" when the variable is not set, so "ipv4" and "ipv6" are
    recognised in any case of their letters. *)
Theorem settings_by_spelling (environ : gmap string string) :
  (Env.VERIFY_TLS environ = true
   ↔ match environ !! "VERIFY_TLS" with
     | None => True
     | Some s =>
         ∃ c1 c2 c3 c4,
           s = String c1 (String c2 (String c3 (String c4 "")))
           ∧ (c1 = "t" ∨ c1 = "T")%char ∧ (c2 = "r" ∨ c2 = "R")%char
           ∧ (c3 = "u" ∨ c3 = "U")%char ∧ (c4 = "e" ∨ c4 = "E")%char
     end)
  ∧ (environ !! "ZSCALER_FAMILY" = None → Env.ZSCALER_FAMILY environ = "ipv4")
  ∧ (∀ s, environ !! "ZSCALER_FAMILY" = Some s →
       (Env.ZSCALER_FAMILY environ = "ipv4" ↔ spells "ipv4" s)
       ∧ (Env.ZSCALER_FAMILY environ = "ipv6" ↔ spells "ipv6" s))
  ∧ (∀ s, s ∈ ["1"; "yes"; "on"; "True "; ""] →
       environ !! "VERIFY_TLS" = Some s → Env.VERIFY_TLS environ = false).
Proof.
  assert (∀ (a up c : ascii),
            97 ≤ PyStr.code a ≤ 122 → PyStr.code up = PyStr.code a - 32 →
            Env.lower_char c = a ↔ c = a ∨ c = up) as Hletter.
  { intros a up c Ha Hup. rewrite lower_char_letter by lia.
    split; (intros [?|H]; [by left|right]).
    - apply code_inj. lia.
    - subst. lia. }
  split; [|split; [|split]].
  - unfold Env.VERIFY_TLS, Env.getenv.
    destruct (environ !! "VERIFY_TLS") as [s|]; [|done].
    rewrite String.eqb_eq, lower_spells.
    destruct s as [|c1 [|c2 [|c3 [|c4 [|c5 s]]]]]; simpl;
      try (split; [tauto|by intros (? & ? & ? & ? & [=] & _)]).
    rewrite (Hletter "t"%char "T"%char), (Hletter "r"%char "R"%char),
      (Hletter "u"%char "U"%char), (Hletter "e"%char "E"%char)
      by (vm_compute; split; congruence || reflexivity).
    split.
    + intros (? & ? & ? & ? & _). by exists c1, c2, c3, c4.
    + intros (? & ? & ? & ? & [= <- <- <- <-] & ? & ? & ? & ?). tauto.
  - unfold Env.ZSCALER_FAMILY, Env.getenv. by intros ->.
  - intros s Hs. unfold Env.ZSCALER_FAMILY, Env.getenv. rewrite Hs.
    split; apply lower_spells.
  - intros s Hin Hs. unfold Env.VERIFY_TLS, Env.getenv. rewrite Hs.
    repeat (apply elem_of_cons in Hin as [->|Hin]; [by vm_compute|]).
    by apply elem_of_nil in Hin.
Qed.

(** ** The answer to a create request *)



(** ** The text of an IPv6 address, read again *)

Lemma int16_go_app a s t :
  PyStr.int16_go a (s +:+ t) = PyStr.int16_go (PyStr.int16_go a s) t.
Proof.
  revert a. induction s as [|c s IH]; intros a; [done|].
  rewrite string_app_cons. simpl. apply IH.
Qed.

Lemma digit_char_hex d :
  0 ≤ d < 16 → PyStr.hex_val (PyStr.digit_char d) = Some d.
Proof.
  intros Hd.
  assert (d = 0 ∨ d = 1 ∨ d = 2 ∨ d = 3 ∨ d = 4 ∨ d = 5 ∨ d = 6 ∨ d = 7
          ∨ d = 8 ∨ d = 9 ∨ d = 10 ∨ d = 11 ∨ d = 12 ∨ d = 13 ∨ d = 14
          ∨ d = 15) as Hcases by lia.
  repeat (destruct Hcases as [->|Hcases]; [by vm_compute|]).
  subst d. by vm_compute.
Qed.

(** The hexadecimal digits of [n] read back as [n]. *)
Lemma digits_go_hex fuel n :
  0 ≤ n < 2 ^ Z.of_nat fuel →
  PyStr.int16_go 0 (PyStr.digits_go 16 fuel n "") = n
  ∧ PyStr.all_chars PyStr.is_hex_digit (PyStr.digits_go 16 fuel n "") = true.
Proof.
  revert n. induction fuel as [|fuel IH]; intros n Hn.
  - simpl in *. split; [lia|done].
  - rewrite Nat2Z.inj_succ, Z.pow_succ_r in Hn by lia.
    cbn [PyStr.digits_go]. pose proof (Z.div_mod n 16 ltac:(lia)) as Hdiv.
    pose proof (Z.mod_pos_bound n 16 ltac:(lia)) as Hmod.
    pose proof (digit_char_hex (n mod 16) Hmod) as Hval.
    destruct (n / 16 =? 0) eqn:Hq.
    + apply Z.eqb_eq in Hq. cbn [PyStr.int16_go PyStr.all_chars].
      unfold PyStr.is_hex_digit. rewrite Hval. split; [lia|done].
    + apply Z.eqb_neq in Hq. rewrite digits_go_acc.
      assert (0 ≤ n / 16 < 2 ^ Z.of_nat fuel) as Hrange.
      { split; [apply Z.div_pos; lia|].
        apply Z.div_lt_upper_bound; lia. }
      destruct (IH (n / 16) Hrange) as [IHval IHdig].
      rewrite int16_go_app, all_chars_app, IHval, IHdig.
      cbn [PyStr.int16_go PyStr.all_chars].
      unfold PyStr.is_hex_digit. rewrite Hval. split; [lia|done].
Qed.

Lemma digits_go_length fuel n (k : nat) :
  0 ≤ n < 16 ^ Z.of_nat k → (1 ≤ k)%nat →
  (String.length (PyStr.digits_go 16 fuel n "") ≤ k)%nat.
Proof.
  revert n k. induction fuel as [|fuel IH]; intros n k Hn Hk.
  - simpl. lia.
  - cbn [PyStr.digits_go]. destruct (n / 16 =? 0) eqn:Hq; [simpl; lia|].
    apply Z.eqb_neq in Hq. rewrite digits_go_acc, string_app_length. simpl.
    destruct k as [|k]; [lia|].
    rewrite Nat2Z.inj_succ, Z.pow_succ_r in Hn by lia.
    assert (0 ≤ n / 16 < 16 ^ Z.of_nat k) as Hrange.
    { split; [apply Z.div_pos; lia|]. apply Z.div_lt_upper_bound; lia. }
    assert (1 ≤ k)%nat.
    { destruct k; [|lia]. simpl in Hrange. lia. }
    specialize (IH (n / 16) k Hrange ltac:(lia)). lia.
Qed.

Lemma digits_not_empty b n : PyStr.is_empty (PyStr.digits b n) = false.
Proof.
  unfold PyStr.digits. cbn [PyStr.digits_go]. destruct (_ =? 0); [done|].
  rewrite digits_go_acc. by destruct (PyStr.digits_go _ _ _ _).
Qed.

(** The text of a hextet: [parse_hextet] reads it back; it is made of
    hexadecimal digits, and is "0" only for 0. *)
Lemma hextet_text v :
  0 ≤ v < 65536 →
  ipaddress.parse_hextet (PyStr.hex_of_int v) = Ok v
  ∧ PyStr.all_chars PyStr.is_hex_digit (PyStr.hex_of_int v) = true
  ∧ PyStr.is_empty (PyStr.hex_of_int v) = false
  ∧ (PyStr.hex_of_int v = "0" ↔ v = 0).
Proof.
  intros Hv.
  assert (0 ≤ v < 2 ^ Z.of_nat (S (Z.to_nat (Z.log2 v)))) as Hfuel.
  { split; [lia|].
    rewrite Nat2Z.inj_succ, Z2Nat.id by apply Z.log2_nonneg.
    destruct (decide (v = 0)) as [->|Hne]; [done|].
    apply Z.log2_spec. lia. }
  destruct (digits_go_hex _ v Hfuel) as [Hval Hhex].
  fold (PyStr.digits 16 v) in Hval, Hhex. fold (PyStr.hex_of_int v) in Hval, Hhex.
  pose proof (digits_not_empty 16 v) as Hne. fold (PyStr.hex_of_int v) in Hne.
  assert (String.length (PyStr.hex_of_int v) ≤ 4)%nat as Hlen.
  { apply (digits_go_length _ v 4); [|lia]. change (16 ^ Z.of_nat 4) with 65536.
    lia. }
  split; [|split; [done|split; [done|]]].
  - unfold ipaddress.parse_hextet. rewrite Hhex, Hne. simpl.
    destruct (4 <? _) eqn:H4; [apply Z.ltb_lt in H4; lia|].
    unfold PyStr.int16. by rewrite Hval.
  - split.
    + intros H0. rewrite H0 in Hval. by vm_compute in Hval.
    + by intros ->.
Qed.

Lemma split_join sep l :
  l ≠ [] →
  Forall (λ p, PyStr.contains sep p = false) l →
  PyStr.split sep (PyStr.join (String sep "") l) = l.
Proof.
  intros Hne Hall. induction Hall as [|a l Ha Hall IH]; [done|].
  destruct l as [|b l].
  - simpl. by apply split_no_sep.
  - change (PyStr.join (String sep "") (a :: b :: l))
      with (a +:+ String sep (PyStr.join (String sep "") (b :: l))).
    rewrite split_app_sep by done. f_equal. by apply IH.
Qed.

Lemma is_hex_digit_plain c :
  PyStr.is_hex_digit c = true →
  c ≠ ":"%char ∧ c ≠ "."%char ∧ c ≠ "%"%char ∧ c ≠ "/"%char
  ∧ PyStr.isspace c = false.
Proof.
  intros Hc.
  assert (∀ d : ascii, PyStr.is_hex_digit d = false → c ≠ d) as Hne.
  { intros d Hd ->. congruence. }
  repeat split; try (apply Hne; reflexivity).
  unfold PyStr.is_hex_digit, PyStr.hex_val in Hc. unfold PyStr.isspace.
  destruct ((48 <=? PyStr.code c) && (PyStr.code c <=? 57)) eqn:H1.
  { apply andb_true_iff in H1 as [?%Z.leb_le ?%Z.leb_le].
    repeat (apply orb_false_iff; split);
      try apply andb_false_iff; try (apply Z.eqb_neq; lia);
      try (left; apply Z.leb_gt; lia); try (right; apply Z.leb_gt; lia). }
  destruct ((65 <=? PyStr.code c) && (PyStr.code c <=? 70)) eqn:H2.
  { apply andb_true_iff in H2 as [?%Z.leb_le ?%Z.leb_le].
    repeat (apply orb_false_iff; split);
      try apply andb_false_iff; try (apply Z.eqb_neq; lia);
      try (left; apply Z.leb_gt; lia); try (right; apply Z.leb_gt; lia). }
  destruct ((97 <=? PyStr.code c) && (PyStr.code c <=? 102)) eqn:H3; [|done].
  apply andb_true_iff in H3 as [?%Z.leb_le ?%Z.leb_le].
  repeat (apply orb_false_iff; split);
    try apply andb_false_iff; try (apply Z.eqb_neq; lia);
    try (left; apply Z.leb_gt; lia); try (right; apply Z.leb_gt; lia).
Qed.

Lemma hex_text_no_char h c :
  PyStr.all_chars PyStr.is_hex_digit h = true →
  PyStr.is_hex_digit c = false →
  PyStr.contains c h = false.
Proof. intros Hh Hc. by apply (all_chars_contains PyStr.is_hex_digit). Qed.

Lemma hextet_text_ok_facts h :
  hextet_text_ok h →
  PyStr.is_empty h = false ∧ PyStr.contains ":" h = false
  ∧ PyStr.contains "." h = false.
Proof.
  intros (Hne & Hhex). split; [done|].
  split; by apply hex_text_no_char.
Qed.

Lemma join_not_empty c a b l :
  PyStr.is_empty (PyStr.join (String c "") (a :: b :: l)) = false.
Proof. by destruct a. Qed.

Ltac hextet_facts :=
  repeat match goal with
  | H : Forall hextet_text_ok (_ :: _) |- _ =>
      apply Forall_cons in H as [? H]
  | H : Forall hextet_text_ok [] |- _ => clear H
  | H : hextet_text_ok ?h |- _ =>
      let H1 := fresh "Hne" in let H2 := fresh "Hcolon" in
      let H3 := fresh "Hdot" in
      destruct (hextet_text_ok_facts h H) as (H1 & H2 & H3); clear H
  end.

Ltac v6_facts :=
  change (PyStr.is_empty "") with true;
  change (PyStr.contains "." "") with false;
  repeat match goal with
  | H : PyStr.is_empty ?h = false |- context [PyStr.is_empty ?h] =>
      rewrite H
  | H : PyStr.contains "." ?h = false |- context [PyStr.contains "." ?h] =>
      rewrite H
  end.

Ltac v6_step :=
  cbn [List.last app length]; v6_facts;
  cbn [mbind res_bind removelast tail hd ipaddress.find_skip_index];
  v6_facts;
  repeat (progress (
    cbv -[ipaddress.parse_hextets Z.shiftl PyStr.is_empty PyStr.contains];
    v6_facts)).

Ltac v6_parts_case :=
  let Hhi := fresh "Hhi" in let Hr := fresh "Hr" in
  intros Hhi Hr; hextet_facts;
  cbv -[ipaddress.parse_hextets Z.shiftl] in Hr;
  unfold ipaddress.v6_ip_int_from_string, compressed_parts;
  cbn [app];
  rewrite join_not_empty;
  (rewrite split_join; [|done|repeat constructor; done]);
  v6_step; rewrite Hhi, Hr; reflexivity.

(** A compressed address is read as the hextets before the run, as many
    zero hextets as were left out, and the hextets after it. *)
Lemma v6_parse_compressed A B hi r :
  Forall hextet_text_ok A → Forall hextet_text_ok B →
  (length A + length B ≤ 6)%nat →
  ipaddress.parse_hextets 0 A = Ok hi →
  ipaddress.parse_hextets
    (Z.shiftl hi (16 * (8 - Z.of_nat (length A) - Z.of_nat (length B)))) B
  = Ok r →
  ipaddress.v6_ip_int_from_string (PyStr.join ":" (compressed_parts A B))
  = Ok r.
Proof.
  intros HA HB Hlen.
  destruct A as [|a1 [|a2 [|a3 [|a4 [|a5 [|a6 [|a7 A]]]]]]];
    destruct B as [|b1 [|b2 [|b3 [|b4 [|b5 [|b6 [|b7 B]]]]]]];
    simpl in Hlen; try lia; v6_parts_case.
Qed.

(** Eight hextets, none left out. *)
Lemma v6_parse_plain hs r :
  Forall hextet_text_ok hs → length hs = 8%nat →
  ipaddress.parse_hextets 0 hs = Ok r →
  ipaddress.v6_ip_int_from_string (PyStr.join ":" hs) = Ok r.
Proof.
  intros Hhs Hlen Hr.
  destruct hs as [|h1 [|h2 [|h3 [|h4 [|h5 [|h6 [|h7 [|h8 [|h9 hs]]]]]]]]];
    try discriminate Hlen.
  hextet_facts. unfold ipaddress.v6_ip_int_from_string.
  rewrite join_not_empty.
  rewrite split_join; [|done|repeat constructor; done].
  v6_step. rewrite Hr. cbn [ipaddress.parse_hextets].
  by rewrite Z.shiftl_0_r.
Qed.

Lemma parse_hextets_app acc l1 l2 :
  ipaddress.parse_hextets acc (l1 ++ l2)
  = (r ← ipaddress.parse_hextets acc l1; ipaddress.parse_hextets r l2).
Proof.
  revert acc. induction l1 as [|h l1 IH]; intros acc; [done|].
  simpl. destruct (ipaddress.parse_hextet h) as [v|e]; [|done].
  simpl. apply IH.
Qed.

Lemma parse_hextets_zeros acc (k : nat) :
  ipaddress.parse_hextets acc (replicate k "0")
  = Ok (Z.shiftl acc (16 * Z.of_nat k)).
Proof.
  revert acc. induction k as [|k IH]; intros acc.
  - simpl. by rewrite Z.shiftl_0_r.
  - cbn [replicate ipaddress.parse_hextets].
    change (ipaddress.parse_hextet "0") with (Ok (A := Z) 0).
    cbn [mbind res_bind]. rewrite Z.lor_0_r, IH.
    rewrite Z.shiftl_shiftl by lia. do 2 f_equal. lia.
Qed.

(** The scan keeps what it knows. *)
Lemma compress_scan_inv pre rest st :
  scan_inv (pre ++ rest) (len pre) st →
  scan_inv (pre ++ rest) (len pre + len rest)
    (ipaddress.compress_scan rest (len pre) st).
Proof.
  revert pre st. induction rest as [|h rest IH]; intros pre st Hinv.
  { simpl. unfold len at 2. simpl. by rewrite Z.add_0_r. }
  assert (len (pre ++ [h]) = len pre + 1) as Hlen.
  { unfold len. rewrite length_app. simpl. lia. }
  assert (len pre + len (h :: rest) = len (pre ++ [h]) + len rest) as ->.
  { rewrite Hlen. unfold len. simpl. lia. }
  assert ((pre ++ h :: rest) !! Z.to_nat (len pre) = Some h) as Hh.
  { unfold len. rewrite Nat2Z.id. by rewrite list_lookup_middle. }
  cbn [ipaddress.compress_scan]. destruct st as [[[bs bl] ds] dl].
  rewrite <- Hlen. rewrite (cons_middle h pre rest), app_assoc.
  apply IH. rewrite <- app_assoc, <- cons_middle. rewrite Hlen.
  destruct Hinv as (Hbl & Hbest & Hdl & Hds0 & Hcur).
  destruct (String.eqb h "0") eqn:Hzero.
  - apply String.eqb_eq in Hzero. subst h.
    assert ((if ds =? -1 then len pre else ds) = len pre + 1 - (dl + 1)
            ∧ 0 ≤ (if ds =? -1 then len pre else ds)) as [Hds' Hds'0].
    { destruct (decide (dl = 0)) as [->|Hne].
      - rewrite (Hds0 eq_refl). simpl. unfold len. lia.
      - destruct (Hcur ltac:(lia)) as (-> & ? & _).
        destruct (len pre - dl =? -1) eqn:Heq; [apply Z.eqb_eq in Heq; lia|].
        lia. }
    assert (∀ j, (if ds =? -1 then len pre else ds) ≤ j < len pre + 1 →
              (pre ++ "0" :: rest) !! Z.to_nat j = Some "0") as Hzeros.
    { intros j Hj. destruct (decide (j = len pre)) as [->|Hne]; [done|].
      destruct (decide (dl = 0)) as [->|Hdlne].
      - rewrite (Hds0 eq_refl) in Hj. simpl in Hj. lia.
      - destruct (Hcur ltac:(lia)) as (Hds & ? & Hz). apply Hz.
        rewrite Hds in Hj.
        destruct (len pre - dl =? -1) eqn:Heq; [apply Z.eqb_eq in Heq; lia|].
        lia. }
    destruct (bl <? dl + 1) eqn:Hlt.
    + unfold scan_inv. split; [lia|]. split.
      { intros _. split; [done|]. split; [lia|]. intros j Hj. apply Hzeros. lia. }
      split; [lia|]. split; [lia|]. intros _. done.
    + unfold scan_inv. split; [done|]. split.
      { intros Hpos. destruct (Hbest Hpos) as (? & ? & ?).
        split; [done|]. split; [lia|done]. }
      split; [lia|]. split; [lia|]. intros _. done.
  - unfold scan_inv. split; [done|]. split.
    { intros Hpos. destruct (Hbest Hpos) as (? & ? & ?).
      split; [done|]. split; [lia|done]. }
    split; [done|]. split; [done|]. lia.
Qed.

(** [_compress_hextets] leaves the hextets as they are, or leaves out a
    run of two or more "0". *)
Lemma compress_hextets_cases hs :
  hs ≠ [] →
  ipaddress.compress_hextets hs = hs
  ∨ ∃ bs bl : nat,
      (2 ≤ bl)%nat ∧ (bs + bl ≤ length hs)%nat
      ∧ take bl (drop bs hs) = replicate bl "0"
      ∧ ipaddress.compress_hextets hs
        = compressed_parts (take bs hs) (drop (bs + bl) hs).
Proof.
  intros Hne. unfold ipaddress.compress_hextets.
  pose proof (compress_scan_inv [] hs (-1, 0, -1, 0)) as Hinv.
  simpl in Hinv. change (len []) with 0 in Hinv. rewrite Z.add_0_l in Hinv.
  specialize (Hinv ltac:(unfold scan_inv; lia)).
  destruct (ipaddress.compress_scan hs 0 (-1, 0, -1, 0))
    as [[[bs bl] ds] dl].
  destruct Hinv as (Hbl & Hbest & _).
  destruct (1 <? bl) eqn:Hcomp; [|by left]. apply Z.ltb_lt in Hcomp.
  destruct (Hbest ltac:(lia)) as (Hbs & Hend & Hzeros). right.
  exists (Z.to_nat bs), (Z.to_nat bl). unfold len in Hend.
  split; [lia|]. split; [lia|]. split.
  { apply list_eq. intros i. rewrite lookup_take, lookup_drop.
    destruct (decide (i < Z.to_nat bl)%nat) as [Hi|Hi].
    - rewrite lookup_replicate_2 by done.
      rewrite <- (Hzeros (bs + Z.of_nat i)) by lia. f_equal. lia.
    - symmetry. apply lookup_replicate_None. lia. }
  assert (Z.to_nat (bs + bl) = (Z.to_nat bs + Z.to_nat bl)%nat) as Hbe by lia.
  rewrite Hbe. unfold compressed_parts.
  assert (take (Z.to_nat bs) (if bs + bl =? Z.of_nat (length hs)
                              then hs ++ [""] else hs)
          = take (Z.to_nat bs) hs) as ->.
  { destruct (_ =? _); [|done]. apply take_app_le. lia. }
  assert (drop (Z.to_nat bs + Z.to_nat bl)
            (if bs + bl =? Z.of_nat (length hs) then hs ++ [""] else hs)
          = drop (Z.to_nat bs + Z.to_nat bl) hs
            ++ match drop (Z.to_nat bs + Z.to_nat bl) hs with
               | [] => [""]
               | _ => []
               end) as ->.
  { destruct (bs + bl =? Z.of_nat (length hs)) eqn:Heq.
    - apply Z.eqb_eq in Heq. rewrite drop_app_le by lia.
      rewrite drop_ge by lia. done.
    - apply Z.eqb_neq in Heq.
      destruct (drop (Z.to_nat bs + Z.to_nat bl) hs) eqn:Hd.
      + apply (f_equal length) in Hd. rewrite length_drop in Hd.
        simpl in Hd. lia.
      + by rewrite app_nil_r. }
  destruct (bs =? 0) eqn:Hbs0.
  - apply Z.eqb_eq in Hbs0. subst bs. done.
  - apply Z.eqb_neq in Hbs0.
    destruct (take (Z.to_nat bs) hs) eqn:Ht; [|done].
    apply (f_equal length) in Ht. rewrite length_take in Ht. simpl in Ht.
    destruct hs; [done|]. simpl in Ht. lia.
Qed.

(** The text that [_compress_hextets] gives for eight hextets is read
    as those hextets. *)
Lemma v6_text_parse hs ip :
  length hs = 8%nat →
  Forall hextet_text_ok hs →
  ipaddress.parse_hextets 0 hs = Ok ip →
  ipaddress.v6_ip_int_from_string
    (PyStr.join ":" (ipaddress.compress_hextets hs)) = Ok ip.
Proof.
  intros Hlen Hok Hparse.
  destruct (compress_hextets_cases hs) as [->|(bs & bl & Hbl & Hend & Hzeros & ->)].
  { by destruct hs. }
  { by apply v6_parse_plain. }
  assert (hs = take bs hs ++ replicate bl "0" ++ drop (bs + bl) hs) as Hsplit.
  { rewrite <- Hzeros, <- drop_drop, take_drop, take_drop. done. }
  rewrite Hsplit in Hparse. rewrite parse_hextets_app in Hparse.
  destruct (ipaddress.parse_hextets 0 (take bs hs)) as [hi|e] eqn:Hhi;
    [|done].
  cbn [mbind res_bind] in Hparse.
  rewrite parse_hextets_app, parse_hextets_zeros in Hparse.
  cbn [mbind res_bind] in Hparse.
  apply (v6_parse_compressed _ _ hi).
  - by apply Forall_take.
  - by apply Forall_drop.
  - rewrite length_take, length_drop. lia.
  - done.
  - rewrite length_take, length_drop. rewrite <- Hparse. do 2 f_equal. lia.
Qed.

Lemma lor_shiftl_add a v :
  0 ≤ v < 65536 → Z.lor (Z.shiftl a 16) v = a * 65536 + v.
Proof.
  intros Hv. rewrite Z.shiftl_mul_pow2 by lia. change (2 ^ 16) with 65536.
  rewrite <- Z.lxor_lor, <- Z.add_nocarry_lxor; [done| |].
  - apply Z.bits_inj_0. intros n. rewrite Z.land_spec.
    destruct (Z.le_gt_cases 16 n) as [Hn|Hn].
    + rewrite <- (Z.mod_small v 65536) by done.
      change 65536 with (2 ^ 16) at 2.
      rewrite (Z.mod_pow2_bits_high v 16 n) by lia. apply andb_false_r.
    + destruct (Z.neg_nonneg_cases n) as [Hneg|Hpos].
      * by rewrite Z.testbit_neg_r.
      * change 65536 with (2 ^ 16).
        by rewrite Z.mul_pow2_bits_low by lia.
  - apply Z.bits_inj_0. intros n. rewrite Z.land_spec.
    destruct (Z.le_gt_cases 16 n) as [Hn|Hn].
    + rewrite <- (Z.mod_small v 65536) by done.
      change 65536 with (2 ^ 16) at 2.
      rewrite (Z.mod_pow2_bits_high v 16 n) by lia. apply andb_false_r.
    + destruct (Z.neg_nonneg_cases n) as [Hneg|Hpos].
      * by rewrite Z.testbit_neg_r.
      * change 65536 with (2 ^ 16).
        by rewrite Z.mul_pow2_bits_low by lia.
Qed.

Lemma parse_hextets_values acc vs :
  Forall (λ v, 0 ≤ v < 65536) vs →
  ipaddress.parse_hextets acc (PyStr.hex_of_int <$> vs)
  = Ok (fold_left (λ a v, a * 65536 + v) vs acc).
Proof.
  intros Hvs. revert acc. induction Hvs as [|v vs Hv _ IH]; intros acc; [done|].
  cbn [fmap list_fmap ipaddress.parse_hextets fold_left].
  destruct (hextet_text v Hv) as (-> & _). cbn [mbind res_bind].
  rewrite lor_shiftl_add by done. apply IH.
Qed.

Lemma hextets_range ip : Forall (λ v, 0 ≤ v < 65536) (hextets ip).
Proof.
  unfold hextets. apply Forall_forall. intros v Hv.
  apply list_elem_of_In, in_map_iff in Hv as (k & <- & _).
  change 65535 with (Z.ones 16). rewrite Z.land_ones by lia.
  change (2 ^ 16) with 65536. apply Z.mod_pos_bound. lia.
Qed.

Lemma hextets_value ip :
  0 ≤ ip < 2 ^ 128 →
  fold_left (λ a v, a * 65536 + v) (hextets ip) 0 = ip.
Proof.
  intros Hip. unfold hextets. cbn [map fold_left].
  change 65535 with (Z.ones 16). rewrite !Z.land_ones, !Z.shiftr_div_pow2 by lia.
  change (16 * 7) with 112. change (16 * 6) with 96. change (16 * 5) with 80.
  change (16 * 4) with 64. change (16 * 3) with 48. change (16 * 2) with 32.
  change (16 * 1) with 16. change (16 * 0) with 0.
  change (2 ^ 112) with 5192296858534827628530496329220096.
  change (2 ^ 96) with 79228162514264337593543950336.
  change (2 ^ 80) with 1208925819614629174706176.
  change (2 ^ 64) with 18446744073709551616.
  change (2 ^ 48) with 281474976710656.
  change (2 ^ 32) with 4294967296.
  change (2 ^ 16) with 65536. change (2 ^ 0) with 1.
  change (2 ^ 128) with 340282366920938463463374607431768211456 in Hip.
  Z.to_euclidean_division_equations. lia.
Qed.

(** [IPv6Address(str(IPv6Address(ip)))._ip] is [ip] again. *)
Lemma v6_address_text ip :
  0 ≤ ip < 2 ^ 128 →
  ipaddress.v6_ip_int_from_string (ipaddress.v6_string_from_ip_int ip) = Ok ip.
Proof.
  intros Hip. unfold ipaddress.v6_string_from_ip_int.
  change (map _ [7; 6; 5; 4; 3; 2; 1; 0]) with (PyStr.hex_of_int <$> hextets ip).
  apply v6_text_parse.
  - done.
  - apply Forall_fmap, Forall_forall. intros v Hv.
    pose proof (hextets_range ip) as Hr. rewrite Forall_forall in Hr.
    destruct (hextet_text v (Hr v Hv)) as (_ & ? & ? & _). by split.
  - rewrite parse_hextets_values by apply hextets_range.
    by rewrite hextets_value.
Qed.

(** ** The text of an IPv6 network, read again *)

Lemma v6_mask_low p :
  0 ≤ p ≤ 128 →
  Z.land (ipaddress.ip_int_from_prefix ipaddress.IPv6 p) (Z.ones 128)
  = ipaddress.ip_int_from_prefix ipaddress.IPv6 p.
Proof.
  intros Hp.
  assert (forallb (λ p, Z.land (ipaddress.ip_int_from_prefix ipaddress.IPv6 p)
                          (Z.ones 128)
                        =? ipaddress.ip_int_from_prefix ipaddress.IPv6 p)
            (seqZ 0 129) = true) as Hall by (vm_compute; reflexivity).
  rewrite forallb_forall in Hall.
  apply Z.eqb_eq, Hall, list_elem_of_In, elem_of_seqZ. lia.
Qed.

Lemma v6_land_mask_range ip p :
  0 ≤ p ≤ 128 →
  0 ≤ Z.land ip (ipaddress.ip_int_from_prefix ipaddress.IPv6 p) < 2 ^ 128.
Proof.
  intros Hp. rewrite <- (v6_mask_low p Hp), Z.land_assoc.
  rewrite Z.land_ones by lia. apply Z.mod_pos_bound. lia.
Qed.

Lemma partition_Some sep s a b :
  PyStr.partition sep s = (a, Some b) →
  s = a +:+ String sep b ∧ PyStr.contains sep a = false.
Proof.
  revert a. induction s as [|c s IH]; intros a; [done|]. simpl.
  destruct (Ascii.eqb c sep) eqn:Hc.
  - apply Ascii.eqb_eq in Hc as ->. by intros [= <- <-].
  - destruct (PyStr.partition sep s) as [a' b'] eqn:Hp.
    intros [= <- ->]. destruct (IH a' eq_refl) as [-> Ha].
    split; [done|]. simpl. by rewrite Hc, Ha.
Qed.

Lemma partition_app_sep sep a b :
  PyStr.contains sep a = false →
  PyStr.partition sep (a +:+ String sep b) = (a, Some b).
Proof.
  induction a as [|c a IH]; simpl.
  - intros _. by rewrite Ascii.eqb_refl.
  - intros [Hc Ha]%orb_false_iff. rewrite Hc. by rewrite IH.
Qed.

(** The IPv6 networks that [ip_network] returns. *)
Lemma ip_network_v6_inv address net :
  ipaddress.ip_network address = Ok net →
  ipaddress.version net = ipaddress.IPv6 →
  ∃ ip scope p,
    0 ≤ ip < 2 ^ 128 ∧ 0 ≤ p ≤ 128
    ∧ Z.land ip (ipaddress.ip_int_from_prefix ipaddress.IPv6 p) = ip
    ∧ scope_ok scope
    ∧ net = ipaddress.mk_network ipaddress.IPv6 ip scope p.
Proof.
  intros H Hv. apply ip_network_inv in H as [H|[_ H]].
  { apply IPv4Network_inv in H as (? & ? & ? & ? & _ & _ & _ & ->). done. }
  unfold ipaddress.IPv6Network in H.
  destruct (ipaddress.split_addr_prefix address) as [[addr mask]|]; [|done].
  cbn [mbind res_bind] in H.
  destruct (ipaddress.IPv6Address addr) as [[ip scope]|] eqn:Hip; [|done].
  cbn [mbind res_bind] in H.
  destruct (ipaddress.v6_make_netmask mask) as [p|] eqn:Hp; [|done].
  cbn [mbind res_bind] in H. apply v6_make_netmask_range in Hp.
  pose proof (v6_land_mask_range ip p Hp) as Hrange.
  destruct (Z.land ip _ =? ip) eqn:Heq; simpl in H; injection H as <-.
  - apply Z.eqb_eq in Heq. exists ip, scope, p.
    split; [by rewrite <- Heq|]. split; [done|]. split; [done|].
    split; [|done].
    unfold ipaddress.IPv6Address in Hip.
    destruct (PyStr.contains "/" addr) eqn:Hslash; [done|].
    unfold ipaddress.split_scope_id in Hip.
    destruct (PyStr.partition "%" addr) as [a [sc|]] eqn:Hpart.
    + destruct (PyStr.is_empty sc || PyStr.contains "%" sc) eqn:Hchk; [done|].
      apply orb_false_iff in Hchk as [Hne Hpct].
      cbn [mbind res_bind] in Hip.
      destruct (ipaddress.v6_ip_int_from_string a); [|done].
      injection Hip as _ <-. simpl.
      apply partition_Some in Hpart as [-> _].
      rewrite contains_app in Hslash. apply orb_false_iff in Hslash as [_ Hs].
      simpl in Hs. done.
    + cbn [mbind res_bind] in Hip.
      destruct (ipaddress.v6_ip_int_from_string a); [|done].
      by injection Hip as _ <-.
  - exists (Z.land ip (ipaddress.ip_int_from_prefix ipaddress.IPv6 p)), None, p.
    split; [done|]. split; [done|]. split; [|done].
    by rewrite <- Z.land_assoc, Z.land_diag.
Qed.

Lemma all_chars_join (p : ascii → bool) sep l :
  p sep = true →
  Forall (λ h, PyStr.all_chars p h = true) l →
  PyStr.all_chars p (PyStr.join (String sep "") l) = true.
Proof.
  intros Hsep Hall. induction Hall as [|a l Ha Hall IH]; [done|].
  destruct l as [|b l]; [done|].
  change (PyStr.join (String sep "") (a :: b :: l))
    with (a +:+ String sep (PyStr.join (String sep "") (b :: l))).
  rewrite all_chars_app, Ha. cbn [PyStr.all_chars andb]. by rewrite Hsep, IH.
Qed.

Lemma contains_join_sep sep a b l :
  PyStr.contains sep (PyStr.join (String sep "") (a :: b :: l)) = true.
Proof.
  change (PyStr.join (String sep "") (a :: b :: l))
    with (a +:+ String sep (PyStr.join (String sep "") (b :: l))).
  rewrite contains_app. cbn [PyStr.contains]. rewrite Ascii.eqb_refl.
  by rewrite orb_true_r.
Qed.

Lemma compress_hextets_parts hs :
  length hs = 8%nat →
  Forall hextet_text_ok hs →
  ∃ a b l,
    ipaddress.compress_hextets hs = a :: b :: l
    ∧ Forall (λ h, PyStr.all_chars PyStr.is_hex_digit h = true) (a :: b :: l).
Proof.
  intros Hlen Hok.
  assert (Forall (λ h, PyStr.all_chars PyStr.is_hex_digit h = true) hs) as Hhex.
  { eapply Forall_impl; [exact Hok|]. by intros h [_ ?]. }
  destruct (compress_hextets_cases hs) as [->|(bs & bl & Hbl & Hend & _ & ->)].
  { by destruct hs. }
  { destruct hs as [|a [|b l]]; try discriminate Hlen. by exists a, b, l. }
  assert (Forall (λ h, PyStr.all_chars PyStr.is_hex_digit h = true)
            (compressed_parts (take bs hs) (drop (bs + bl) hs))) as Hparts.
  { unfold compressed_parts. repeat apply Forall_app_2.
    - destruct (take bs hs); [|done]. by repeat constructor.
    - by apply Forall_take.
    - by repeat constructor.
    - by apply Forall_drop.
    - destruct (drop (bs + bl) hs); [|done]. by repeat constructor. }
  revert Hparts. unfold compressed_parts.
  destruct (take bs hs) as [|a1 [|a2 A]];
    destruct (drop (bs + bl) hs) as [|b1 [|b2 B]]; cbn [app];
    intros Hparts; by eexists _, _, _.
Qed.

(** The text of an IPv6 address: not empty, made of hexadecimal digits
    and colons, with a colon. *)
Lemma v6_string_chars ip :
  PyStr.is_empty (ipaddress.v6_string_from_ip_int ip) = false
  ∧ PyStr.all_chars is_v6_char (ipaddress.v6_string_from_ip_int ip) = true
  ∧ PyStr.contains ":" (ipaddress.v6_string_from_ip_int ip) = true.
Proof.
  unfold ipaddress.v6_string_from_ip_int.
  change (map _ [7; 6; 5; 4; 3; 2; 1; 0]) with (PyStr.hex_of_int <$> hextets ip).
  destruct (compress_hextets_parts (PyStr.hex_of_int <$> hextets ip))
    as (a & b & l & -> & Hhex).
  - done.
  - apply Forall_fmap, Forall_forall. intros v Hv.
    pose proof (hextets_range ip) as Hr. rewrite Forall_forall in Hr.
    destruct (hextet_text v (Hr v Hv)) as (_ & ? & ? & _). by split.
  - split; [apply join_not_empty|]. split; [|apply contains_join_sep].
    apply all_chars_join; [done|].
    eapply Forall_impl; [exact Hhex|]. intros h Hh.
    apply (all_chars_impl PyStr.is_hex_digit); [|done].
    intros c Hc. unfold is_v6_char. by rewrite Hc.
Qed.

Lemma is_v6_char_plain c :
  is_v6_char c = true →
  c ≠ "."%char ∧ c ≠ "%"%char ∧ c ≠ "/"%char ∧ not_space c = true.
Proof.
  unfold is_v6_char. intros [Hc|Hc]%orb_true_iff.
  - destruct (is_hex_digit_plain c Hc) as (_ & ? & ? & ? & Hsp).
    unfold not_space. by rewrite Hsp.
  - apply Ascii.eqb_eq in Hc as ->. by repeat split.
Qed.

Lemma v6_chars_no_char s c :
  PyStr.all_chars is_v6_char s = true →
  is_v6_char c = false →
  PyStr.contains c s = false.
Proof. intros Hs Hc. by apply (all_chars_contains is_v6_char). Qed.

Lemma rev_app_eq s u : String.rev_app s u = String.rev s +:+ u.
Proof.
  unfold String.rev. revert u. induction s as [|a s IH]; intros u; [done|].
  simpl. rewrite IH, (IH (String a "")). by rewrite string_app_assoc.
Qed.

Lemma rev_app_app s t u :
  String.rev_app (s +:+ t) u = String.rev_app t (String.rev_app s u).
Proof.
  revert u. induction s as [|a s IH]; intros u; [done|].
  rewrite string_app_cons. simpl. apply IH.
Qed.

Lemma rev_app_distr s t :
  String.rev (s +:+ t) = String.rev t +:+ String.rev s.
Proof.
  unfold String.rev at 1. rewrite rev_app_app. apply rev_app_eq.
Qed.

(** A text whose first and last parts have no white space is left as it
    is by [strip]. *)
Lemma strip_ends a m b :
  PyStr.is_empty a = false → PyStr.all_chars not_space a = true →
  PyStr.is_empty b = false → PyStr.all_chars not_space b = true →
  PyStr.strip (a +:+ m +:+ b) = a +:+ m +:+ b.
Proof.
  intros Ha Hsa Hb Hsb.
  assert (∀ x y, PyStr.is_empty x = false → PyStr.all_chars not_space x = true →
                 PyStr.lstrip (x +:+ y) = x +:+ y) as Hl.
  { intros [|c x] y Hx Hsx; [done|]. rewrite string_app_cons. simpl.
    simpl in Hsx. apply andb_true_iff in Hsx as [Hc _].
    unfold not_space in Hc. by destruct (PyStr.isspace c). }
  unfold PyStr.strip, PyStr.rstrip. rewrite Hl by done.
  rewrite <- string_app_assoc, rev_app_distr, Hl.
  - by rewrite <- rev_app_distr, rev_involutive.
  - destruct b as [|c b]; [done|]. unfold String.rev. simpl.
    rewrite rev_app_eq. by destruct (String.rev b).
  - unfold String.rev. by rewrite all_chars_rev_app, Hsb.
Qed.

Lemma res_mapM_parse_octet_error l e :
  res_mapM ipaddress.parse_octet l = Raise e → e = ValueError.
Proof.
  induction l as [|o l IH]; [done|]. simpl.
  destruct (ipaddress.parse_octet o) as [n|e'] eqn:Ho.
  - simpl. destruct (res_mapM ipaddress.parse_octet l); [done|].
    simpl. intros [= <-]. by apply IH.
  - simpl. intros [= <-]. revert Ho. unfold ipaddress.parse_octet.
    repeat (destruct (_ : bool); [by intros [= <-]|]). done.
Qed.

Lemma IPv4Address_error s e :
  ipaddress.IPv4Address s = Raise e → e = AddressValueError.
Proof.
  unfold ipaddress.IPv4Address, ipaddress.v4_ip_int_from_string.
  destruct (PyStr.contains "/" s); [by intros [= <-]|].
  destruct (PyStr.is_empty s); [by intros [= <-]|].
  destruct (negb _); [by intros [= <-]|].
  destruct (res_mapM ipaddress.parse_octet _) as [bs|e'] eqn:Hm; [done|].
  apply res_mapM_parse_octet_error in Hm as ->. by intros [= <-].
Qed.

(** A text with a colon is no IPv4 address. *)
Lemma IPv4Address_colon s :
  PyStr.contains ":" s = true →
  ipaddress.IPv4Address s = Raise AddressValueError.
Proof.
  intros Hs. destruct (ipaddress.IPv4Address s) as [ip|e] eqn:H.
  - rewrite (IPv4Address_chars s ip ":") in Hs; done.
  - by apply IPv4Address_error in H as ->.
Qed.

(** The text of an IPv6 network is read by [ip_network] as that
    network. *)
Lemma ipv6_network_text ip scope p :
  0 ≤ ip < 2 ^ 128 → 0 ≤ p ≤ 128 →
  Z.land ip (ipaddress.ip_int_from_prefix ipaddress.IPv6 p) = ip →
  scope_ok scope →
  let net := ipaddress.mk_network ipaddress.IPv6 ip scope p in
  ipaddress.ip_network (cidr_text net) = Ok net
  ∧ PyStr.strip (cidr_text net) = cidr_text net
  ∧ PyStr.contains "/" (cidr_text net) = true
  ∧ PyStr.is_empty (cidr_text net) = false.
Proof.
  intros Hip Hp Hhost Hscope net.
  destruct (v6_string_chars ip) as (Hne & Hchars & Hcolon).
  pose proof (v6_address_text ip Hip) as Hparse.
  set (v6 := ipaddress.v6_string_from_ip_int ip) in *.
  set (ps := PyStr.str_of_int p).
  assert (PyStr.all_chars PyStr.is_digit ps = true) as Hdig.
  { apply str_of_int_digits. lia. }
  assert (PyStr.contains "/" ps = false) as Hps.
  { by apply (all_chars_contains PyStr.is_digit). }
  assert (∀ c, is_v6_char c = false → PyStr.contains c v6 = false) as Hno.
  { intros c Hc. by apply v6_chars_no_char. }
  assert (PyStr.all_chars not_space v6 = true) as Hsp.
  { apply (all_chars_impl is_v6_char); [|done].
    intros c Hc. by apply is_v6_char_plain in Hc as (_ & _ & _ & ?). }
  assert (PyStr.all_chars not_space ps = true) as Hsps.
  { apply (all_chars_impl PyStr.is_digit); [|done]. apply is_digit_no_space. }
  assert (PyStr.is_empty ps = false) as Hnps by apply str_of_int_not_empty.
  set (A := ipaddress.address_str net).
  assert (cidr_text net = A +:+ "/" +:+ ps) as Htext by done.
  assert (PyStr.contains "/" A = false ∧ PyStr.contains ":" A = true
          ∧ PyStr.is_empty A = false
          ∧ ipaddress.IPv6Address A = Ok (ip, scope)
          ∧ PyStr.strip (A +:+ "/" +:+ ps) = A +:+ "/" +:+ ps)
    as (HAslash & HAcolon & HAne & HA6 & Hstrip).
  { subst A. unfold ipaddress.address_str. cbn [ipaddress.version net].
    cbn [ipaddress.scope_id net ipaddress.network_address]. fold v6.
    destruct scope as [sc|].
    - destruct Hscope as (Hsne & Hspct & Hsslash).
      change (v6 +:+ "%" +:+ sc) with (v6 +:+ String "%" sc).
      assert (PyStr.contains "/" (v6 +:+ String "%" sc) = false) as Hs.
      { rewrite contains_app, (Hno "/"%char) by done. simpl. done. }
      split; [done|]. split.
      { by rewrite contains_app, Hcolon. }
      split; [by apply is_empty_app|]. split.
      + unfold ipaddress.IPv6Address. rewrite Hs.
        unfold ipaddress.split_scope_id.
        rewrite partition_app_sep by by apply Hno.
        rewrite Hsne, Hspct. cbn [orb mbind res_bind]. by rewrite Hparse.
      + rewrite string_app_assoc. by apply strip_ends.
    - split; [by apply Hno|]. split; [done|]. split; [done|]. split.
      + unfold ipaddress.IPv6Address. rewrite (Hno "/"%char) by done.
        unfold ipaddress.split_scope_id.
        rewrite partition_no_sep by by apply Hno.
        cbn [mbind res_bind]. by rewrite Hparse.
      + by apply strip_ends. }
  split; [|split; [|split]].
  - rewrite Htext. unfold ipaddress.ip_network.
    assert (ipaddress.IPv4Network (A +:+ "/" +:+ ps) = Raise AddressValueError)
      as ->.
    { unfold ipaddress.IPv4Network.
      rewrite (split_addr_prefix_app A ps HAslash Hps). cbn [mbind res_bind].
      by rewrite (IPv4Address_colon A HAcolon). }
    unfold ipaddress.IPv6Network.
    rewrite (split_addr_prefix_app A ps HAslash Hps). cbn [mbind res_bind].
    rewrite HA6. cbn [mbind res_bind ipaddress.v6_make_netmask].
    unfold ps. rewrite prefix_text by done. cbn [mbind res_bind].
    rewrite Hhost, Z.eqb_refl. done.
  - by rewrite Htext.
  - rewrite Htext, !contains_app.
    change (PyStr.contains "/" "/") with true.
    by rewrite orb_true_l, orb_true_r.
  - rewrite Htext. by apply is_empty_app.
Qed.

(** ** The list, read again *)

(** The text of a network that [ip_network] returned is read by
    [ip_network] as that network. *)
Lemma network_text address net :
  ipaddress.ip_network address = Ok net →
  ipaddress.ip_network (cidr_text net) = Ok net
  ∧ PyStr.strip (cidr_text net) = cidr_text net
  ∧ PyStr.contains "/" (cidr_text net) = true
  ∧ PyStr.is_empty (cidr_text net) = false.
Proof.
  intros Hnet. destruct (ipaddress.version net) eqn:Hv.
  - destruct (ip_network_v4_inv _ _ Hnet Hv) as (ip & p & Hip & Hp & Hhost & ->).
    by apply ipv4_network_text.
  - destruct (ip_network_v6_inv _ _ Hnet Hv)
      as (ip & scope & p & Hip & Hp & Hhost & Hscope & ->).
    by apply ipv6_network_text.
Qed.

(** [add_cidr] on the text of a network that [ip_network] returned adds
    that text, when the family admits the network. *)
Lemma add_cidr_text family address net cidrs :
  ipaddress.ip_network address = Ok net →
  family_admits family net = true →
  add_cidr family (cidr_text net) JNull cidrs = Ok ({[ cidr_text net ]} ∪ cidrs).
Proof.
  intros Hnet Hadm.
  destruct (network_text _ _ Hnet) as (Hparse & Hstrip & Hslash & Hne).
  unfold add_cidr. rewrite Hstrip, Hne. unfold add_cidr_try.
  rewrite Hslash, Hparse.
  unfold family_admits in Hadm.
  apply andb_true_iff in Hadm as [H4%negb_true_iff H6%negb_true_iff].
  by rewrite H4, H6.
Qed.

(** X4: the program reads what it writes.  A fetched list is a fixed
    point of the extraction, IPv4 and IPv6 entries alike: a feed that is
    the list itself, as strings, is fetched as the same list, for the
    same family or for one that filters nothing; and so is the body that
    [vm_update_dpl] and [vm_create_dpl] send for it, when the name of
    the list holds no slash. *)
Theorem fetched_list_is_read_back (py_repr : json → string)
    (requests_get : string → res (res json)) (url : string)
    (lst : list string) (family family' : string) :
  fetch_zscaler_prefixes py_repr requests_get url family = Ok lst →
  family' = family ∨ (family' ≠ "ipv4" ∧ family' ≠ "ipv6") →
  (∀ requests_get',
     requests_get' url = Ok (Ok (JList (JStr <$> lst))) →
     fetch_zscaler_prefixes py_repr requests_get' url family' = Ok lst)
  ∧ (∀ requests_get' name,
       PyStr.contains "/" name = false →
       requests_get' url = Ok (Ok (dpl_payload name lst)) →
       fetch_zscaler_prefixes py_repr requests_get' url family' = Ok lst).
Proof.
  intros Hfetch Hfamily.
  destruct (fetch_inv _ _ _ _ _ Hfetch) as (data & Hurl & _ & Hlst).
  assert (∀ x, x ∈ lst →
            extracted py_repr family' (JStr x) = {[ x ]}
            ∧ extracted py_repr family' (ip_prefix_entry x) = {[ x ]}) as Hx.
  { intros x Hx. rewrite Hlst in Hx. apply sorted_elem_of in Hx.
    apply extracted_calls in Hx
      as (value & mask & _ & net & _ & Htry & Hadm & ->).
    destruct (add_cidr_try_network _ _ _ Htry) as (address & Hnet).
    assert (family_admits family' net = true) as Hadm'.
    { destruct Hfamily as [->|[H4%String.eqb_neq H6%String.eqb_neq]]; [done|].
      unfold family_admits. by rewrite H4, H6. }
    apply extracted_text.
    - intros cidrs. by apply (add_cidr_text family' address).
    - by apply (network_text address). }
  assert (sorted (list_to_set lst) = lst) as Hsorted.
  { by rewrite Hlst, sorted_list_to_set. }
  split.
  - intros requests_get' Hget.
    rewrite (fetch_extracted _ _ _ _ _ Hurl Hget), extracted_list.
    rewrite extracted_texts; [by rewrite Hsorted|]. intros x Hin. by apply Hx.
  - intros requests_get' name Hname Hget.
    rewrite (fetch_extracted _ _ _ _ _ Hurl Hget), extracted_dpl_payload by done.
    rewrite extracted_list.
    rewrite extracted_texts; [by rewrite Hsorted|]. intros x Hin. by apply Hx.
Qed.

Lemma fetched_list_is_read_back_witness :
  sample_fetch "both"
    (JList [JStr "2001:db8::1/32"; JStr "192.0.2.7/32";
            JStr "fe80::%eth0/64"; JStr "fe80::1%eth1/64"])
  = Ok ["192.0.2.7/32"; "2001:db8::/32"; "fe80::%eth0/64"; "fe80::/64"]
  ∧ ("both" = "both" ∨ ("both" ≠ "ipv4" ∧ "both" ≠ "ipv6"))
  ∧ sample_fetch "both"
      (dpl_payload "ZSCALER_BYPASS"
         ["192.0.2.7/32"; "2001:db8::/32"; "fe80::%eth0/64"; "fe80::/64"])
    = Ok ["192.0.2.7/32"; "2001:db8::/32"; "fe80::%eth0/64"; "fe80::/64"].
Proof.
  assert (sample_fetch "both"
            (JList [JStr "2001:db8::1/32"; JStr "192.0.2.7/32";
                    JStr "fe80::%eth0/64"; JStr "fe80::1%eth1/64"])
          = Ok ["192.0.2.7/32"; "2001:db8::/32"; "fe80::%eth0/64";
                "fe80::/64"]) as Hfetch
    by (vm_compute; reflexivity).
  assert ("both" = "both" ∨ ("both" ≠ "ipv4" ∧ "both" ≠ "ipv6")) as Hfamily
    by (by left).
  split; [exact Hfetch|]. split; [exact Hfamily|].
  exact (proj2 (fetched_list_is_read_back sample_repr _ _ _ "both" "both"
                  Hfetch Hfamily)
           (λ _, Ok (Ok (dpl_payload "ZSCALER_BYPASS"
                           ["192.0.2.7/32"; "2001:db8::/32";
                            "fe80::%eth0/64"; "fe80::/64"])))
           "ZSCALER_BYPASS" eq_refl eq_refl).
Defined.

(** X15: one entry a network.  Two values of the feed that parse give
    the same entry exactly when they parse to the same network: the
    text of a network tells it from every other, so the fetched list
    has as many entries as the feed has networks that the family
    admits. *)
Theorem one_entry_per_network (value1 value2 : string) (mask1 mask2 : json)
    (net1 net2 : ipaddress.network) :
  add_cidr_try value1 mask1 = Ok net1 →
  add_cidr_try value2 mask2 = Ok net2 →
  cidr_text net1 = cidr_text net2 ↔ net1 = net2.
Proof.
  intros (a1 & H1)%add_cidr_try_network (a2 & H2)%add_cidr_try_network.
  split; [|by intros ->]. intros Heq.
  destruct (network_text _ _ H1) as (Hp1 & _).
  destruct (network_text _ _ H2) as (Hp2 & _).
  rewrite Heq in Hp1. rewrite Hp1 in Hp2. by injection Hp2.
Qed.

Lemma one_entry_per_network_witness :
  add_cidr_try "10.0.0.1/8" JNull
  = Ok (ipaddress.mk_network ipaddress.IPv4 167772160 None 8)
  ∧ add_cidr_try "10.0.0.0" (JStr "8")
    = Ok (ipaddress.mk_network ipaddress.IPv4 167772160 None 8)
  ∧ (cidr_text (ipaddress.mk_network ipaddress.IPv4 167772160 None 8)
     = cidr_text (ipaddress.mk_network ipaddress.IPv4 167772160 None 8)
     ↔ ipaddress.mk_network ipaddress.IPv4 167772160 None 8
       = ipaddress.mk_network ipaddress.IPv4 167772160 None 8).
Proof.
  assert (add_cidr_try "10.0.0.1/8" JNull
          = Ok (ipaddress.mk_network ipaddress.IPv4 167772160 None 8)) as H1
    by (vm_compute; reflexivity).
  assert (add_cidr_try "10.0.0.0" (JStr "8")
          = Ok (ipaddress.mk_network ipaddress.IPv4 167772160 None 8)) as H2
    by (vm_compute; reflexivity).
  split; [exact H1|]. split; [exact H2|].
  exact (one_entry_per_network _ _ _ _ _ _ H1 H2).
Defined.

(** ** The mask of a bare IPv6 address *)

Lemma prefix_from_prefix_string_out_of_range v n :
  n < 0 ∨ ipaddress.max_prefixlen v < n →
  ipaddress.prefix_from_prefix_string v (PyStr.str_of_int n)
  = Raise NetmaskValueError.
Proof.
  intros Hn. unfold ipaddress.prefix_from_prefix_string.
  destruct (negb _) eqn:Hdig; [done|]. destruct (_ <? _); [done|].
  apply negb_false_iff, andb_true_iff in Hdig as [_ Hdig].
  assert (0 ≤ ipaddress.max_prefixlen v) by (destruct v; simpl; lia).
  destruct (Z.ltb_spec n 0) as [Hneg|Hpos].
  - unfold PyStr.str_of_int in Hdig.
    rewrite (proj2 (Z.ltb_lt n 0) Hneg) in Hdig. done.
  - destruct (str_of_int_decimal n Hpos) as [-> _].
    destruct (n <=? ipaddress.max_prefixlen v) eqn:Hle.
    { apply Z.leb_le in Hle. lia. }
    by rewrite andb_false_r.
Qed.

(** A text that parses as an IPv6 address has a colon, no slash, and is
    not empty. *)
Lemma IPv6Address_chars s ip scope :
  ipaddress.IPv6Address s = Ok (ip, scope) →
  PyStr.contains ":" s = true ∧ PyStr.contains "/" s = false
  ∧ PyStr.is_empty s = false.
Proof.
  unfold ipaddress.IPv6Address.
  destruct (PyStr.contains "/" s) eqn:Hslash; [done|].
  unfold ipaddress.split_scope_id.
  assert (∀ a, (∃ r, ipaddress.v6_ip_int_from_string a = Ok r) →
               PyStr.contains ":" a = true ∧ PyStr.is_empty a = false) as Hv6.
  { intros a (r & Hr). unfold ipaddress.v6_ip_int_from_string in Hr.
    destruct (PyStr.is_empty a); [done|]. split; [|done].
    destruct (PyStr.contains ":" a) eqn:Hc; [done|].
    by rewrite split_no_sep in Hr. }
  destruct (PyStr.partition "%" s) as [a [sc|]] eqn:Hpart.
  - destruct (_ || _); [done|]. cbn [mbind res_bind].
    destruct (ipaddress.v6_ip_int_from_string a) as [r|] eqn:Hr; [|done].
    intros _. destruct (Hv6 a) as [Hc Hne]; [by exists r|].
    apply partition_Some in Hpart as [-> _].
    split; [by rewrite contains_app, Hc|]. split; [done|].
    by apply is_empty_app.
  - cbn [mbind res_bind].
    destruct (ipaddress.v6_ip_int_from_string a) as [r|] eqn:Hr; [|done].
    intros _. destruct (Hv6 a) as [Hc Hne]; [by exists r|].
    assert (a = s) as <-.
    { clear -Hpart. revert a Hpart. induction s as [|c s IH]; intros a.
      - by intros [= <-].
      - simpl. destruct (Ascii.eqb c "%"); [done|].
        destruct (PyStr.partition "%" s) as [a' b'].
        intros [= <- ->]. f_equal. by apply IH. }
    done.
Qed.

(** X16: the mask of a bare IPv6 address.  A mask that is not [None]
    goes through [int]; when that gives a length from 0 to 128 the
    entry added is the network of that length that holds the address,
    which keeps its zone when its host bits are already zero; when it
    gives any other number nothing is added. *)
Theorem ipv6_mask_bounds (family address : string) (ip : Z)
    (scope : option string) (mask : json) (n : Z) (cidrs : gset string) :
  ipaddress.IPv6Address (PyStr.strip address) = Ok (ip, scope) →
  family ≠ "ipv4" →
  Py.is_not_None mask = true →
  Py.int mask = Ok n →
  (0 ≤ n ≤ 128 →
     let netmask := ipaddress.ip_int_from_prefix ipaddress.IPv6 n in
     add_cidr family address mask cidrs
     = Ok ({[ cidr_text
                (if Z.land ip netmask =? ip
                 then ipaddress.mk_network ipaddress.IPv6 ip scope n
                 else ipaddress.mk_network ipaddress.IPv6
                        (Z.land ip netmask) None n) ]} ∪ cidrs))
  ∧ (n < 0 ∨ 128 < n → add_cidr family address mask cidrs = Ok cidrs).
Proof.
  intros Haddr Hfamily Hmask Hint.
  destruct (IPv6Address_chars _ _ _ Haddr) as (Hcolon & Hbare & Hempty).
  assert (PyStr.contains "/" (PyStr.str_of_int n) = false) as Hslash.
  { by apply str_of_int_chars. }
  assert (add_cidr_try (PyStr.strip address) mask
          = ipaddress.ip_network
              (PyStr.strip address +:+ "/" +:+ PyStr.str_of_int n)) as Htry.
  { unfold add_cidr_try. by rewrite Hbare, Hmask, Hint. }
  assert (ipaddress.IPv4Network
            (PyStr.strip address +:+ "/" +:+ PyStr.str_of_int n)
          = Raise AddressValueError) as H4.
  { unfold ipaddress.IPv4Network.
    rewrite (split_addr_prefix_app _ _ Hbare Hslash). cbn [mbind res_bind].
    by rewrite (IPv4Address_colon _ Hcolon). }
  split.
  - intros Hn netmask. unfold add_cidr. rewrite Hempty, Htry.
    unfold ipaddress.ip_network. rewrite H4. unfold ipaddress.IPv6Network.
    rewrite (split_addr_prefix_app _ _ Hbare Hslash). cbn [mbind res_bind].
    rewrite Haddr. cbn [mbind res_bind ipaddress.v6_make_netmask].
    rewrite prefix_text by done. cbn [mbind res_bind]. fold netmask.
    apply String.eqb_neq in Hfamily. rewrite Hfamily.
    destruct (Z.land ip netmask =? ip); simpl; by rewrite andb_false_r.
  - intros Hn. unfold add_cidr. rewrite Hempty, Htry.
    unfold ipaddress.ip_network. rewrite H4. unfold ipaddress.IPv6Network.
    rewrite (split_addr_prefix_app _ _ Hbare Hslash). cbn [mbind res_bind].
    rewrite Haddr. cbn [mbind res_bind ipaddress.v6_make_netmask].
    by rewrite prefix_from_prefix_string_out_of_range.
Qed.

Lemma ipv6_mask_bounds_witness :
  ipaddress.IPv6Address (PyStr.strip "2001:db8::1")
  = Ok (0x20010db8000000000000000000000001, None)
  ∧ "both" ≠ "ipv4"
  ∧ Py.is_not_None (JInt 48) = true
  ∧ Py.int (JInt 48) = Ok 48
  ∧ add_cidr "both" "2001:db8::1" (JInt 48) ∅ = Ok ({[ "2001:db8::/48" ]} ∪ ∅).
Proof.
  assert (ipaddress.IPv6Address (PyStr.strip "2001:db8::1")
          = Ok (0x20010db8000000000000000000000001, None)) as Haddr
    by (vm_compute; reflexivity).
  assert ("both" ≠ "ipv4") as Hfamily by discriminate.
  split; [exact Haddr|]. split; [exact Hfamily|]. split; [reflexivity|].
  split; [reflexivity|].
  assert (0 ≤ 48 ≤ 128) as Hn by lia.
  pose proof (proj1 (ipv6_mask_bounds "both" "2001:db8::1" _ None (JInt 48) 48 ∅
                       Haddr Hfamily eq_refl eq_refl) Hn) as H.
  cbv zeta in H. rewrite H. f_equal.
Defined.
